(** * ZooKeeper check (checks.d/zk.py): a shallow embedding and its properties

    The check talks to a ZooKeeper server over the four-letter-word admin
    port (`ruok`, `stat`, `mntr`), parses the textual answers and emits
    gauges, counters and service checks.  The embedding follows the Python
    source function by function:

    - Python 2 `str` values are byte strings: [string] (a list of [ascii]);
    - `long`/`int` values are [Z];
    - the `metrics` dictionary of `parse_mntr` and the `gauges` dictionary of
      `set_instance_status` are [gmap string _];
    - a raised exception is the [Raise] branch of [result];
    - the emissions of the check (gauges, counters, service checks, commands
      written to the socket) are an explicit event log threaded through
      `check`.

    The pid-file helper (utils/pidfile.py) is embedded after the check:
    what it asks of the operating system is a record of functions, the
    regular files are a [gmap] from paths to contents. *)

From Stdlib Require Import ZArith NArith Ascii String List Bool Lia.
From Stdlib Require Import DecimalString DecimalPos.
From stdpp Require Import base option gmap strings list fin_maps.

Local Open Scope Z_scope.

(** ** Exceptions and results *)

(** The exception classes that the modelled code can raise. *)
Inductive exn :=
| ZKConnectionFailure                 (* class ZKConnectionFailure *)
| SocketTimeout                       (* socket.timeout *)
| SocketError                         (* socket.error *)
| GenericException (msg : string)     (* raise Exception("...") *)
| ValueError                          (* int()/long() and tuple unpacking *)
| KeyError (key : string)             (* dict.pop on a missing key *)
| AttributeError                      (* list object has no attribute join *)
| StructError                         (* struct.pack out of range *)
| UnboundLocalError (var : string)    (* local read before assignment *)
| UnicodeDecodeError                  (* implicit ascii decoding *)
| TypeError.                          (* iterating over None *)

Inductive result (A : Type) :=
| Return (a : A)
| Raise (e : exn).
Arguments Return {A} a.
Arguments Raise {A} e.

#[global] Instance result_ret : MRet result := fun A a => Return a.

#[global] Instance result_bind : MBind result := fun A B k r =>
  match r with
  | Return a => k a
  | Raise e => Raise e
  end.

(** ** Python 2 byte-string primitives *)

Module Py.

Definition nl : ascii := ascii_of_nat 10.

(** `str.isspace` for one byte in the C locale: space and \t \n \v \f \r. *)
Definition isspace (c : ascii) : bool :=
  let n := N_of_ascii c in
  ((n =? 32) || ((9 <=? n) && (n <=? 13)))%N.

Definition isdigit (c : ascii) : bool :=
  let n := N_of_ascii c in ((48 <=? n) && (n <=? 57))%N.

Definition islower (c : ascii) : bool :=
  let n := N_of_ascii c in ((97 <=? n) && (n <=? 122))%N.

Definition isupper (c : ascii) : bool :=
  let n := N_of_ascii c in ((65 <=? n) && (n <=? 90))%N.

(** One byte of `str.lower`. *)
Definition lower_ascii (c : ascii) : ascii :=
  if isupper c then ascii_of_N (N_of_ascii c + 32) else c.

Fixpoint lower (s : string) : string :=
  match s with
  | EmptyString => EmptyString
  | String c s' => String (lower_ascii c) (lower s')
  end.

(** `str.lstrip()`, `str.rstrip()` and `str.strip()` without argument. *)
Fixpoint lstrip (s : string) : string :=
  match s with
  | String c s' => if isspace c then lstrip s' else s
  | EmptyString => EmptyString
  end.

Fixpoint rstrip (s : string) : string :=
  match s with
  | EmptyString => EmptyString
  | String c s' =>
      match rstrip s' with
      | EmptyString => if isspace c then EmptyString else String c EmptyString
      | r => String c r
      end
  end.

Definition strip (s : string) : string := rstrip (lstrip s).

(** `s.split(sep)` for a one-byte separator: every occurrence cuts, empty
    pieces are kept, the result is never empty. *)
Fixpoint split_on (sep : ascii) (s : string) : list string :=
  match s with
  | EmptyString => [EmptyString]
  | String c s' =>
      if Ascii.eqb c sep then EmptyString :: split_on sep s'
      else match split_on sep s' with
           | w :: ws => String c w :: ws
           | [] => [String c EmptyString]
           end
  end.

(** `s.split()` without argument: the maximal runs of non-space bytes.
    [words s] is the run that starts at the head of [s] (empty when [s]
    starts with a space) and the list of the later runs. *)
Fixpoint words (s : string) : string * list string :=
  match s with
  | EmptyString => (EmptyString, [])
  | String c s' =>
      let '(w, ws) := words s' in
      if isspace c
      then (EmptyString, match w with EmptyString => ws | _ => w :: ws end)
      else (String c w, ws)
  end.

Definition split_ws (s : string) : list string :=
  let '(w, ws) := words s in
  match w with EmptyString => ws | _ => w :: ws end.

(** `s.startswith(p)` *)
Fixpoint startswith (p s : string) : bool :=
  match p with
  | EmptyString => true
  | String a p' =>
      match s with
      | EmptyString => false
      | String b s' => Ascii.eqb a b && startswith p' s'
      end
  end.

(** `s.replace(old, new)`: non-overlapping occurrences, left to right.
    [old] is non-empty at both call sites; [skip] is what is left of the
    occurrence being replaced. *)
Fixpoint replace_from (skip : nat) (old new s : string) : string :=
  match s with
  | EmptyString => EmptyString
  | String c s' =>
      match skip with
      | S k => replace_from k old new s'
      | O =>
          if startswith old s
          then new +:+ replace_from (String.length old - 1) old new s'
          else String c (replace_from 0 old new s')
      end
  end.

Definition replace (old new s : string) : string := replace_from 0 old new s.

(** *** `int(s)`, `long(s)` and `long(s, 16)`

    CPython 2 reads a number as: optional white space, an optional sign,
    optional white space again, for base 16 an optional `0x`/`0X`, at least
    one digit of the base, for `long` an optional `L`/`l`, optional white
    space, end of string. *)
Definition digit_val (c : ascii) : option Z :=
  let n := Z.of_N (N_of_ascii c) in
  if isdigit c then Some (n - 48)
  else if islower c then Some (n - 97 + 10)
  else if isupper c then Some (n - 65 + 10)
  else None.

(** Reads the longest run of digits of [base]; [seen] tells whether one
    was read already. *)
Fixpoint read_digits (base acc : Z) (seen : bool) (s : string)
  : option (Z * string) :=
  match s with
  | EmptyString => if seen then Some (acc, EmptyString) else None
  | String c s' =>
      match digit_val c with
      | Some d =>
          if d <? base then read_digits base (acc * base + d) true s'
          else if seen then Some (acc, s) else None
      | None => if seen then Some (acc, s) else None
      end
  end.

Definition read_sign (s : string) : Z * string :=
  match s with
  | String "+" r => (1, r)
  | String "-" r => (-1, r)
  | _ => (1, s)
  end.

Definition skip_hex_prefix (base : Z) (s : string) : string :=
  match s with
  | String "0" (String "x" r) | String "0" (String "X" r) =>
      if base =? 16 then r else s
  | _ => s
  end.

Definition skip_long_suffix (allow : bool) (s : string) : string :=
  match s with
  | String "L" r | String "l" r => if allow then r else s
  | _ => s
  end.

Definition read_number (base : Z) (long_suffix : bool) (s : string)
  : option Z :=
  let '(sign, s1) := read_sign (lstrip s) in
  match read_digits base 0 false (skip_hex_prefix base (lstrip s1)) with
  | None => None
  | Some (v, rest) =>
      match lstrip (skip_long_suffix long_suffix rest) with
      | EmptyString => Some (sign * v)
      | _ => None
      end
  end.

(** `int(s)`; ValueError when [s] is not a decimal literal. *)
Definition int (s : string) : result Z :=
  match read_number 10 false s with
  | Some z => Return z
  | None => Raise ValueError
  end.

(** `long(s)` and `long(s, base)`. *)
Definition long (s : string) (base : Z) : result Z :=
  match read_number base true s with
  | Some z => Return z
  | None => Raise ValueError
  end.

(** `str(n)` / `"%s" % n` for an integer. *)
Definition str_of_Z (z : Z) : string := NilZero.string_of_int (Z.to_int z).

(** Implicit decoding of a byte string where a `unicode` object meets a
    `str`: the default codec is ascii. *)
Definition is_ascii (s : string) : bool :=
  forallb (fun c => (N_of_ascii c <? 128)%N) (list_ascii_of_string s).

Definition decode_ascii (s : string) : result string :=
  if is_ascii s then Return s else Raise UnicodeDecodeError.

(** *** `StringIO`: `readline` and line iteration

    After `buf.seek(0)` the parsers only call `readline` and iterate over
    the lines, so the buffer they see is the list of its lines, each with
    its terminator (the last one may lack it). *)
Fixpoint lines (buf : string) : list string :=
  match buf with
  | EmptyString => []
  | String c buf' =>
      if Ascii.eqb c nl then String c EmptyString :: lines buf'
      else match lines buf' with
           | l :: ls => String c l :: ls
           | [] => [String c EmptyString]
           end
  end.

(** `buf.readline()`: the next line and the buffer after it; the empty
    string once the end is reached. *)
Definition readline (ls : list string) : string * list string :=
  match ls with
  | [] => (EmptyString, [])
  | l :: ls' => (l, ls')
  end.

(** `readline` on the text that is left after the cursor: the text up to
    and including the first terminator, and what follows it.  [lines] and
    [readline] give the same lines (lemma [readline_lines]). *)
Fixpoint readline_text (buf : string) : string * string :=
  match buf with
  | EmptyString => (EmptyString, EmptyString)
  | String c buf' =>
      if Ascii.eqb c nl then (String c EmptyString, buf')
      else let '(l, r) := readline_text buf' in (String c l, r)
  end.

(** *** `struct.pack('>q', n)` and `struct.unpack('>i', s)` *)

(** The [n] low-order bytes of [z], most significant first. *)
Fixpoint be_bytes (n : nat) (z : Z) : string :=
  match n with
  | O => EmptyString
  | S k =>
      be_bytes k (Z.shiftr z 8)
      +:+ String (ascii_of_N (Z.to_N (Z.land z 255))) EmptyString
  end.

Fixpoint be_value (acc : Z) (s : string) : Z :=
  match s with
  | EmptyString => acc
  | String c s' => be_value (acc * 256 + Z.of_N (N_of_ascii c)) s'
  end.

Definition pack_q (z : Z) : result string :=
  if (- 2 ^ 63 <=? z) && (z <? 2 ^ 63) then Return (be_bytes 8 z)
  else Raise StructError.

Definition unpack_i (s : string) : result Z :=
  if (String.length s =? 4)%nat
  then let u := be_value 0 s in
       Return (if u <? 2 ^ 31 then u else u - 2 ^ 32)
  else Raise StructError.

(** `s[i:j]` for 0 <= i <= j. *)
Definition slice (i j : nat) (s : string) : string :=
  String.substring i (j - i) s.

(** *** Ordering of `str` values and of tuples of them *)
Definition str_cmp (a b : string) : comparison := String.compare a b.

(** `cmp` of two 3-tuples: the first position that differs decides. *)
Definition tuple3_cmp (x y : string * string * string) : comparison :=
  let '(x1, x2, x3) := x in
  let '(y1, y2, y3) := y in
  match str_cmp x1 y1 with
  | Eq => match str_cmp x2 y2 with
          | Eq => str_cmp x3 y3
          | c => c
          end
  | c => c
  end.

Definition tuple3_ge (x y : string * string * string) : bool :=
  match tuple3_cmp x y with Lt => false | _ => true end.

End Py.

(** ** The regular expressions the check uses *)

Module Re.

(** The fragment of `re` syntax that `version_pattern` is written in. *)
Inductive item :=
| Lit (c : ascii)          (* a literal character *)
| GroupNot (c : ascii).    (* the capturing group `([^c]+)` *)

(** A literal under `re.I`: both sides are lower-cased. *)
Definition lit_eqb (a c : ascii) : bool :=
  Ascii.eqb (Py.lower_ascii a) (Py.lower_ascii c).

(** `([^c]+)` followed by the rest of the pattern, whose matcher is [k]:
    greedy, at least one character, giving characters back one at a time
    when the rest fails.  Returns the captured text and the later groups. *)
Fixpoint group_not (c : ascii) (k : string -> option (list string))
  (s : string) : option (string * list string) :=
  match s with
  | EmptyString => None
  | String a s' =>
      if Ascii.eqb a c then None
      else match group_not c k s' with
           | Some (g, gs) => Some (String a g, gs)
           | None =>
               match k s' with
               | Some gs => Some (String a EmptyString, gs)
               | None => None
               end
           end
  end.

(** `pattern.match(s)` with `flags=re.I`: anchored at the start of [s],
    free at its end; the result is `match.groups()`. *)
Fixpoint match_ (p : list item) (s : string) : option (list string) :=
  match p with
  | [] => Some []
  | Lit c :: p' =>
      match s with
      | String a s' => if lit_eqb a c then match_ p' s' else None
      | EmptyString => None
      end
  | GroupNot c :: p' =>
      match group_not c (match_ p') s with
      | Some (g, gs) => Some (g :: gs)
      | None => None
      end
  end.

Definition lits (s : string) : list item := map Lit (list_ascii_of_string s).

End Re.

(** ** `distutils.version.LooseVersion` *)

Module LooseVersion.

(** A component of a parsed version: `int` or `str`. *)
Inductive component :=
| CInt (n : Z)
| CStr (s : string).

(** `component_re = re.compile(r'(\d+ | [a-z]+ | \.)', re.VERBOSE)`:
    `component_re.split` cuts the string into runs of digits, runs of
    lower-case letters, single dots, and the text in between. *)
Inductive cclass := Digits | Letters | Dot | Between.

Definition classify (c : ascii) : cclass :=
  if Py.isdigit c then Digits
  else if Py.islower c then Letters
  else if Ascii.eqb c "." then Dot
  else Between.

Definition same_run (a b : cclass) : bool :=
  match a, b with
  | Digits, Digits | Letters, Letters | Between, Between => true
  | _, _ => false
  end.

Fixpoint runs (s : string) : list (cclass * string) :=
  match s with
  | EmptyString => []
  | String c s' =>
      let k := classify c in
      match runs s' with
      | (k', w) :: rest =>
          if same_run k k' then (k, String c w) :: rest
          else (k, String c EmptyString) :: (k', w) :: rest
      | [] => [(k, String c EmptyString)]
      end
  end.

(** `filter(lambda x: x and x != '.', ...)`, then `int(x)` where it does
    not raise ValueError. *)
Definition component_of (w : string) : component :=
  match Py.int w with
  | Return n => CInt n
  | Raise _ => CStr w
  end.

Definition parse (vstring : string) : list component :=
  map (fun r => component_of (snd r))
      (List.filter (fun r => negb (String.eqb (snd r) ".")) (runs vstring)).

(** Python 2 `cmp` of two components: numbers sort before strings. *)
Definition component_cmp (a b : component) : comparison :=
  match a, b with
  | CInt x, CInt y => Z.compare x y
  | CInt _, CStr _ => Lt
  | CStr _, CInt _ => Gt
  | CStr x, CStr y => Py.str_cmp x y
  end.

(** `cmp` of two lists. *)
Fixpoint cmp (a b : list component) : comparison :=
  match a, b with
  | [], [] => Eq
  | [], _ :: _ => Lt
  | _ :: _, [] => Gt
  | x :: a', y :: b' =>
      match component_cmp x y with
      | Eq => cmp a' b'
      | c => c
      end
  end.

(** `LooseVersion(a) > LooseVersion(b)`. *)
Definition gt (a b : string) : bool :=
  match cmp (parse a) (parse b) with Gt => true | _ => false end.

End LooseVersion.

(** ** The sink of the check and the sockets it opens *)

Inductive sc_status := OK | WARNING | CRITICAL.

(** What an invocation of the check does to the outside: the `AgentCheck`
    methods it calls, what it prints, and the commands it opens a socket
    for. *)
Inductive event :=
| Command (command : string)                         (* _send_command *)
| Increment (name : string)                          (* self.increment *)
| ServiceCheck (name : string) (status : sc_status)
    (message : string) (tags : list string)          (* self.service_check *)
| Gauge (name : string) (value : Z) (tags : list string)   (* self.gauge *)
| SetValue (name value : string) (tags : list string)      (* self.set *)
| Stderr (e : exn).                                   (* print >> sys.stderr *)

(** The server side of one connection: whether `connect` and `sendall`
    raise, and what the successive calls of `recv` return (call 0 is the
    first one; the empty string is the end of the stream). *)
Record peer := {
  p_connect : option exn;
  p_sendall : option exn;
  p_recv : nat -> result string
}.

Record instance := {
  i_host : string;
  i_port : Z;
  i_expected_mode : option string;
  i_tags : list string
}.

(** An action emits events, in order, and then returns or raises. *)
Inductive action (A : Type) := Act (events : list event) (outcome : result A).
Arguments Act {A} events outcome.

Definition events {A} (m : action A) : list event :=
  match m with Act evs _ => evs end.
Definition outcome {A} (m : action A) : result A :=
  match m with Act _ r => r end.

#[global] Instance action_ret : MRet action := fun A a => Act [] (Return a).

#[global] Instance action_bind : MBind action := fun A B k m =>
  match m with
  | Act evs (Return a) =>
      match k a with Act evs' r => Act (evs ++ evs') r end
  | Act evs (Raise e) => Act evs (Raise e)
  end.

Definition emit (e : event) : action unit := Act [e] (Return tt).
Definition lift {A} (r : result A) : action A := Act [] r.
Definition raise {A} (e : exn) : action A := Act [] (Raise e).

(** `for x in l: body(x)` *)
Fixpoint for_each {A} (l : list A) (body : A -> action unit) : action unit :=
  match l with
  | [] => mret tt
  | x :: l' => body x;; for_each l' body
  end.

(** ** class ZookeeperCheck *)

Module ZookeeperCheck.

(** `re.compile(r'Zookeeper version: ([^.]+)\.([^.]+)\.([^-]+)', flags=re.I)` *)
Definition version_pattern : list Re.item :=
  Re.lits "Zookeeper version: "
  ++ [Re.GroupNot "."; Re.Lit "."; Re.GroupNot "."; Re.Lit "."; Re.GroupNot "-"].

Definition sentinel : string :=
  "This ZooKeeper instance is not currently serving requests".

(** *** `_send_command` *)

Definition max_reads : nat := Z.to_nat 10000.

Definition overrun (max_reads : nat) (buf : string) : exn :=
  GenericException
    ("Read " +:+ Py.str_of_Z (Z.of_nat (String.length buf))
     +:+ " bytes before exceeding max reads of "
     +:+ Py.str_of_Z (Z.of_nat max_reads) +:+ ". ").

(** `while chunk: ...`.  [left] is `max_reads + 1 - num_reads`, so that
    `num_reads > max_reads` is [left = 0]; [num_reads] calls of `recv`
    were made so far. *)
Fixpoint read_loop (max_reads left : nat) (recv : nat -> result string)
  (chunk buf : string) (num_reads : nat) : result string :=
  match chunk with
  | EmptyString => Return buf
  | _ =>
      match left with
      | O => Raise (overrun max_reads buf)
      | S left' =>
          match recv num_reads with
          | Return chunk' =>
              read_loop max_reads left' recv chunk' (buf +:+ chunk')
                (S num_reads)
          | Raise e => Raise e
          end
      end
  end.

(** The inner `try` body: connect, send, read everything. *)
Definition exchange (sock : peer) : result string :=
  match p_connect sock with
  | Some e => Raise e
  | None =>
      match p_sendall sock with
      | Some e => Raise e
      | None =>
          match p_recv sock 0%nat with
          | Return chunk =>
              read_loop max_reads max_reads (p_recv sock) chunk chunk 1%nat
          | Raise e => Raise e
          end
      end
  end.

(** `except (socket.timeout, socket.error): raise ZKConnectionFailure()`;
    the socket is closed on every path. *)
Definition _send_command (sock : peer) : result string :=
  match exchange sock with
  | Raise SocketTimeout | Raise SocketError => Raise ZKConnectionFailure
  | r => r
  end.

(** *** `parse_stat` *)

Definition stat_tuple : Type :=
  option (list (string * Z)) * option (list string) * string * option string.

(** `_, value = line.split(':')` *)
Definition field (line : string) : result string :=
  match Py.split_on ":" line with
  | [_; value] => Return value
  | _ => Raise ValueError
  end.

(** `[f(v) for v in l]` where [f] may raise. *)
Fixpoint map_result {A B} (f : A -> result B) (l : list A) : result (list B) :=
  match l with
  | [] => Return []
  | a :: l' => b ← f a; bs ← map_result f l'; Return (b :: bs)
  end.

(** The `Clients:` loop: counts the lines up to the first blank one (or
    the end of the buffer) and leaves the buffer after it. *)
Fixpoint clients (ls : list string) : Z * list string :=
  match ls with
  | [] => (0, [])
  | l :: ls' =>
      match Py.strip l with
      | EmptyString => (0, ls')
      | _ => let '(n, r) := clients ls' in (1 + n, r)
      end
  end.

(** Lines 297-306: the zxid as epoch and count. *)
Definition zxid_split (zxid : Z) : result (Z * Z) :=
  zxid_bytes ← Py.pack_q zxid;
  zxid_epoch ← Py.unpack_i (Py.slice 0 4 zxid_bytes);
  zxid_count ← Py.unpack_i (Py.slice 4 8 zxid_bytes);
  Return (zxid_epoch, zxid_count).

(** `version_tuple >= ('3', '4', '4')`: a comparison of tuples of `str`. *)
Definition has_connections_val (version_tuple : string * string * string)
  : bool :=
  Py.tuple3_ge version_tuple ("3", "4", "4")%string.

(** `_, value = buf.readline().split(':')` *)
Definition next_value (ls : list string) : result (string * list string) :=
  let '(line, ls) := Py.readline ls in
  value ← field line;
  Return (value, ls).

(** Lines 252-320: what follows a version line that matched, [ls] being
    the buffer after that line. *)
Definition stat_body (major minor patch : string) (ls : list string)
  : result stat_tuple :=
  let version_tuple := (major, minor, patch) in
  let has_connections_val := has_connections_val version_tuple in
  let version := major +:+ "." +:+ minor +:+ "." +:+ patch in
  (* Clients: *)
  let '(_, ls) := Py.readline ls in
  let '(connections, ls) := clients ls in
  (* Latency min/avg/max: -10/0/20007 *)
  '(value, ls) ← next_value ls;
  lat ← map_result Py.int (Py.split_on "/" (Py.strip value));
  match lat with
  | [l_min; l_avg; l_max] =>
      let metrics := [("zookeeper.latency.min", l_min);
                      ("zookeeper.latency.avg", l_avg);
                      ("zookeeper.latency.max", l_max)]%string in
      (* Received: 101032173 *)
      '(value, ls) ← next_value ls;
      received ← Py.long (Py.strip value) 10;
      let metrics := metrics ++ [("zookeeper.bytes_received"%string, received)] in
      (* Sent: 1324 *)
      '(value, ls) ← next_value ls;
      sent ← Py.long (Py.strip value) 10;
      let metrics := metrics ++ [("zookeeper.bytes_sent"%string, sent)] in
      '(metrics, ls) ←
        (if has_connections_val then
           (* Connections: 1 *)
           '(value, ls) ← next_value ls;
           n ← Py.int (Py.strip value);
           Return (metrics ++ [("zookeeper.connections"%string, n)], ls)
         else
           (* the value computed from the client list *)
           Return (metrics ++ [("zookeeper.connections"%string, connections)], ls));
      (* Outstanding: 0 *)
      '(value, ls) ← next_value ls;
      outstanding ← Py.long (Py.strip value) 10;
      let metrics :=
        metrics ++ [("zookeeper.bytes_outstanding"%string, outstanding);
                    ("zookeeper.outstanding_requests"%string, outstanding)] in
      (* Zxid: 0x1034799c7 *)
      '(value, ls) ← next_value ls;
      zxid ← Py.long (Py.strip value) 16;
      '(zxid_epoch, zxid_count) ← zxid_split zxid;
      let metrics :=
        metrics ++ [("zookeeper.zxid.epoch"%string, zxid_epoch);
                    ("zookeeper.zxid.count"%string, zxid_count)] in
      (* Mode: leader *)
      '(value, ls) ← next_value ls;
      let mode := Py.lower (Py.strip value) in
      umode ← Py.decode_ascii mode;
      let tags := ["mode:" +:+ umode] in
      (* Node count: 487 *)
      '(value, ls) ← next_value ls;
      nodes ← Py.long (Py.strip value) 10;
      let metrics := metrics ++ [("zookeeper.nodes"%string, nodes)] in
      Return (Some metrics, Some tags, mode, Some version)
  | _ => Raise ValueError
  end.

Definition parse_stat (buf : string) : result stat_tuple :=
  let ls := Py.lines buf in
  (* the version line *)
  let '(start_line, ls) := Py.readline ls in
  match Re.match_ version_pattern start_line with
  | Some [major; minor; patch] => stat_body major minor patch ls
  | _ => Return (None, None, "inactive"%string, None)
  end.

(** *** `parse_mntr` *)

Definition state_key : string := "zookeeper.server.state".

(** `data[0].replace('zk', 'zookeeper').replace('_', '.')` *)
Definition metric_name (key : string) : string :=
  Py.replace "_" "." (Py.replace "zk" "zookeeper" key).

(** The body of `for line in buf`.  The `raise Exception(...)` of the
    source builds its message with `data.join`, which a list does not
    have: what is raised is AttributeError. *)
Definition mntr_line (metrics : gmap string string) (line : string)
  : result (gmap string string) :=
  match Py.split_ws line with
  | [key; value] => Return (<[metric_name key := value]> metrics)
  | _ => Raise AttributeError
  end.

Fixpoint mntr_lines (metrics : gmap string string) (ls : list string)
  : result (gmap string string) :=
  match ls with
  | [] => Return metrics
  | line :: ls' => metrics ← mntr_line metrics line; mntr_lines metrics ls'
  end.

(** `for key in metrics: metrics[key] = int(metrics[key])`; the order in
    which a dictionary is walked is not specified. *)
Definition int_value (kv : string * string) : result (string * Z) :=
  n ← Py.int (snd kv); Return (fst kv, n).

Definition int_values (metrics : gmap string string)
  : result (gmap string Z) :=
  kvs ← map_result int_value (map_to_list metrics);
  Return (list_to_map kvs).

Definition parse_mntr (buf : string)
  : result (option (gmap string Z) * string) :=
  let ls := Py.lines buf in
  let '(first, ls) := Py.readline ls in
  if String.eqb first sentinel then Return (None, "inactive"%string)
  else
    metrics ← mntr_lines ∅ ls;
    match metrics !! state_key with
    | None => Raise (KeyError state_key)
    | Some st =>
        let state := Py.lower st in
        metrics ← int_values (delete state_key metrics);
        Return (Some metrics, state)
    end.

(** *** `set_instance_status` *)

Definition states : list string :=
  ["leader"; "follower"; "observer"; "standalone"; "down"; "inactive";
   "unknown"]%string.

Definition gauges0 : gmap string Z :=
  list_to_map (map (fun k => (k, 0)) states).

(** `self.gauge(name, value)` without tags is recorded with no tag. *)
Definition set_instance_status (hostname status : string) : action unit :=
  let mode := "mode:" +:+ status in
  emit (SetValue "zookeeper.instances" hostname [mode]);;
  let gauges :=
    match gauges0 !! status with
    | Some _ => <[status := 1]> gauges0
    | None => <["unknown"%string := 1]> gauges0
    end in
  for_each (map_to_list gauges)
    (fun kv => emit (Gauge ("zookeeper.instances." +:+ fst kv) (snd kv) [])).

(** *** `check` *)

Definition sc_tags (inst : instance) : list string :=
  ["host:" +:+ i_host inst; "port:" +:+ Py.str_of_Z (i_port inst)].

(** `(instance.get('expected_mode') or '').strip()` *)
Definition expected_mode (inst : instance) : string :=
  Py.strip (default EmptyString (i_expected_mode inst)).

Definition send (connect_to : string -> peer) (command : string)
  : action (result string) :=
  emit (Command command);;
  mret (_send_command (connect_to command)).

(** Lines 108-127: the `ruok` service check.  When `_send_command` raises
    something else than ZKConnectionFailure, or the answer cannot be put
    into the unicode message, the `finally` clause reads a local that was
    never assigned. *)
Definition check_ruok (inst : instance) (connect_to : string -> peer)
  : action unit :=
  r ← send connect_to "ruok";
  match r with
  | Raise ZKConnectionFailure =>
      emit (Increment "zookeeper.timeouts");;
      emit (ServiceCheck "zookeeper.ruok" CRITICAL
              "No response from `ruok` command" (sc_tags inst));;
      raise ZKConnectionFailure
  | Raise _ => raise (UnboundLocalError "status")
  | Return ruok_out =>
      let ruok := fst (Py.readline (Py.lines ruok_out)) in
      let status := if String.eqb ruok "imok" then OK else WARNING in
      match Py.decode_ascii ruok with
      | Raise _ => raise (UnboundLocalError "message")
      | Return uruok =>
          emit (ServiceCheck "zookeeper.ruok" status
                  ("Response from the server: " +:+ uruok) (sc_tags inst))
      end
  end.

(** Lines 151-160: the `zookeeper.mode` service check, when an expected
    mode is configured. *)
Definition mode_check (inst : instance) (state : string) : action unit :=
  let mode := "mode:" +:+ state in
  match expected_mode inst with
  | EmptyString => mret tt
  | expected =>
      umode ← lift (Py.decode_ascii mode);
      if String.eqb state expected
      then emit (ServiceCheck "zookeeper.mode" OK
                   ("Server is in " +:+ umode +:+ " mode") (sc_tags inst))
      else
        uexpected ← lift (Py.decode_ascii expected);
        emit (ServiceCheck "zookeeper.mode" CRITICAL
                ("Server is in " +:+ umode +:+ " mode but check expects "
                 +:+ uexpected +:+ " mode") (sc_tags inst))
  end.

(** Lines 141-160: the `else` clause of the `stat` `try` statement.  What
    it raises is not covered by the `except` clauses. *)
Definition report_stat (inst : instance) (hostname stat_out : string)
  : action (option string) :=
  '(metrics, new_tags, state, zk_version) ← lift (parse_stat stat_out);
  (if String.eqb state "inactive" then mret tt
   else
     match metrics, new_tags with
     | Some metrics, Some new_tags =>
         for_each metrics
           (fun mv => emit (Gauge (fst mv) (snd mv) (i_tags inst ++ new_tags)))
     | _, _ => raise TypeError
     end);;
  set_instance_status hostname state;;
  mode_check inst state;;
  mret zk_version.

(** Lines 129-160: the `stat` metrics; returns `zk_version`. *)
Definition check_stat (inst : instance) (hostname : string)
  (connect_to : string -> peer) : action (option string) :=
  r ← send connect_to "stat";
  match r with
  | Raise ZKConnectionFailure =>
      emit (Increment "zookeeper.timeouts");;
      set_instance_status hostname "down";;
      mret None
  | Raise e =>
      emit (Stderr e);;
      emit (Increment "zookeeper.datadog_client_exception");;
      set_instance_status hostname "unknown";;
      mret None
  | Return stat_out => report_stat inst hostname stat_out
  end.

(** `zk_version and LooseVersion(zk_version) > LooseVersion("3.4.0")` *)
Definition supports_mntr (zk_version : option string) : bool :=
  match zk_version with
  | None | Some EmptyString => false
  | Some v => LooseVersion.gt v "3.4.0"
  end.

(** Lines 172-176: the `else` clause of the `mntr` `try` statement. *)
Definition report_mntr (inst : instance) (mntr_out : string) : action unit :=
  '(metrics, state) ← lift (parse_mntr mntr_out);
  let mode := "mode:" +:+ state in
  if String.eqb state "inactive" then mret tt
  else
    match metrics with
    | Some metrics =>
        for_each (map_to_list metrics)
          (fun nv => emit (Gauge (fst nv) (snd nv) (i_tags inst ++ [mode])))
    | None => raise TypeError
    end.

(** Lines 162-176: the `mntr` metrics. *)
Definition check_mntr (inst : instance) (connect_to : string -> peer)
  : action unit :=
  r ← send connect_to "mntr";
  match r with
  | Raise ZKConnectionFailure => emit (Increment "zookeeper.timeouts")
  | Raise e =>
      emit (Stderr e);;
      emit (Increment "zookeeper.datadog_client_exception")
  | Return mntr_out => report_mntr inst mntr_out
  end.

Definition check (inst : instance) (hostname : string)
  (connect_to : string -> peer) : action unit :=
  check_ruok inst connect_to;;
  zk_version ← check_stat inst hostname connect_to;
  if supports_mntr zk_version then check_mntr inst connect_to
  else mret tt.

End ZookeeperCheck.

Import ZookeeperCheck.

(** * Observations and auxiliary definitions *)

(** ** What an event log shows *)

(** The gauges among the events: name and value. *)
Definition gauges_of (evs : list event) : list (string * Z) :=
  flat_map (fun e => match e with
                     | Gauge name value _ => [(name, value)]
                     | _ => []
                     end) evs.

(** The commands a socket was opened for. *)
Definition commands_of (evs : list event) : list string :=
  flat_map (fun e => match e with Command c => [c] | _ => [] end) evs.

(** The counters that were incremented. *)
Definition increments_of (evs : list event) : list string :=
  flat_map (fun e => match e with Increment n => [n] | _ => [] end) evs.

(** The instance states recorded through `self.set('zookeeper.instances')`. *)
Definition instance_modes_of (evs : list event) : list (list string) :=
  flat_map (fun e => match e with
                     | SetValue "zookeeper.instances" _ tags => [tags]
                     | _ => []
                     end) evs.

(** An action that opens no socket. *)
Definition silent {A} (m : action A) : Prop := commands_of (events m) = [].

(** ** Peers *)

(** What [count] successive calls of `recv` deliver, starting with call
    [from]. *)
Fixpoint received (recv : nat -> result string) (from count : nat) : string :=
  match count with
  | O => EmptyString
  | S count' =>
      match recv from with
      | Return chunk => chunk +:+ received recv (S from) count'
      | Raise _ => EmptyString
      end
  end.

(** The peer [recv] has data on each of the calls [from], ...,
    [from + count - 1]. *)
Definition keeps_sending (recv : nat -> result string) (from count : nat)
  : Prop :=
  forall k, (from <= k < from + count)%nat ->
            exists chunk, recv k = Return chunk /\ chunk <> EmptyString.

(** A server that answers [answer] in one chunk and closes. *)
Definition serve (answer : string) : peer :=
  {| p_connect := None; p_sendall := None;
     p_recv := fun k => match k with
                        | O => Return answer
                        | _ => Return EmptyString
                        end |}.

(** A server that sends one byte on every read and never closes. *)
Definition chatty : peer :=
  {| p_connect := None; p_sendall := None;
     p_recv := fun _ => Return "x"%string |}.

(** ** Versions as numbers *)

(** The order the specification names: major, minor and patch compared as
    numbers, the first that differs deciding. *)
Definition numeric_ge (x y : Z * Z * Z) : bool :=
  let '(x1, x2, x3) := x in
  let '(y1, y2, y3) := y in
  (y1 <? x1) || ((x1 =? y1) && ((y2 <? x2) || ((x2 =? y2) && (y3 <=? x3)))).

(** `x > y` for versions of three numbers. *)
Definition numeric_gt (x y : Z * Z * Z) : bool := negb (numeric_ge y x).

(** A non-empty string of decimal digits. *)
Definition all_digits (s : string) : bool :=
  match s with
  | EmptyString => false
  | _ => forallb Py.isdigit (list_ascii_of_string s)
  end.

(** The number that a string of digits denotes, after [acc]. *)
Fixpoint decimal (acc : Z) (s : string) : Z :=
  match s with
  | EmptyString => acc
  | String c s' => decimal (acc * 10 + (Z.of_N (N_of_ascii c) - 48)) s'
  end.

(** The ten digits. *)
Definition digits : list Z := [0; 1; 2; 3; 4; 5; 6; 7; 8; 9].

(** ** The dictionary of `parse_mntr` *)

(** The line is a key and a value. *)
Definition key_value (line : string) (kv : string * string) : Prop :=
  Py.split_ws line = [fst kv; snd kv].

#[global] Instance key_value_dec (line : string) (kv : string * string) :
  Decision (key_value line kv).
Proof. unfold key_value. apply _. Defined.

(** `metrics[name] = data[1]` for each pair, in order. *)
Definition store (metrics : gmap string string) (pairs : list (string * string))
  : gmap string string :=
  foldl (fun m kv => <[metric_name (fst kv) := snd kv]> m) metrics pairs.

(** What `int(v)` gives, as an option. *)
Definition int_opt (v : string) : option Z :=
  match Py.int v with
  | Return n => Some n
  | Raise _ => None
  end.

(** Every underscore becomes a period. *)
Fixpoint dots (s : string) : string :=
  match s with
  | EmptyString => EmptyString
  | String c s' => String (if Ascii.eqb c "_" then "."%char else c) (dots s')
  end.

(** No `zk` occurs in [s]. *)
Fixpoint no_zk (s : string) : bool :=
  match s with
  | EmptyString => true
  | String c s' => negb (Py.startswith "zk" s) && no_zk s'
  end.

(** The key transformation in the words of the specification: the prefix
    `zk` becomes `zookeeper`, every underscore a period. *)
Definition spec_metric_name (key : string) : string :=
  match key with
  | String "z" (String "k" rest) => dots ("zookeeper" +:+ rest)
  | _ => dots key
  end.

(** The state and a metric of what `parse_mntr` returned. *)
Definition returned_state (r : result (option (gmap string Z) * string))
  : option string :=
  match r with
  | Return (_, state) => Some state
  | Raise _ => None
  end.

Definition returned_metric (r : result (option (gmap string Z) * string))
  (name : string) : option Z :=
  match r with
  | Return (Some metrics, _) => metrics !! name
  | _ => None
  end.

(** ** A `stat` answer, line by line *)

(** The character [c] does not occur in [s]. *)
Fixpoint lacks (c : ascii) (s : string) : bool :=
  match s with
  | EmptyString => true
  | String x s' => negb (Ascii.eqb x c) && lacks c s'
  end.

Definition eol : string := String Py.nl EmptyString.

(** The text of a `stat` answer: the pieces of the version line, the client
    lines, and what follows the colon on each of the other lines (the
    `Connections:` line may be absent). *)
Record stat_answer := {
  a_major : string;
  a_minor : string;
  a_patch : string;
  a_build : string;
  a_clients : list string;
  a_latency : string;
  a_received : string;
  a_sent : string;
  a_connections : option string;
  a_outstanding : string;
  a_zxid : string;
  a_mode : string;
  a_nodes : string
}.

(** The numbers that the lines of an answer read as. *)
Record stat_values := {
  v_min : Z;
  v_avg : Z;
  v_max : Z;
  v_received : Z;
  v_sent : Z;
  v_connections : Z;
  v_outstanding : Z;
  v_zxid : Z;
  v_nodes : Z
}.

Definition field_line (key value rest : string) : string :=
  (key +:+ String ":" value) +:+ eol +:+ rest.

Fixpoint client_lines (cs : list string) (rest : string) : string :=
  match cs with
  | [] => rest
  | c :: cs' => c +:+ eol +:+ client_lines cs' rest
  end.

Definition version_text (a : stat_answer) : string :=
  "Zookeeper version: "
  +:+ (a_major a
       +:+ String "." (a_minor a
                       +:+ String "." (a_patch a +:+ String "-" (a_build a)))).

Definition stat_text (a : stat_answer) : string :=
  let tail :=
    field_line "Outstanding" (a_outstanding a)
      (field_line "Zxid" (a_zxid a)
         (field_line "Mode" (a_mode a)
            (field_line "Node count" (a_nodes a) EmptyString))) in
  let tail :=
    match a_connections a with
    | Some c => field_line "Connections" c tail
    | None => tail
    end in
  let body :=
    field_line "Latency min/avg/max" (a_latency a)
      (field_line "Received" (a_received a)
         (field_line "Sent" (a_sent a) tail)) in
  version_text a +:+ eol
  +:+ ("Clients:" +:+ eol
       +:+ client_lines (a_clients a) (EmptyString +:+ eol +:+ body)).

(** The text after a colon: one line, no further colon. *)
Definition value_text (v : string) : Prop :=
  lacks Py.nl v = true /\ lacks ":" v = true.

(** The answer is well formed and its numbers are [v]. *)
Record reads (a : stat_answer) (v : stat_values) : Prop := {
  r_major : a_major a <> EmptyString
            /\ lacks "." (a_major a) = true /\ lacks Py.nl (a_major a) = true;
  r_minor : a_minor a <> EmptyString
            /\ lacks "." (a_minor a) = true /\ lacks Py.nl (a_minor a) = true;
  r_patch : a_patch a <> EmptyString
            /\ lacks "-" (a_patch a) = true /\ lacks Py.nl (a_patch a) = true;
  r_build : lacks Py.nl (a_build a) = true;
  r_clients : Forall (fun c => lacks Py.nl c = true
                               /\ Py.strip c <> EmptyString) (a_clients a);
  r_latency : value_text (a_latency a)
              /\ map_result Py.int (Py.split_on "/" (Py.strip (a_latency a)))
                 = Return [v_min v; v_avg v; v_max v];
  r_received : value_text (a_received a)
               /\ Py.long (Py.strip (a_received a)) 10 = Return (v_received v);
  r_sent : value_text (a_sent a)
           /\ Py.long (Py.strip (a_sent a)) 10 = Return (v_sent v);
  r_connections :
    match a_connections a with
    | Some c =>
        has_connections_val (a_major a, a_minor a, a_patch a) = true
        /\ value_text c /\ Py.int (Py.strip c) = Return (v_connections v)
    | None =>
        has_connections_val (a_major a, a_minor a, a_patch a) = false
        /\ v_connections v = Z.of_nat (length (a_clients a))
    end;
  r_outstanding : value_text (a_outstanding a)
                  /\ Py.long (Py.strip (a_outstanding a)) 10
                     = Return (v_outstanding v);
  r_zxid : value_text (a_zxid a)
           /\ Py.long (Py.strip (a_zxid a)) 16 = Return (v_zxid v);
  r_mode : value_text (a_mode a)
           /\ Py.is_ascii (Py.lower (Py.strip (a_mode a))) = true;
  r_nodes : value_text (a_nodes a)
            /\ Py.long (Py.strip (a_nodes a)) 10 = Return (v_nodes v)
}.

(** The low 32 bits of [z] as a two's-complement number. *)
Definition signed32 (z : Z) : Z :=
  let u := z mod 2 ^ 32 in if u <? 2 ^ 31 then u else u - 2 ^ 32.

(** ** The answers of the module documentation, and some others *)

Definition doc_stat : string :=
"Zookeeper version: 3.2.2--1, built on 03/16/2010 07:31 GMT
Clients:
 /10.42.114.160:32634[1](queued=0,recved=12,sent=0)
 /10.37.137.74:21873[1](queued=0,recved=53613,sent=0)
 /10.37.137.74:21876[1](queued=0,recved=57436,sent=0)
 /10.115.77.32:32990[1](queued=0,recved=16,sent=0)
 /10.37.137.74:21891[1](queued=0,recved=55011,sent=0)
 /10.37.137.74:21797[1](queued=0,recved=19431,sent=0)

Latency min/avg/max: -10/0/20007
Received: 101032173
Sent: 0
Outstanding: 0
Zxid: 0x1034799c7
Mode: leader
Node count: 487
".

(** The documented `stat` answer, piece by piece. *)
Definition doc_answer : stat_answer :=
  {| a_major := "3"; a_minor := "2"; a_patch := "2";
     a_build := "-1, built on 03/16/2010 07:31 GMT";
     a_clients :=
       [" /10.42.114.160:32634[1](queued=0,recved=12,sent=0)";
        " /10.37.137.74:21873[1](queued=0,recved=53613,sent=0)";
        " /10.37.137.74:21876[1](queued=0,recved=57436,sent=0)";
        " /10.115.77.32:32990[1](queued=0,recved=16,sent=0)";
        " /10.37.137.74:21891[1](queued=0,recved=55011,sent=0)";
        " /10.37.137.74:21797[1](queued=0,recved=19431,sent=0)"]%string;
     a_latency := " -10/0/20007";
     a_received := " 101032173";
     a_sent := " 0";
     a_connections := None;
     a_outstanding := " 0";
     a_zxid := " 0x1034799c7";
     a_mode := " leader";
     a_nodes := " 487" |}.

Definition doc_values : stat_values :=
  {| v_min := -10; v_avg := 0; v_max := 20007;
     v_received := 101032173; v_sent := 0; v_connections := 6;
     v_outstanding := 0; v_zxid := 0x1034799c7; v_nodes := 487 |}.

Definition doc_mntr : string :=
"zk_version  3.4.5-cdh4.4.0--1, built on 09/04/2013 01:46 GMT
zk_avg_latency  0
zk_max_latency  0
zk_min_latency  0
zk_packets_received 4
zk_packets_sent 3
zk_num_alive_connections    1
zk_outstanding_requests 0
zk_server_state standalone
zk_znode_count  4
zk_watch_count  0
zk_ephemerals_count 0
zk_approximate_data_size    27
zk_open_file_descriptor_count   29
zk_max_file_descriptor_count    4096
".

Definition doc_mntr_pairs : list (string * string) :=
  [("zk_avg_latency", "0"); ("zk_max_latency", "0"); ("zk_min_latency", "0");
   ("zk_packets_received", "4"); ("zk_packets_sent", "3");
   ("zk_num_alive_connections", "1"); ("zk_outstanding_requests", "0");
   ("zk_server_state", "standalone"); ("zk_znode_count", "4");
   ("zk_watch_count", "0"); ("zk_ephemerals_count", "0");
   ("zk_approximate_data_size", "27");
   ("zk_open_file_descriptor_count", "29");
   ("zk_max_file_descriptor_count", "4096")]%string.

(** The `stat` answer of a 3.4.5 server: it has the `Connections:` line. *)
Definition stat_3_4_5 : string :=
"Zookeeper version: 3.4.5-1392090, built on 09/30/2012 17:52 GMT
Clients:
 /127.0.0.1:54360[0](queued=0,recved=1,sent=0)

Latency min/avg/max: 0/0/0
Received: 2
Sent: 1
Connections: 2
Outstanding: 0
Zxid: 0x0
Mode: standalone
Node count: 4
".

(** The same answer from a 3.4.10 server. *)
Definition stat_3_4_10 : string :=
"Zookeeper version: 3.4.10-39d3a4f269333c922ed3db283be479f9deacaa0f, built on 03/23/2017 10:13 GMT
Clients:
 /127.0.0.1:54360[0](queued=0,recved=1,sent=0)

Latency min/avg/max: 0/0/0
Received: 2
Sent: 1
Connections: 2
Outstanding: 0
Zxid: 0x0
Mode: standalone
Node count: 4
".

(** A `mntr` answer with a value that is not an integer. *)
Definition mntr_fraction : string :=
"zk_version  3.4.5-1392090, built on 09/30/2012 17:52 GMT
zk_avg_latency  0.5
zk_server_state standalone
".

Definition mntr_no_state : string :=
"zk_version  3.4.5-1392090, built on 09/30/2012 17:52 GMT
zk_avg_latency  0
zk_znode_count  4
".

(** A key with a second `zk`. *)
Definition mntr_zk_twice : string :=
"zk_version  3.4.5-1392090, built on 09/30/2012 17:52 GMT
zk_fsync_zk 7
zk_server_state leader
".

(** ** Invocations *)

Definition inst0 : instance :=
  {| i_host := "localhost"; i_port := 2181;
     i_expected_mode := None; i_tags := [] |}.

(** The three answers of a healthy server that never closes the `stat`
    connection. *)
Definition overrun_net (command : string) : peer :=
  if String.eqb command "stat" then chatty else serve "imok".

Definition net_3_4_10 (command : string) : peer :=
  if String.eqb command "ruok" then serve "imok"
  else if String.eqb command "stat" then serve stat_3_4_10
  else serve doc_mntr.

Definition net_fraction (command : string) : peer :=
  if String.eqb command "ruok" then serve "imok"
  else if String.eqb command "stat" then serve stat_3_4_5
  else serve mntr_fraction.

(** * utils/pidfile.py *)

(** `sep.join(l)` *)
Fixpoint str_join (sep : string) (l : list string) : string :=
  match l with
  | [] => EmptyString
  | [w] => w
  | w :: l' => w +:+ sep +:+ str_join sep l'
  end.

(** `posixpath.join(a, b)`; `os.path.join(a, b, c)` is
    [join (join a b) c]. *)
Module Posixpath.

Fixpoint endswith_slash (s : string) : bool :=
  match s with
  | EmptyString => false
  | String c EmptyString => Ascii.eqb c "/"
  | String _ s' => endswith_slash s'
  end.

Definition join (a b : string) : string :=
  if Py.startswith "/" b then b
  else if match a with EmptyString => true | _ => endswith_slash a end
       then a +:+ b
       else a +:+ "/" +:+ b.

End Posixpath.

Module PidFile.

(** The calls of the module logger. *)
Inductive log_record :=
| LogDebug (msg : string)
| LogInfo (msg : string)
| LogWarn (msg : string)
| LogError (msg : string).

(** What the class asks of the operating system and of the platform. *)
Record os := {
  my_dir : string;                (* os.path.dirname(os.path.abspath(__file__)) *)
  is_mac : bool;                  (* Platform.is_mac() *)
  path_exists : string -> bool;   (* os.path.exists *)
  access_w : string -> bool;      (* os.access(path, os.W_OK) *)
  realpath : string -> string;    (* os.path.realpath *)
  gettempdir : string;            (* tempfile.gettempdir() *)
  may_remove : string -> bool     (* os.remove is permitted on this file *)
}.

(** The regular files: a path that `open` can read maps to its content, a
    file that exists but cannot be read to [None]. *)
Definition files : Type := gmap string (option string).

(** `PidFile.get_dir(run_dir)`; [None] is the default argument. *)
Definition get_dir (sys : os) (run_dir : option string) : string :=
  let run_dir :=
    match run_dir with
    | None =>
        let my_dir := my_dir sys in
        let run_dir :=
          if is_mac sys
          then
            let parts := Py.split_on "/" my_dir in
            str_join "/" (take (length parts - 4) parts)
          else Posixpath.join (Posixpath.join my_dir "..") ".." in
        Posixpath.join run_dir "run"
    | Some run_dir => run_dir
    end in
  if path_exists sys run_dir && access_w sys run_dir
  then realpath sys run_dir
  else gettempdir sys.

(** The attributes of an instance. *)
Record t := {
  pid_file : string;
  pid_dir : string;
  pid_path : string
}.

(** `PidFile(program, pid_dir)` *)
Definition init (sys : os) (program : string) (dir : option string) : t :=
  let pid_file := program +:+ ".pid" in
  let pid_dir := get_dir sys dir in
  {| pid_file := pid_file;
     pid_dir := pid_dir;
     pid_path := Posixpath.join pid_dir pid_file |}.

(** `get_path`: what is logged, and the path or the exception. *)
Definition get_path (sys : os) (self : t) : list log_record * result string :=
  if access_w sys (pid_dir self)
  then ([LogInfo ("Pid file is: " +:+ pid_path self)], Return (pid_path self))
  else ([LogError ("Cannot save pid file: " +:+ pid_path self)],
        Raise (GenericException ("Cannot save pid file: " +:+ pid_path self))).

(** `os.remove(path)`: the files that are left, or [None] for OSError. *)
Definition remove (sys : os) (path : string) (fs : files) : option files :=
  match fs !! path with
  | Some _ => if may_remove sys path then Some (delete path fs) else None
  | None => None
  end.

(** `clean`: what is logged, the value returned, the files afterwards. *)
Definition clean (sys : os) (self : t) (fs : files)
  : list log_record * bool * files :=
  match get_path sys self with
  | (logs, Return path) =>
      let logs := logs ++ [LogDebug ("Cleaning up pid file " +:+ path)] in
      match remove sys path fs with
      | Some fs' => (logs, true, fs')
      | None => (logs ++ [LogWarn "Could not clean up pid file"], false, fs)
      end
  | (logs, Raise _) =>
      (logs ++ [LogWarn "Could not clean up pid file"], false, fs)
  end.

(** `get_pid`: what is logged and the pid, or `None`. *)
Definition get_pid (sys : os) (self : t) (fs : files)
  : list log_record * option Z :=
  match get_path sys self with
  | (logs, Return path) =>
      match fs !! path with
      | Some (Some pid_s) =>
          match Py.int (Py.strip pid_s) with
          | Return pid => (logs, Some pid)
          | Raise _ => (logs, None)
          end
      | _ => (logs, None)
      end
  | (logs, Raise _) => (logs, None)
  end.

End PidFile.

(** * Further observations and auxiliary definitions *)

(** The service checks among the events: name and status. *)
Definition service_checks_of (evs : list event) : list (string * sc_status) :=
  flat_map (fun e => match e with
                     | ServiceCheck name status _ _ => [(name, status)]
                     | _ => []
                     end) evs.

(** Some byte of [s] is an upper-case letter. *)
Definition has_upper (s : string) : bool :=
  existsb Py.isupper (list_ascii_of_string s).

(** The names of the gauges of `parse_stat`, in the order in which the
    source appends them. *)
Definition stat_metric_names : list string :=
  ["zookeeper.latency.min"; "zookeeper.latency.avg"; "zookeeper.latency.max";
   "zookeeper.bytes_received"; "zookeeper.bytes_sent";
   "zookeeper.connections"; "zookeeper.bytes_outstanding";
   "zookeeper.outstanding_requests"; "zookeeper.zxid.epoch";
   "zookeeper.zxid.count"; "zookeeper.nodes"]%string.

(** A peer that accepts the connection and the command, sends [chunks]
    one per read, and then fails every read with [e]. *)
Definition breaks_after (chunks : list string) (e : exn) : peer :=
  {| p_connect := None; p_sendall := None;
     p_recv := fun k => match nth_error chunks k with
                        | Some chunk => Return chunk
                        | None => Raise e
                        end |}.

(** A peer that refuses the connection. *)
Definition refuses (e : exn) : peer :=
  {| p_connect := Some e; p_sendall := None;
     p_recv := fun _ => Return EmptyString |}.

(** The gauges of `parse_stat` for the numbers [v], in the order of the
    source. *)
Definition stat_metrics (v : stat_values) : list (string * Z) :=
  [("zookeeper.latency.min", v_min v);
   ("zookeeper.latency.avg", v_avg v);
   ("zookeeper.latency.max", v_max v);
   ("zookeeper.bytes_received", v_received v);
   ("zookeeper.bytes_sent", v_sent v);
   ("zookeeper.connections", v_connections v);
   ("zookeeper.bytes_outstanding", v_outstanding v);
   ("zookeeper.outstanding_requests", v_outstanding v);
   ("zookeeper.zxid.epoch", signed32 (Z.shiftr (v_zxid v) 32));
   ("zookeeper.zxid.count", signed32 (v_zxid v));
   ("zookeeper.nodes", v_nodes v)]%string.

(** The events of the `zookeeper.mode` service check. *)
Definition mode_events (inst : instance) (state : string) : list event :=
  match expected_mode inst with
  | EmptyString => []
  | expected =>
      [if String.eqb state expected
       then ServiceCheck "zookeeper.mode" OK
              ("Server is in mode:" +:+ state +:+ " mode") (sc_tags inst)
       else ServiceCheck "zookeeper.mode" CRITICAL
              ("Server is in mode:" +:+ state +:+ " mode but check expects "
               +:+ expected +:+ " mode") (sc_tags inst)]
  end.

(** The documented answers, served on one port. *)
Definition doc_net (command : string) : peer :=
  if String.eqb command "ruok" then serve "imok"
  else if String.eqb command "stat" then serve doc_stat
  else serve doc_mntr.

Definition net_3_4_5 (command : string) : peer :=
  if String.eqb command "ruok" then serve "imok"
  else if String.eqb command "stat" then serve stat_3_4_5
  else serve doc_mntr.

Definition stat_refused_net (command : string) : peer :=
  if String.eqb command "ruok" then serve "imok" else refuses SocketError.

Definition mntr_refused_net (command : string) : peer :=
  if String.eqb command "ruok" then serve "imok"
  else if String.eqb command "stat" then serve stat_3_4_5
  else refuses SocketTimeout.

(** An instance that expects a leader, spelled with a capital. *)
Definition inst_Leader : instance :=
  {| i_host := "localhost"; i_port := 2181;
     i_expected_mode := Some "Leader"%string; i_tags := ["env:test"%string] |}.




(** The path [base] followed by the components [cs]. *)
Definition below (base : string) (cs : list string) : string :=
  foldl (fun p c => p +:+ String "/" c) base cs.

(** The value of a decimal numeral after [acc]. *)
Fixpoint uint_value (acc : Z) (d : Decimal.uint) : Z :=
  match d with
  | Decimal.Nil => acc
  | Decimal.D0 d => uint_value (acc * 10 + 0) d
  | Decimal.D1 d => uint_value (acc * 10 + 1) d
  | Decimal.D2 d => uint_value (acc * 10 + 2) d
  | Decimal.D3 d => uint_value (acc * 10 + 3) d
  | Decimal.D4 d => uint_value (acc * 10 + 4) d
  | Decimal.D5 d => uint_value (acc * 10 + 5) d
  | Decimal.D6 d => uint_value (acc * 10 + 6) d
  | Decimal.D7 d => uint_value (acc * 10 + 7) d
  | Decimal.D8 d => uint_value (acc * 10 + 8) d
  | Decimal.D9 d => uint_value (acc * 10 + 9) d
  end.

(** An installation: the module under a py2app bundle, a writable run
    directory, one pid file. *)
Definition mac_os : PidFile.os :=
  {| PidFile.my_dir :=
       "/Applications/Datadog Agent.app/Contents/Resources/lib/python2.7/site-packages.zip/utils";
     PidFile.is_mac := true;
     PidFile.path_exists := fun _ => true;
     PidFile.access_w := fun _ => true;
     PidFile.realpath := fun p => p;
     PidFile.gettempdir := "/tmp";
     PidFile.may_remove := fun _ => true |}.

Definition agent_pid : PidFile.t := PidFile.init mac_os "dd-agent" None.

Definition agent_files : PidFile.files :=
  <[PidFile.pid_path agent_pid := Some ("4242" +:+ eol)]> ∅.

(** * Lemmas *)

(** ** Strings: lengths, concatenation, slices *)

Section StringFacts.

Lemma append_nil_l (s : string) : EmptyString +:+ s = s.
Proof. reflexivity. Qed.

Lemma append_cons (c : ascii) (s t : string) :
  String c s +:+ t = String c (s +:+ t).
Proof. reflexivity. Qed.

Lemma append_nil_r (s : string) : s +:+ EmptyString = s.
Proof.
  induction s as [|c s IH]; [done |]. by rewrite append_cons, IH.
Qed.

Lemma append_assoc (a b c : string) : (a +:+ b) +:+ c = a +:+ (b +:+ c).
Proof.
  induction a as [|x a IH]; [done |]. by rewrite !append_cons, IH.
Qed.

Lemma length_append (a b : string) :
  String.length (a +:+ b) = (String.length a + String.length b)%nat.
Proof.
  induction a as [|x a IH]; [done |]. rewrite append_cons. simpl.
  by rewrite IH.
Qed.

Lemma substring_0_append (a b : string) :
  String.substring 0 (String.length a) (a +:+ b) = a.
Proof.
  induction a as [|x a IH].
  - rewrite append_nil_l. by destruct b.
  - rewrite append_cons. simpl. by rewrite IH.
Qed.

Lemma substring_all (b : string) :
  String.substring 0 (String.length b) b = b.
Proof. induction b as [|x b IH]; simpl; [done | by rewrite IH]. Qed.

Lemma substring_skip_append (a b : string) :
  String.substring (String.length a) (String.length b) (a +:+ b) = b.
Proof.
  induction a as [|x a IH]; [apply substring_all |].
  rewrite append_cons. simpl. apply IH.
Qed.

Lemma lacks_append (c : ascii) (a b : string) :
  lacks c (a +:+ b) = lacks c a && lacks c b.
Proof.
  induction a as [|x a IH]; [done |].
  rewrite append_cons. cbn [lacks]. by rewrite IH, andb_assoc.
Qed.

End StringFacts.

(** ** Big-endian bytes and the zxid *)

Section BigEndian.

Lemma length_be_bytes (n : nat) (z : Z) : String.length (Py.be_bytes n z) = n.
Proof.
  revert z. induction n as [|n IH]; intros z; simpl; [done |].
  rewrite length_append, IH. simpl. lia.
Qed.

Lemma be_value_append (a b : string) (acc : Z) :
  Py.be_value acc (a +:+ b) = Py.be_value (Py.be_value acc a) b.
Proof.
  revert acc. induction a as [|x a IH]; intros acc; [done |].
  rewrite append_cons. simpl. apply IH.
Qed.

Lemma byte_of_land (z : Z) :
  Z.of_N (N_of_ascii (ascii_of_N (Z.to_N (Z.land z 255)))) = z mod 256.
Proof.
  assert (H : Z.land z 255 = z mod 256) by (apply (Z.land_ones z 8); lia).
  rewrite H.
  pose proof (Z.mod_pos_bound z 256 ltac:(lia)) as Hb.
  rewrite N_ascii_embedding by lia.
  lia.
Qed.

(** Reading back the [n] bytes of [z] gives [z] modulo [256 ^ n]. *)
Lemma be_value_be_bytes (n : nat) (z acc : Z) :
  Py.be_value acc (Py.be_bytes n z)
  = acc * 256 ^ Z.of_nat n + z mod 256 ^ Z.of_nat n.
Proof.
  revert z acc. induction n as [|n IH]; intros z acc.
  - simpl. rewrite Z.mod_1_r. lia.
  - cbn [Py.be_bytes]. rewrite be_value_append, IH.
    cbn [Py.be_value]. rewrite byte_of_land.
    rewrite Z.shiftr_div_pow2 by lia.
    rewrite Nat2Z.inj_succ, Z.pow_succ_r by lia.
    change (2 ^ 8) with 256.
    set (p := 256 ^ Z.of_nat n).
    assert (Hp : 0 < p) by (apply Z.pow_pos_nonneg; lia).
    rewrite (Z.rem_mul_r z 256 p) by lia. lia.
Qed.

(** The eight bytes of `pack('>q')` are the four bytes of the high half
    followed by the four bytes of the low half. *)
Lemma be_bytes_8_split (z : Z) :
  Py.be_bytes 8 z = Py.be_bytes 4 (Z.shiftr z 32) +:+ Py.be_bytes 4 z.
Proof.
  cbn [Py.be_bytes].
  rewrite !Z.shiftr_shiftr by lia. simpl Z.add.
  rewrite !append_nil_l, !append_assoc. reflexivity.
Qed.

Lemma slice_high (z : Z) :
  Py.slice 0 4 (Py.be_bytes 8 z) = Py.be_bytes 4 (Z.shiftr z 32).
Proof.
  rewrite be_bytes_8_split. unfold Py.slice.
  change (4 - 0)%nat with 4%nat.
  rewrite <- (length_be_bytes 4 (Z.shiftr z 32)) at 1.
  apply substring_0_append.
Qed.

Lemma slice_low (z : Z) :
  Py.slice 4 8 (Py.be_bytes 8 z) = Py.be_bytes 4 z.
Proof.
  rewrite be_bytes_8_split. unfold Py.slice.
  change (8 - 4)%nat with 4%nat.
  rewrite <- (length_be_bytes 4 (Z.shiftr z 32)) at 1.
  rewrite <- (length_be_bytes 4 z) at 2.
  apply substring_skip_append.
Qed.

(** `unpack('>i')` of four bytes of [x]: the low 32 bits of [x], read as a
    two's-complement number. *)
Lemma unpack_i_be_bytes (x : Z) :
  Py.unpack_i (Py.be_bytes 4 x)
  = Return (let u := x mod 2 ^ 32 in if u <? 2 ^ 31 then u else u - 2 ^ 32).
Proof.
  unfold Py.unpack_i. rewrite length_be_bytes. simpl Nat.eqb. cbv iota.
  rewrite be_value_be_bytes.
  change (256 ^ Z.of_nat 4) with (2 ^ 32). by rewrite Z.mul_0_l, Z.add_0_l.
Qed.

Lemma zxid_split_in_range (zxid : Z) :
  - 2 ^ 63 <= zxid < 2 ^ 63 ->
  zxid_split zxid = Return (signed32 (Z.shiftr zxid 32), signed32 zxid).
Proof.
  intros [Hlo Hhi]. unfold zxid_split, Py.pack_q.
  assert (Hr : (- 2 ^ 63 <=? zxid) && (zxid <? 2 ^ 63) = true).
  { apply andb_true_iff. split; [apply Z.leb_le | apply Z.ltb_lt]; lia. }
  rewrite Hr. cbn [mbind result_bind].
  rewrite slice_high, slice_low, !unpack_i_be_bytes. reflexivity.
Qed.

Lemma signed32_high (z : Z) :
  0 <= z < 2 ^ 63 -> signed32 (Z.shiftr z 32) = z / 2 ^ 32.
Proof.
  intros [Hlo Hhi]. unfold signed32. rewrite Z.shiftr_div_pow2 by lia.
  assert (Hq : 0 <= z / 2 ^ 32 < 2 ^ 31).
  { split; [apply Z.div_pos; lia | apply Z.div_lt_upper_bound; lia]. }
  rewrite (Z.mod_small (z / 2 ^ 32)) by lia.
  cbv zeta. assert (Hs : (z / 2 ^ 32 <? 2 ^ 31) = true) by (apply Z.ltb_lt; lia).
  by rewrite Hs.
Qed.

End BigEndian.

(** ** Lines, fields and white space *)

Section LineFacts.

(** Reading a line off the list of lines is reading it off the text. *)
Lemma readline_lines (buf : string) :
  Py.readline (Py.lines buf)
  = (fst (Py.readline_text buf), Py.lines (snd (Py.readline_text buf))).
Proof.
  induction buf as [|c buf IH]; [done |].
  cbn [Py.lines Py.readline_text]. destruct (Ascii.eqb c Py.nl); [done |].
  destruct (Py.readline_text buf) as [l r].
  destruct (Py.lines buf) as [|l' ls]; cbn [Py.readline fst snd] in *;
    injection IH as <- H; by rewrite <- H.
Qed.

Lemma lines_cons_line (l rest : string) :
  lacks Py.nl l = true ->
  Py.lines (l +:+ eol +:+ rest) = (l +:+ eol) :: Py.lines rest.
Proof.
  induction l as [|c l IH]; intros Hl.
  - rewrite !append_nil_l. unfold eol. rewrite append_cons, append_nil_l.
    cbn [Py.lines]. by rewrite Ascii.eqb_refl.
  - cbn [lacks] in Hl. apply andb_true_iff in Hl as [Hc Hl].
    apply negb_true_iff in Hc.
    rewrite !append_cons. cbn [Py.lines]. rewrite Hc, (IH Hl). reflexivity.
Qed.

(** The sentinel is a line without terminator: `readline` returns it only
    when it is the whole answer. *)
Lemma readline_no_newline (buf line : string) :
  fst (Py.readline (Py.lines buf)) = line ->
  (forall c, In c (list_ascii_of_string line) -> c <> Py.nl) ->
  buf = line.
Proof.
  revert line. induction buf as [|c buf IH]; intros line Hl Hn.
  - by simpl in Hl.
  - cbn [Py.lines] in Hl. destruct (Ascii.eqb_spec c Py.nl) as [-> | Hc].
    + simpl in Hl. subst line. exfalso. apply (Hn Py.nl); [by left | done].
    + destruct (Py.lines buf) as [|l ls] eqn:Hls.
      * simpl in Hl. subst line. f_equal.
        destruct buf as [|c' buf']; [done |]. exfalso.
        cbn [Py.lines] in Hls. destruct (Ascii.eqb c' Py.nl); [done |].
        by destruct (Py.lines buf').
      * simpl in Hl. subst line. f_equal. apply IH; [done |].
        intros c' Hc'. apply Hn. by right.
Qed.

Lemma split_on_lacks (c : ascii) (s : string) :
  lacks c s = true -> Py.split_on c s = [s].
Proof.
  induction s as [|x s IH]; intros H; [done |].
  cbn [lacks] in H. apply andb_true_iff in H as [Hx Hs].
  apply negb_true_iff in Hx.
  cbn [Py.split_on]. by rewrite Hx, (IH Hs).
Qed.

Lemma split_on_first (c : ascii) (k v : string) :
  lacks c k = true ->
  Py.split_on c (k +:+ String c v) = k :: Py.split_on c v.
Proof.
  induction k as [|x k IH]; intros H.
  - rewrite append_nil_l. cbn [Py.split_on]. by rewrite Ascii.eqb_refl.
  - cbn [lacks] in H. apply andb_true_iff in H as [Hx Hk].
    apply negb_true_iff in Hx.
    rewrite append_cons. cbn [Py.split_on]. by rewrite Hx, (IH Hk).
Qed.

(** `_, value = line.split(':')` on a line `key:value`. *)
Lemma field_key_value (key value : string) :
  lacks ":" key = true ->
  lacks ":" value = true ->
  field (key +:+ String ":" value) = Return value.
Proof.
  intros Hk Hv. unfold field.
  by rewrite (split_on_first ":" key value Hk), (split_on_lacks ":" value Hv).
Qed.

Lemma rstrip_space (s : string) (c : ascii) :
  Py.isspace c = true ->
  Py.rstrip (s +:+ String c EmptyString) = Py.rstrip s.
Proof.
  intros Hc. induction s as [|x s IH].
  - rewrite append_nil_l. cbn [Py.rstrip]. by rewrite Hc.
  - rewrite append_cons. cbn [Py.rstrip]. by rewrite IH.
Qed.

Lemma lstrip_append (s t : string) :
  Py.lstrip s <> EmptyString -> Py.lstrip (s +:+ t) = Py.lstrip s +:+ t.
Proof.
  induction s as [|x s IH]; [done |].
  rewrite append_cons. cbn [Py.lstrip]. destruct (Py.isspace x); [apply IH |].
  intros _. by rewrite append_cons.
Qed.

(** The terminator of a line does not survive `strip`. *)
Lemma strip_line (v : string) : Py.strip (v +:+ eol) = Py.strip v.
Proof.
  unfold Py.strip, eol.
  destruct (Py.lstrip v) as [|x r] eqn:Hl.
  - assert (H : Py.lstrip (v +:+ String Py.nl EmptyString) = EmptyString).
    { clear -Hl. induction v as [|y v IH]; [done |].
      rewrite append_cons. cbn [Py.lstrip] in *.
      destruct (Py.isspace y); [by apply IH | done]. }
    by rewrite H.
  - rewrite lstrip_append by (by rewrite Hl). rewrite Hl.
    by apply rstrip_space.
Qed.

End LineFacts.

(** ** The version line *)

Section VersionLine.

Lemma lit_eqb_refl (c : ascii) : Re.lit_eqb c c = true.
Proof. unfold Re.lit_eqb. apply Ascii.eqb_refl. Qed.

Lemma match_lits (p : string) (q : list Re.item) (s : string) :
  Re.match_ (Re.lits p ++ q) (p +:+ s) = Re.match_ q s.
Proof.
  induction p as [|c p IH]; [done |].
  rewrite append_cons. unfold Re.lits in *. cbn [list_ascii_of_string map app].
  cbn [Re.match_]. by rewrite lit_eqb_refl.
Qed.

(** A non-empty run without [c], then [c]: the group takes the run when the
    rest of the pattern matches from [c] on. *)
Lemma group_not_run (c : ascii) (k : string -> option (list string))
  (x : ascii) (g rest : string) (gs : list string) :
  lacks c (String x g) = true ->
  k (String c rest) = Some gs ->
  Re.group_not c k (String x g +:+ String c rest) = Some (String x g, gs).
Proof.
  intros Hg Hk. revert x Hg. induction g as [|y g IH]; intros x Hg.
  - cbn [lacks] in Hg. apply andb_true_iff in Hg as [Hx _].
    apply negb_true_iff in Hx.
    rewrite append_cons, append_nil_l. cbn [Re.group_not].
    by rewrite Hx, Ascii.eqb_refl, Hk.
  - cbn [lacks] in Hg. apply andb_true_iff in Hg as [Hx Hg].
    apply negb_true_iff in Hx.
    rewrite append_cons. cbn [Re.group_not]. rewrite Hx.
    by rewrite (IH y Hg).
Qed.

(** `Zookeeper version: <major>.<minor>.<patch>-<build>`: the three groups. *)
Lemma version_line_groups (m1 m2 m3 : ascii) (major minor patch build : string) :
  lacks "." (String m1 major) = true ->
  lacks "." (String m2 minor) = true ->
  lacks "-" (String m3 patch) = true ->
  Re.match_ version_pattern
    ("Zookeeper version: "
     +:+ (String m1 major
          +:+ String "." (String m2 minor
                          +:+ String "." (String m3 patch
                                          +:+ String "-" build))))
  = Some [String m1 major; String m2 minor; String m3 patch].
Proof.
  intros H1 H2 H3. unfold version_pattern. rewrite match_lits.
  set (tail3 := String m3 patch +:+ String "-" build).
  set (tail2 := String m2 minor +:+ String "." tail3).
  assert (G3 : Re.match_ [Re.GroupNot "-"] tail3 = Some [String m3 patch]).
  { cbn [Re.match_]. unfold tail3.
    by rewrite (group_not_run "-" _ m3 patch build [] H3). }
  assert (G2 : Re.match_ [Re.GroupNot "."; Re.Lit "."; Re.GroupNot "-"] tail2
               = Some [String m2 minor; String m3 patch]).
  { cbn [Re.match_]. unfold tail2.
    rewrite (group_not_run "." _ m2 minor tail3 [String m3 patch] H2); [done |].
    cbn [Re.match_]. by rewrite lit_eqb_refl. }
  cbn [Re.match_].
  rewrite (group_not_run "." _ m1 major tail2
             [String m2 minor; String m3 patch] H1); [done |].
  cbn [Re.match_]. by rewrite lit_eqb_refl.
Qed.

Lemma version_text_line (a : stat_answer) :
  lacks Py.nl (a_major a) = true ->
  lacks Py.nl (a_minor a) = true ->
  lacks Py.nl (a_patch a) = true ->
  lacks Py.nl (a_build a) = true ->
  lacks Py.nl (version_text a) = true.
Proof.
  intros H1 H2 H3 H4. unfold version_text.
  repeat first [rewrite lacks_append | progress cbn [lacks]].
  rewrite H1, H2, H3, H4. reflexivity.
Qed.

Lemma version_text_groups (a : stat_answer) :
  a_major a <> EmptyString -> lacks "." (a_major a) = true ->
  a_minor a <> EmptyString -> lacks "." (a_minor a) = true ->
  a_patch a <> EmptyString -> lacks "-" (a_patch a) = true ->
  Re.match_ version_pattern (version_text a +:+ eol)
  = Some [a_major a; a_minor a; a_patch a].
Proof.
  intros N1 H1 N2 H2 N3 H3. unfold version_text.
  destruct (a_major a) as [|m1 major]; [done |].
  destruct (a_minor a) as [|m2 minor]; [done |].
  destruct (a_patch a) as [|m3 patch]; [done |].
  rewrite !append_assoc.
  rewrite (append_cons "." _ eol), append_assoc.
  rewrite (append_cons "." _ eol), append_assoc.
  rewrite (append_cons "-" _ eol).
  by apply version_line_groups.
Qed.

End VersionLine.

(** ** `parse_stat` on a well-formed answer *)

Section StatAnswer.

Lemma next_value_field_line (key value rest : string) :
  lacks Py.nl key = true ->
  lacks ":" key = true ->
  value_text value ->
  next_value (Py.lines (field_line key value rest))
  = Return (value +:+ eol, Py.lines rest).
Proof.
  intros Hn Hc [Hvn Hvc]. unfold field_line, next_value.
  rewrite lines_cons_line.
  - cbn [Py.readline]. rewrite append_assoc, append_cons.
    rewrite field_key_value; [done | done |].
    by rewrite lacks_append, Hvc.
  - rewrite lacks_append. cbn [lacks]. by rewrite Hn, Hvn.
Qed.

Lemma clients_client_lines (cs : list string) (rest : string) :
  Forall (fun c => lacks Py.nl c = true /\ Py.strip c <> EmptyString) cs ->
  clients (Py.lines (client_lines cs (EmptyString +:+ eol +:+ rest)))
  = (Z.of_nat (length cs), Py.lines rest).
Proof.
  induction 1 as [|c cs [Hn Hs] _ IH].
  - cbn [client_lines]. rewrite lines_cons_line by done.
    cbn [clients length]. rewrite strip_line. reflexivity.
  - cbn [client_lines]. rewrite lines_cons_line by done.
    cbn [clients]. rewrite strip_line.
    destruct (Py.strip c) as [|x r] eqn:Hc; [done |].
    rewrite IH. cbn [length]. f_equal. lia.
Qed.

(** `parse_stat` on a well-formed answer: every line is read as what it
    is. *)
Lemma parse_stat_answer (a : stat_answer) (v : stat_values) :
  reads a v ->
  - 2 ^ 63 <= v_zxid v < 2 ^ 63 ->
  let mode := Py.lower (Py.strip (a_mode a)) in
  parse_stat (stat_text a)
  = Return
      (Some [("zookeeper.latency.min", v_min v);
             ("zookeeper.latency.avg", v_avg v);
             ("zookeeper.latency.max", v_max v);
             ("zookeeper.bytes_received", v_received v);
             ("zookeeper.bytes_sent", v_sent v);
             ("zookeeper.connections", v_connections v);
             ("zookeeper.bytes_outstanding", v_outstanding v);
             ("zookeeper.outstanding_requests", v_outstanding v);
             ("zookeeper.zxid.epoch", signed32 (Z.shiftr (v_zxid v) 32));
             ("zookeeper.zxid.count", signed32 (v_zxid v));
             ("zookeeper.nodes", v_nodes v)]%string,
       Some ["mode:" +:+ mode], mode,
       Some (a_major a +:+ "." +:+ a_minor a +:+ "." +:+ a_patch a)).
Proof.
  intros [(N1 & D1 & L1) (N2 & D2 & L2) (N3 & D3 & L3) L4 Hcl
            (Tlat & Hlat) (Trec & Hrec) (Tsent & Hsent) Hconn
            (Tout & Hout) (Tzx & Hzx) (Tmode & Hmode) (Tnodes & Hnodes)]
         Hrange mode.
  unfold parse_stat, stat_text. cbv zeta.
  rewrite lines_cons_line by (by apply version_text_line).
  cbn [Py.readline].
  rewrite version_text_groups by done.
  unfold stat_body. cbv zeta.
  rewrite lines_cons_line by reflexivity.
  cbn [Py.readline].
  rewrite (clients_client_lines _ _ Hcl).
  rewrite next_value_field_line by done.
  cbn [mbind result_bind]. rewrite strip_line, Hlat.
  cbn [mbind result_bind].
  rewrite next_value_field_line by done.
  cbn [mbind result_bind]. rewrite strip_line, Hrec.
  cbn [mbind result_bind].
  rewrite next_value_field_line by done.
  cbn [mbind result_bind]. rewrite strip_line, Hsent.
  cbn [mbind result_bind].
  destruct (a_connections a) as [c |].
  - destruct Hconn as (Hgate & Tc & Hc). rewrite Hgate.
    rewrite next_value_field_line by done.
    cbn [mbind result_bind]. rewrite strip_line, Hc.
    cbn [mbind result_bind].
    rewrite next_value_field_line by done.
    cbn [mbind result_bind]. rewrite strip_line, Hout.
    cbn [mbind result_bind].
    rewrite next_value_field_line by done.
    cbn [mbind result_bind]. rewrite strip_line, Hzx.
    cbn [mbind result_bind]. rewrite (zxid_split_in_range _ Hrange).
    cbn [mbind result_bind].
    rewrite next_value_field_line by done.
    cbn [mbind result_bind]. rewrite strip_line.
    unfold Py.decode_ascii. rewrite Hmode.
    cbn [mbind result_bind].
    change (Py.lines EmptyString) with (@nil string).
    rewrite next_value_field_line by done.
    cbn [mbind result_bind]. rewrite strip_line, Hnodes.
    reflexivity.
  - destruct Hconn as (Hgate & Hc). rewrite Hgate.
    cbn [mbind result_bind].
    rewrite next_value_field_line by done.
    cbn [mbind result_bind]. rewrite strip_line, Hout.
    cbn [mbind result_bind].
    rewrite next_value_field_line by done.
    cbn [mbind result_bind]. rewrite strip_line, Hzx.
    cbn [mbind result_bind]. rewrite (zxid_split_in_range _ Hrange).
    cbn [mbind result_bind].
    rewrite next_value_field_line by done.
    cbn [mbind result_bind]. rewrite strip_line.
    unfold Py.decode_ascii. rewrite Hmode.
    cbn [mbind result_bind].
    rewrite next_value_field_line by done.
    cbn [mbind result_bind]. rewrite strip_line, Hnodes, Hc.
    reflexivity.
Qed.

Lemma doc_answer_text : stat_text doc_answer = doc_stat.
Proof. vm_compute. reflexivity. Qed.

Lemma doc_answer_reads : reads doc_answer doc_values.
Proof.
  constructor; unfold value_text;
    repeat match goal with
           | |- match a_connections doc_answer with _ => _ end =>
               change (a_connections doc_answer) with (@None string);
               cbv iota
           | |- _ /\ _ => split
           | |- Forall _ _ => constructor
           | |- _ <> _ => vm_compute; discriminate
           | |- _ = _ => vm_compute; reflexivity
           end.
Qed.

(** On a well-formed answer the `connections` metric follows the test of the
    code: the explicit value when the version tuple is at least
    ('3', '4', '4') as strings, the number of client lines otherwise. *)
Lemma connections_follow_gate (a : stat_answer) (v : stat_values) :
  reads a v ->
  - 2 ^ 63 <= v_zxid v < 2 ^ 63 ->
  exists metrics tags mode version,
    parse_stat (stat_text a) = Return (Some metrics, tags, mode, version)
    /\ In ("zookeeper.connections"%string, v_connections v) metrics
    /\ match a_connections a with
       | Some c => Py.int (Py.strip c) = Return (v_connections v)
       | None => v_connections v = Z.of_nat (length (a_clients a))
       end.
Proof.
  intros Hr Hz. eexists _, _, _, _.
  split; [apply (parse_stat_answer a v Hr Hz) |]. split.
  - cbn [In]. tauto.
  - destruct Hr as [_ _ _ _ _ _ _ _ Hc _ _ _ _].
    destruct (a_connections a); tauto.
Qed.

(** For versions of three one-digit numbers the test of the code is the
    numeric order. *)
Lemma has_connections_val_one_digit :
  forallb (fun x => forallb (fun y => forallb (fun z =>
    Bool.eqb (has_connections_val (Py.str_of_Z x, Py.str_of_Z y, Py.str_of_Z z))
             (numeric_ge (x, y, z) (3, 4, 4))) digits) digits) digits = true.
Proof. vm_compute. reflexivity. Qed.

End StatAnswer.

(** ** Versions made of numbers *)

Section NumericVersions.

Lemma isdigit_facts (c : ascii) :
  Py.isdigit c = true ->
  Py.isspace c = false
  /\ Py.digit_val c = Some (Z.of_N (N_of_ascii c) - 48)
  /\ (Z.of_N (N_of_ascii c) - 48 <? 10) = true
  /\ LooseVersion.classify c = LooseVersion.Digits
  /\ c <> "+"%char /\ c <> "-"%char /\ c <> "."%char.
Proof.
  unfold Py.isdigit, Py.isspace, Py.digit_val, LooseVersion.classify,
    Py.isdigit.
  intros H. rewrite H. apply andb_true_iff in H as [H1 H2].
  apply N.leb_le in H1. apply N.leb_le in H2.
  repeat split.
  - apply orb_false_iff. split.
    + apply N.eqb_neq. lia.
    + apply andb_false_iff. right. apply N.leb_gt. lia.
  - apply Z.ltb_lt. lia.
  - intros ->. vm_compute in H1. by apply H1.
  - intros ->. vm_compute in H1. by apply H1.
  - intros ->. vm_compute in H1. by apply H1.
Qed.

Lemma read_digits_all (s : string) (acc : Z) (seen : bool) :
  forallb Py.isdigit (list_ascii_of_string s) = true ->
  (s <> EmptyString \/ seen = true) ->
  Py.read_digits 10 acc seen s = Some (decimal acc s, EmptyString).
Proof.
  revert acc seen. induction s as [|c s IH]; intros acc seen Hd Hs.
  - destruct Hs as [Hs | ->]; [done | done].
  - cbn [list_ascii_of_string forallb] in Hd.
    apply andb_true_iff in Hd as [Hc Hd].
    destruct (isdigit_facts c Hc) as (_ & Hv & Hlt & _).
    cbn [Py.read_digits decimal]. rewrite Hv, Hlt.
    apply IH; [done | by right].
Qed.

(** `int(s)` of a string of digits. *)
Lemma int_all_digits (s : string) :
  all_digits s = true -> Py.int s = Return (decimal 0 s).
Proof.
  intros H. destruct s as [|c s]; [done |]. cbn [all_digits] in H.
  pose proof H as Hall.
  cbn [list_ascii_of_string forallb] in H.
  apply andb_true_iff in H as [Hc _].
  destruct (isdigit_facts c Hc) as (Hsp & _ & _ & _ & Hplus & Hminus & _).
  unfold Py.int, Py.read_number.
  assert (Hl : Py.lstrip (String c s) = String c s)
    by (cbn [Py.lstrip]; by rewrite Hsp).
  rewrite Hl.
  assert (Hsign : Py.read_sign (String c s) = (1, String c s)).
  { unfold Py.read_sign.
    destruct c as [[] [] [] [] [] [] [] []]; try reflexivity;
      by (exfalso; (apply Hplus || apply Hminus)). }
  rewrite Hsign, Hl.
  assert (Hx : Py.skip_hex_prefix 10 (String c s) = String c s).
  { unfold Py.skip_hex_prefix. change (10 =? 16) with false.
    destruct c as [[] [] [] [] [] [] [] []]; try reflexivity;
      destruct s as [|[[] [] [] [] [] [] [] []] s]; reflexivity. }
  rewrite Hx, (read_digits_all (String c s) 0 false Hall) by (by left).
  cbn [Py.skip_long_suffix Py.lstrip]. by rewrite Z.mul_1_l.
Qed.

Lemma runs_cons (c : ascii) (s : string) :
  LooseVersion.runs (String c s)
  = match LooseVersion.runs s with
    | (k', w) :: rest =>
        if LooseVersion.same_run (LooseVersion.classify c) k'
        then (LooseVersion.classify c, String c w) :: rest
        else (LooseVersion.classify c, String c EmptyString) :: (k', w) :: rest
    | [] => [(LooseVersion.classify c, String c EmptyString)]
    end.
Proof. reflexivity. Qed.

Lemma runs_dot (t : string) :
  LooseVersion.runs (String "." t)
  = (LooseVersion.Dot, "."%string) :: LooseVersion.runs t.
Proof.
  cbn [LooseVersion.runs].
  change (LooseVersion.classify ".") with LooseVersion.Dot.
  destruct (LooseVersion.runs t) as [|[k w] rest]; [done |].
  by destruct k.
Qed.

Lemma runs_digits_then (s : string) (k : LooseVersion.cclass) (w : string)
  (rest : list (LooseVersion.cclass * string)) (t : string) :
  all_digits s = true ->
  LooseVersion.runs t = (k, w) :: rest ->
  k <> LooseVersion.Digits ->
  LooseVersion.runs (s +:+ t) = (LooseVersion.Digits, s) :: (k, w) :: rest.
Proof.
  intros Hs Ht Hk. destruct s as [|c s]; [done |]. cbn [all_digits] in Hs.
  revert c Hs. induction s as [|d s IH]; intros c Hs.
  - cbn [list_ascii_of_string forallb] in Hs.
    apply andb_true_iff in Hs as [Hc _].
    destruct (isdigit_facts c Hc) as (_ & _ & _ & Hcl & _).
    rewrite append_cons, append_nil_l. cbn [LooseVersion.runs].
    rewrite Ht, Hcl. by destruct k.
  - cbn [list_ascii_of_string forallb] in Hs.
    apply andb_true_iff in Hs as [Hc Hs].
    destruct (isdigit_facts c Hc) as (_ & _ & _ & Hcl & _).
    rewrite append_cons, runs_cons.
    rewrite (IH d Hs), Hcl. reflexivity.
Qed.

Lemma runs_digits (s : string) :
  all_digits s = true ->
  LooseVersion.runs s = [(LooseVersion.Digits, s)].
Proof.
  intros Hs. destruct s as [|c s]; [done |]. cbn [all_digits] in Hs.
  revert c Hs. induction s as [|d s IH]; intros c Hs.
  - cbn [list_ascii_of_string forallb] in Hs.
    apply andb_true_iff in Hs as [Hc _].
    destruct (isdigit_facts c Hc) as (_ & _ & _ & Hcl & _).
    cbn [LooseVersion.runs]. by rewrite Hcl.
  - cbn [list_ascii_of_string forallb] in Hs.
    apply andb_true_iff in Hs as [Hc Hs].
    destruct (isdigit_facts c Hc) as (_ & _ & _ & Hcl & _).
    rewrite runs_cons, (IH d Hs), Hcl. reflexivity.
Qed.

Lemma digits_not_dot (s : string) :
  all_digits s = true -> String.eqb s "." = false.
Proof.
  intros Hs. apply String.eqb_neq. intros ->. by vm_compute in Hs.
Qed.

(** `LooseVersion("a.b.c").version` for three numbers. *)
Lemma parse_three_numbers (a b c : string) :
  all_digits a = true -> all_digits b = true -> all_digits c = true ->
  LooseVersion.parse (a +:+ String "." (b +:+ String "." c))
  = [LooseVersion.CInt (decimal 0 a); LooseVersion.CInt (decimal 0 b);
     LooseVersion.CInt (decimal 0 c)].
Proof.
  intros Ha Hb Hc. unfold LooseVersion.parse.
  rewrite (runs_digits_then a LooseVersion.Dot "."
             (LooseVersion.runs (b +:+ String "." c)) _ Ha (runs_dot _))
    by done.
  rewrite (runs_digits_then b LooseVersion.Dot "."
             (LooseVersion.runs c) _ Hb (runs_dot _)) by done.
  rewrite (runs_digits c Hc).
  repeat first [ rewrite digits_not_dot by done
               | progress change (String.eqb "." ".") with true
               | progress cbn [List.filter negb map snd] ].
  unfold LooseVersion.component_of.
  by rewrite !int_all_digits.
Qed.

(** The gate on a version of three numbers is the numeric order. *)
Lemma supports_mntr_numbers (a b c : string) :
  all_digits a = true -> all_digits b = true -> all_digits c = true ->
  supports_mntr (Some (a +:+ String "." (b +:+ String "." c)))
  = numeric_gt (decimal 0 a, decimal 0 b, decimal 0 c) (3, 4, 0).
Proof.
  intros Ha Hb Hc.
  assert (Hgt : LooseVersion.gt (a +:+ String "." (b +:+ String "." c)) "3.4.0"
                = numeric_gt (decimal 0 a, decimal 0 b, decimal 0 c) (3, 4, 0)).
  { unfold LooseVersion.gt. rewrite (parse_three_numbers a b c Ha Hb Hc).
    change (LooseVersion.parse "3.4.0")
      with [LooseVersion.CInt 3; LooseVersion.CInt 4; LooseVersion.CInt 0].
    cbn [LooseVersion.cmp LooseVersion.component_cmp].
    unfold numeric_gt, numeric_ge.
    destruct (Z.compare_spec (decimal 0 a) 3) as [-> | H1 | H1].
    - change (3 <? 3) with false. change (3 =? 3) with true. cbn [orb andb].
      destruct (Z.compare_spec (decimal 0 b) 4) as [-> | H2 | H2].
      + change (4 <? 4) with false. change (4 =? 4) with true. cbn [orb andb].
        destruct (Z.compare_spec (decimal 0 c) 0) as [-> | H3 | H3].
        * reflexivity.
        * symmetry. apply negb_false_iff, Z.leb_le. lia.
        * symmetry. apply negb_true_iff, Z.leb_gt. lia.
      + assert (E1 : (decimal 0 b <? 4) = true) by (apply Z.ltb_lt; lia).
        by rewrite E1.
      + assert (E1 : (decimal 0 b <? 4) = false) by (apply Z.ltb_ge; lia).
        assert (E2 : (4 =? decimal 0 b) = false) by (apply Z.eqb_neq; lia).
        by rewrite E1, E2.
    - assert (E1 : (decimal 0 a <? 3) = true) by (apply Z.ltb_lt; lia).
      by rewrite E1.
    - assert (E1 : (decimal 0 a <? 3) = false) by (apply Z.ltb_ge; lia).
      assert (E2 : (3 =? decimal 0 a) = false) by (apply Z.eqb_neq; lia).
      by rewrite E1, E2. }
  unfold supports_mntr. destruct a as [|x a]; [done |].
  rewrite append_cons in *. exact Hgt.
Qed.

End NumericVersions.

(** ** The read loop of `_send_command` *)

Section ReadLoop.

Variable recv : nat -> result string.

Lemma read_loop_overrun (cap left : nat) (chunk buf : string) (n : nat) :
  chunk <> EmptyString ->
  keeps_sending recv n left ->
  read_loop cap left recv chunk buf n
  = Raise (overrun cap (buf +:+ received recv n left)).
Proof.
  revert chunk buf n. induction left as [|left IH]; intros chunk buf n Hc Hs.
  - simpl. rewrite append_nil_r. by destruct chunk.
  - destruct (Hs n ltac:(lia)) as (c & Hr & Hne).
    cbn [read_loop received]. rewrite Hr.
    destruct chunk as [|x chunk]; [done |].
    rewrite IH; [by rewrite append_assoc | done |].
    intros k Hk. apply Hs. lia.
Qed.

(** A peer that closes: the loop returns what was received. *)
Lemma read_loop_closed (cap left : nat) (buf : string) (n : nat) :
  read_loop cap left recv EmptyString buf n = Return buf.
Proof. by destruct left. Qed.

End ReadLoop.

Lemma send_command_overrun (sock : peer) :
  p_connect sock = None ->
  p_sendall sock = None ->
  keeps_sending (p_recv sock) 0 (S max_reads) ->
  _send_command sock
  = Raise (overrun max_reads (received (p_recv sock) 0 (S max_reads))).
Proof.
  intros Hc Hs Hk. unfold _send_command, exchange. rewrite Hc, Hs.
  destruct (Hk 0%nat ltac:(lia)) as (c & Hr & Hne).
  cbn [received]. rewrite Hr.
  rewrite read_loop_overrun; [done | done |].
  intros k Hk'. apply Hk. lia.
Qed.

(** ** Actions and what they emit *)

Section Actions.

Lemma for_each_emit {A} (l : list A) (f : A -> event) :
  for_each l (fun x => emit (f x)) = Act (map f l) (Return tt).
Proof.
  induction l as [|x l IH]; [done |].
  cbn [for_each map]. rewrite IH. reflexivity.
Qed.

Lemma events_bind {A B} (m : action A) (k : A -> action B) :
  events (m ≫= k)
  = events m ++ match outcome m with
                | Return a => events (k a)
                | Raise _ => []
                end.
Proof.
  destruct m as [evs [a | e]]; simpl.
  - by destruct (k a).
  - by rewrite app_nil_r.
Qed.

Lemma bind_ret_l {A B} (a : A) (k : A -> action B) :
  (Act [] (Return a) ≫= k) = k a.
Proof. simpl. by destruct (k a). Qed.

Lemma outcome_bind {A B} (m : action A) (k : A -> action B) :
  outcome (m ≫= k)
  = match outcome m with
    | Return a => outcome (k a)
    | Raise e => Raise e
    end.
Proof.
  destruct m as [evs [a | e]]; simpl; [by destruct (k a) | done].
Qed.

Lemma commands_of_app (a b : list event) :
  commands_of (a ++ b) = commands_of a ++ commands_of b.
Proof. apply flat_map_app. Qed.

Lemma gauges_of_app (a b : list event) :
  gauges_of (a ++ b) = gauges_of a ++ gauges_of b.
Proof. apply flat_map_app. Qed.

Lemma instance_modes_of_app (a b : list event) :
  instance_modes_of (a ++ b) = instance_modes_of a ++ instance_modes_of b.
Proof. apply flat_map_app. Qed.

(** `set_instance_status` never raises: it emits the `set` of the instance
    and one gauge per key of its dictionary. *)
Lemma set_instance_status_events (hostname status : string) :
  exists gauges : list event,
    set_instance_status hostname status
    = Act (SetValue "zookeeper.instances" hostname ["mode:" +:+ status]
           :: gauges) (Return tt)
    /\ Forall (fun e => exists k v, e = Gauge ("zookeeper.instances." +:+ k) v [])
              gauges.
Proof.
  unfold set_instance_status. rewrite for_each_emit.
  eexists. split; [reflexivity |].
  apply Forall_forall. intros e He. apply list_elem_of_In, in_map_iff in He.
  destruct He as ([k v] & <- & _). by exists k, v.
Qed.

Lemma gauges0_lookup_other (status : string) :
  status ∉ states -> gauges0 !! status = None.
Proof.
  intros Hn. unfold gauges0. apply not_elem_of_list_to_map_1.
  exact Hn.
Qed.

Lemma silent_bind {A B} (m : action A) (k : A -> action B) :
  silent m -> (forall a, silent (k a)) -> silent (m ≫= k).
Proof.
  unfold silent. intros Hm Hk. rewrite events_bind, commands_of_app, Hm.
  destruct (outcome m); [apply Hk | done].
Qed.

Lemma silent_for_each {A} (l : list A) (body : A -> action unit) :
  (forall x, silent (body x)) -> silent (for_each l body).
Proof.
  intros Hb. induction l as [|x l IH]; [done |].
  cbn [for_each]. apply silent_bind; [apply Hb | by intros _].
Qed.

Lemma set_instance_status_silent (hostname status : string) :
  silent (set_instance_status hostname status).
Proof.
  unfold set_instance_status.
  apply silent_bind; [done | intros _].
  by apply silent_for_each.
Qed.

End Actions.

Ltac silent_step :=
  lazymatch goal with
  | |- silent (set_instance_status _ _) => apply set_instance_status_silent
  | |- silent (mode_check _ _) => unfold mode_check
  | |- silent (report_stat _ _ _) => unfold report_stat
  | |- silent (for_each _ _) => apply silent_for_each; intros ?
  | |- silent (_ ≫= _) => apply silent_bind; [| intros ?]
  | |- silent (match ?x with _ => _ end) => destruct x
  | |- silent _ => reflexivity
  end.

Lemma check_ruok_commands (inst : instance) (connect_to : string -> peer) :
  commands_of (events (check_ruok inst connect_to)) = ["ruok"%string].
Proof.
  unfold check_ruok, send.
  destruct (_send_command (connect_to "ruok")) as [out | []]; try done.
  simpl. by destruct (Py.decode_ascii _).
Qed.

Lemma check_stat_commands (inst : instance) (hostname : string)
  (connect_to : string -> peer) :
  commands_of (events (check_stat inst hostname connect_to)) = ["stat"%string].
Proof.
  unfold check_stat, send.
  rewrite events_bind, commands_of_app. simpl outcome. cbv iota beta.
  change (commands_of (events (emit (Command "stat") ≫= _)))
    with ["stat"%string].
  rewrite <- (app_nil_r ["stat"%string]) at 2. f_equal.
  match goal with
  | |- commands_of (events ?m) = [] => change (silent m)
  end.
  repeat silent_step.
Qed.

Lemma mode_check_quiet (inst : instance) (state : string) :
  gauges_of (events (mode_check inst state)) = []
  /\ instance_modes_of (events (mode_check inst state)) = [].
Proof.
  unfold mode_check. destruct (expected_mode inst) as [|c e]; [done |].
  destruct (Py.decode_ascii ("mode:" +:+ state)) as [umode | x]; [| done].
  cbn [lift mbind action_bind app].
  destruct (String.eqb state (String c e)); [done |].
  by destruct (Py.decode_ascii (String c e)).
Qed.

(** The one failure that is meant to leave `check`: a connection failure of
    `ruok`, after the counter and the CRITICAL service check. *)
Lemma ruok_failure_propagates (inst : instance) (hostname : string)
  (connect_to : string -> peer) :
  _send_command (connect_to "ruok") = Raise ZKConnectionFailure ->
  check inst hostname connect_to
  = Act [Command "ruok"; Increment "zookeeper.timeouts";
         ServiceCheck "zookeeper.ruok" CRITICAL
           "No response from `ruok` command" (sc_tags inst)]
        (Raise ZKConnectionFailure).
Proof.
  intros H. unfold check, check_ruok, send. rewrite H. reflexivity.
Qed.

(** What `parse_stat` raises leaves `check`: nothing is emitted after the
    command, no instance state and no counter. *)
Lemma parse_stat_exception_leaves_check (inst : instance) (hostname : string)
  (connect_to : string -> peer) (stat_out : string) (e : exn) :
  outcome (check_ruok inst connect_to) = Return tt ->
  _send_command (connect_to "stat") = Return stat_out ->
  parse_stat stat_out = Raise e ->
  check inst hostname connect_to
  = Act (events (check_ruok inst connect_to) ++ [Command "stat"]) (Raise e).
Proof.
  intros Hruok Hsend Hparse. unfold check, check_stat, send.
  rewrite Hsend.
  destruct (check_ruok inst connect_to) as [evs r]. simpl in Hruok. subst r.
  cbn [mbind action_bind mret action_ret emit events app].
  unfold report_stat. rewrite Hparse. reflexivity.
Qed.

(** What `parse_mntr` raises leaves `check` as well, after the stat phase. *)
Lemma parse_mntr_exception_leaves_check (inst : instance) (hostname : string)
  (connect_to : string -> peer) (stat_events : list event)
  (version mntr_out : string) (e : exn) :
  outcome (check_ruok inst connect_to) = Return tt ->
  check_stat inst hostname connect_to = Act stat_events (Return (Some version)) ->
  supports_mntr (Some version) = true ->
  _send_command (connect_to "mntr") = Return mntr_out ->
  parse_mntr mntr_out = Raise e ->
  check inst hostname connect_to
  = Act (events (check_ruok inst connect_to) ++ stat_events ++ [Command "mntr"])
        (Raise e).
Proof.
  intros Hruok Hstat Hgate Hsend Hparse.
  unfold check, check_mntr, send.
  rewrite Hstat, Hsend.
  destruct (check_ruok inst connect_to) as [evs r]. simpl in Hruok. subst r.
  cbn [mbind action_bind mret action_ret emit events app].
  rewrite Hgate. cbn [mbind action_bind mret action_ret emit events app].
  unfold report_mntr. rewrite Hparse. reflexivity.
Qed.

(** ** `parse_mntr`: the dictionary that the lines build *)

Section Mntr.

Lemma mntr_lines_store (ls : list string) (pairs : list (string * string))
  (metrics : gmap string string) :
  Forall2 key_value ls pairs ->
  mntr_lines metrics ls = Return (store metrics pairs).
Proof.
  intros H. revert metrics.
  induction H as [|line [k v] ls pairs Hl _ IH]; intros metrics; [done |].
  cbn [mntr_lines]. unfold mntr_line. rewrite Hl. apply IH.
Qed.

Lemma mntr_lines_malformed (ls : list string) (metrics : gmap string string) :
  Exists (fun line => length (Py.split_ws line) <> 2%nat) ls ->
  mntr_lines metrics ls = Raise AttributeError.
Proof.
  intros H. revert metrics. induction ls as [|line ls IH]; intros metrics.
  - by apply Exists_nil in H.
  - cbn [mntr_lines]. unfold mntr_line.
    destruct (Py.split_ws line) as [|k [|v [|x data]]] eqn:Hl; try done.
    apply Exists_cons in H as [H | H].
    + rewrite Hl in H. by destruct H.
    + apply IH, H.
Qed.

(** The later of two lines with the same name wins. *)
Lemma store_as_list (pairs : list (string * string))
  (metrics : gmap string string) :
  store metrics pairs
  = list_to_map (reverse ((fun kv => (metric_name (fst kv), snd kv)) <$> pairs))
    ∪ metrics.
Proof.
  revert metrics. induction pairs as [|[k v] pairs IH]; intros metrics.
  - simpl. by rewrite (left_id_L ∅ (∪)).
  - cbn [store foldl] in *. rewrite IH. rewrite fmap_cons, reverse_cons.
    rewrite list_to_map_app. cbn [list_to_map fst snd foldr].
    rewrite <- (assoc_L (∪)). f_equal.
    rewrite insert_union_singleton_l.
    by rewrite insert_empty.
Qed.

Lemma store_lookup_other (pairs : list (string * string))
  (metrics : gmap string string) (name : string) :
  Forall (fun kv => metric_name (fst kv) <> name) pairs ->
  store metrics pairs !! name = metrics !! name.
Proof.
  intros H. revert metrics.
  induction H as [|[k v] pairs Hk _ IH]; intros metrics; [done |].
  cbn [store foldl]. cbn [fst snd] in *.
  unfold store in IH. rewrite IH. by apply lookup_insert_ne.
Qed.

Lemma replace_underscore (s : string) : Py.replace "_" "." s = dots s.
Proof.
  unfold Py.replace. induction s as [|c s IH]; [done |].
  cbn [Py.replace_from Py.startswith dots String.length Nat.sub].
  rewrite andb_true_r. destruct (Ascii.eqb_spec "_" c) as [<- | Hc].
  - rewrite append_cons, append_nil_l. simpl. by rewrite IH.
  - rewrite IH. destruct (Ascii.eqb_spec c "_") as [-> | _]; [done | done].
Qed.

Lemma replace_zk_absent (s : string) :
  no_zk s = true -> Py.replace "zk" "zookeeper" s = s.
Proof.
  unfold Py.replace. induction s as [|c s IH]; [done |].
  intros H. cbn [no_zk] in H. apply andb_true_iff in H as [Hp Hs].
  apply negb_true_iff in Hp.
  cbn [Py.replace_from]. rewrite Hp. by rewrite IH.
Qed.

(** On a key that starts with `zk` and has no other `zk`, the code and the
    words of the specification agree. *)
Lemma metric_name_prefix (rest : string) :
  no_zk rest = true ->
  metric_name ("zk" +:+ rest) = "zookeeper" +:+ dots rest
  /\ metric_name ("zk" +:+ rest) = spec_metric_name ("zk" +:+ rest).
Proof.
  intros H. unfold metric_name. rewrite replace_underscore.
  assert (Hr : Py.replace "zk" "zookeeper" ("zk" +:+ rest) = "zookeeper" +:+ rest).
  { unfold Py.replace. rewrite !append_cons, append_nil_l.
    cbn [Py.replace_from Py.startswith String.length Nat.sub].
    change (Ascii.eqb "z" "z" && (Ascii.eqb "k" "k" && true)) with true.
    cbv iota. fold (Py.replace "zk" "zookeeper" rest).
    by rewrite replace_zk_absent. }
  rewrite Hr. split; reflexivity.
Qed.

Lemma int_opt_Some (v : string) (n : Z) : int_opt v = Some n <-> Py.int v = Return n.
Proof.
  unfold int_opt. destruct (Py.int v); split; intros H; by simplify_eq.
Qed.

Lemma int_opt_None (v : string) : int_opt v = None <-> Py.int v = Raise ValueError.
Proof.
  unfold int_opt, Py.int. destruct (Py.read_number 10 false v); split; done.
Qed.

Lemma int_value_pair (k v : string) :
  int_value (k, v) = n ← Py.int v; Return (k, n).
Proof. reflexivity. Qed.

Lemma convert_all_ok (l : list (string * string)) :
  Forall (fun kv => is_Some (int_opt (snd kv))) l ->
  exists kvs : list (string * Z),
    map_result int_value l = Return kvs
    /\ forall name,
         (list_to_map kvs : gmap string Z) !! name
         = (list_to_map l : gmap string string) !! name ≫= int_opt.
Proof.
  induction 1 as [|[k v] l [n Hn] _ (kvs & Hkvs & Hlook)].
  - exists []. split; [done |]. intros name.
    cbn [list_to_map foldr]. by rewrite !lookup_empty.
  - cbn [fst snd] in Hn.
    exists ((k, n) :: kvs). apply int_opt_Some in Hn as Hint. split.
    + cbn [map_result].
      rewrite int_value_pair, Hint. cbn [mbind result_bind]. by rewrite Hkvs.
    + intros name. cbn [list_to_map foldr fst snd].
      destruct (decide (k = name)) as [-> | Hne].
      * rewrite !lookup_insert_eq. simpl. by rewrite Hn.
      * rewrite !lookup_insert_ne by done. apply Hlook.
Qed.

Lemma convert_some_fail (l : list (string * string)) :
  Exists (fun kv => int_opt (snd kv) = None) l ->
  map_result int_value l = Raise ValueError.
Proof.
  induction l as [|[k v] l IH]; intros H; [by apply Exists_nil in H |].
  cbn [map_result]. rewrite int_value_pair.
  destruct (int_opt v) as [n |] eqn:Hv.
  - apply int_opt_Some in Hv. rewrite Hv. cbn [mbind result_bind].
    apply Exists_cons in H as [H | H].
    + apply int_opt_Some in Hv. simpl in H. congruence.
    + by rewrite (IH H).
  - apply int_opt_None in Hv. by rewrite Hv.
Qed.

Lemma int_values_ok (metrics : gmap string string) :
  (forall name v, metrics !! name = Some v -> is_Some (int_opt v)) ->
  exists ints : gmap string Z,
    int_values metrics = Return ints
    /\ forall name, ints !! name = metrics !! name ≫= int_opt.
Proof.
  intros Hall.
  destruct (convert_all_ok (map_to_list metrics)) as (kvs & Hkvs & Hlook).
  { apply Forall_forall. intros [k v] Hin.
    apply elem_of_map_to_list in Hin. by apply (Hall k v). }
  exists (list_to_map kvs). split.
  - unfold int_values. by rewrite Hkvs.
  - intros name. by rewrite Hlook, list_to_map_to_list.
Qed.

Lemma int_values_fail (metrics : gmap string string) (name v : string) :
  metrics !! name = Some v ->
  int_opt v = None ->
  int_values metrics = Raise ValueError.
Proof.
  intros Hin Hv. unfold int_values.
  rewrite convert_some_fail; [done |].
  apply Exists_exists. exists (name, v). split; [| done].
  by apply elem_of_map_to_list.
Qed.

(** With a terminator after the sentinel, as a server that ends every line
    sends it, the comparison fails and `parse_mntr` raises. *)
Lemma mntr_sentinel_with_newline :
  parse_mntr (sentinel +:+ String Py.nl EmptyString) = Raise (KeyError state_key).
Proof. vm_compute. reflexivity. Qed.

End Mntr.

(** * The claims *)

(** C1. The test for the `Connections:` line compares the three captured
    strings, not numbers.  For the answer of a 3.4.10 server, whose version
    is numerically at least 3.4.4, `has_connections_val` is false: the
    `Connections:` line is not read as such, every later line is read one
    position too early, and `parse_stat` raises instead of reporting the
    explicit value.  For 3.4.5 the explicit value is reported. *)
Theorem connections_gate_compares_strings :
  Re.match_ version_pattern (fst (Py.readline (Py.lines stat_3_4_10)))
  = Some ["3"; "4"; "10"]%string
  /\ numeric_ge (3, 4, 10) (3, 4, 4) = true
  /\ has_connections_val ("3", "4", "10")%string = false
  /\ parse_stat stat_3_4_10 = Raise ValueError
  /\ exists metrics tags,
       parse_stat stat_3_4_5
       = Return (Some metrics, tags, "standalone", Some "3.4.5")%string
       /\ In ("zookeeper.connections"%string, 2) metrics.
Proof.
  repeat split; try (vm_compute; reflexivity).
  eexists _, _. split; [vm_compute; reflexivity |]. vm_compute. tauto.
Qed.

(** C2. An exception of `parse_stat` or `parse_mntr` is raised in the `else`
    clause of the `try` statement, which the `except` clauses do not cover:
    it leaves `check`, with nothing emitted after the command.  With the
    `stat` answer of a 3.4.10 server no instance state is recorded and no
    counter incremented; with a `mntr` answer that holds a fraction the stat
    phase completes and the exception of `parse_mntr` is not counted. *)
Theorem parse_failures_abort_check :
  (forall (inst : instance) (hostname : string) (connect_to : string -> peer)
          (stat_out : string) (e : exn),
     outcome (check_ruok inst connect_to) = Return tt ->
     _send_command (connect_to "stat") = Return stat_out ->
     parse_stat stat_out = Raise e ->
     check inst hostname connect_to
     = Act (events (check_ruok inst connect_to) ++ [Command "stat"]) (Raise e))
  /\ (forall (inst : instance) (hostname : string) (connect_to : string -> peer)
             (stat_events : list event) (version mntr_out : string) (e : exn),
        outcome (check_ruok inst connect_to) = Return tt ->
        check_stat inst hostname connect_to
        = Act stat_events (Return (Some version)) ->
        supports_mntr (Some version) = true ->
        _send_command (connect_to "mntr") = Return mntr_out ->
        parse_mntr mntr_out = Raise e ->
        check inst hostname connect_to
        = Act (events (check_ruok inst connect_to) ++ stat_events
               ++ [Command "mntr"]) (Raise e))
  /\ parse_stat stat_3_4_10 = Raise ValueError
  /\ check inst0 "zk1" net_3_4_10
     = Act [Command "ruok";
            ServiceCheck "zookeeper.ruok" OK "Response from the server: imok"
              ["host:localhost"; "port:2181"];
            Command "stat"]%string
           (Raise ValueError)
  /\ parse_mntr mntr_fraction = Raise ValueError
  /\ outcome (check inst0 "zk1" net_fraction) = Raise ValueError
  /\ commands_of (events (check inst0 "zk1" net_fraction))
     = ["ruok"; "stat"; "mntr"]%string
  /\ increments_of (events (check inst0 "zk1" net_fraction)) = []
  /\ instance_modes_of (events (check inst0 "zk1" net_3_4_10)) = [].
Proof.
  split; [exact parse_stat_exception_leaves_check |].
  split; [exact parse_mntr_exception_leaves_check |].
  repeat split; vm_compute; reflexivity.
Qed.

(** C3 (as amended). For every zxid in [0, 2^63), the range that
    `struct.pack('>q')` accepts among the values a `0x<hex>` literal can
    denote, the epoch is the high four bytes and the count the low four
    bytes, each read as a big-endian signed 32-bit number, and these are the
    values of `zookeeper.zxid.epoch` and `zookeeper.zxid.count` that
    `parse_stat` returns for every well-formed answer whose `Zxid:` line
    reads as that zxid; the zxid 0x1034799c7 gives epoch 1 and count
    55024071. *)
Theorem zxid_split_halves (zxid : Z) :
  0 <= zxid < 2 ^ 63 ->
  let epoch := zxid / 2 ^ 32 in
  let count := (let low := zxid mod 2 ^ 32 in
                if low <? 2 ^ 31 then low else low - 2 ^ 32) in
  zxid_split zxid = Return (epoch, count)
  /\ (forall (a : stat_answer) (v : stat_values),
        reads a v -> v_zxid v = zxid ->
        exists metrics tags mode version,
          parse_stat (stat_text a) = Return (Some metrics, tags, mode, version)
          /\ In ("zookeeper.zxid.epoch"%string, epoch) metrics
          /\ In ("zookeeper.zxid.count"%string, count) metrics)
  /\ zxid_split 0x1034799c7 = Return (1, 55024071).
Proof.
  intros Hz epoch count.
  assert (Hrange : - 2 ^ 63 <= zxid < 2 ^ 63) by lia.
  assert (He : signed32 (Z.shiftr zxid 32) = epoch) by (by apply signed32_high).
  split; [| split].
  - by rewrite (zxid_split_in_range zxid Hrange), He.
  - intros a v Hr Hv. subst zxid. eexists _, _, _, _.
    split; [apply (parse_stat_answer a v Hr Hrange) |].
    rewrite He. split; cbn [In]; tauto.
  - vm_compute. reflexivity.
Qed.

Lemma zxid_split_halves_witness :
  0 <= 0x1034799c7 < 2 ^ 63
  /\ exists metrics tags mode version,
       parse_stat doc_stat = Return (Some metrics, tags, mode, version)
       /\ In ("zookeeper.zxid.epoch"%string, 1) metrics
       /\ In ("zookeeper.zxid.count"%string, 55024071) metrics.
Proof.
  split; [lia |].
  destruct (zxid_split_halves 0x1034799c7 ltac:(lia)) as (_ & H & _).
  rewrite <- doc_answer_text.
  exact (H doc_answer doc_values doc_answer_reads eq_refl).
Defined.

(** The zxid claim fails as stated: the count of 0x1034799c7 is 55024071
    (0x034799c7), not 55924167, and a zxid from 2^63 on is refused by
    `struct.pack('>q')`, so that `parse_stat` raises. *)
Lemma zxid_claim_counterexample :
  zxid_split 0x1034799c7 <> Return (1, 55924167)
  /\ (exists metrics tags mode version,
        parse_stat doc_stat = Return (Some metrics, tags, mode, version)
        /\ In ("zookeeper.zxid.count", 55024071) metrics
        /\ ~ In ("zookeeper.zxid.count", 55924167) metrics)
  /\ 0 <= 0x8000000000000000 < 2 ^ 64
  /\ zxid_split 0x8000000000000000 = Raise StructError.
Proof.
  split; [vm_compute; discriminate |].
  split; [| split; [lia | vm_compute; reflexivity]].
  eexists _, _, _, _. split; [vm_compute; reflexivity |].
  split; [vm_compute; tauto |].
  vm_compute. intros H.
  repeat (destruct H as [H | H]; [discriminate H |]). exact H.
Qed.

(** C4 (as amended). A peer that has data on each of the first 10001 reads
    makes `_send_command` raise a plain `Exception` whose message carries
    the number of bytes read so far; it does not hang.  While fetching
    `stat`, the check handles it as any exception other than a connection
    failure: it prints it, increments the client-exception counter and
    records the instance state `unknown`, then goes on without `mntr`. *)
Theorem overrun_is_client_exception
  (inst : instance) (hostname : string) (connect_to : string -> peer) :
  let sock := connect_to "stat" in
  let e := overrun max_reads (received (p_recv sock) 0 (S max_reads)) in
  p_connect sock = None ->
  p_sendall sock = None ->
  keeps_sending (p_recv sock) 0 (S max_reads) ->
  outcome (check_ruok inst connect_to) = Return tt ->
  _send_command sock = Raise e
  /\ check inst hostname connect_to
     = Act (events (check_ruok inst connect_to)
            ++ [Command "stat"; Stderr e;
                Increment "zookeeper.datadog_client_exception"]
            ++ events (set_instance_status hostname "unknown"))
           (Return tt).
Proof.
  intros sock e Hc Hs Hk Hruok.
  pose proof (send_command_overrun sock Hc Hs Hk) as Hsend.
  split; [exact Hsend |].
  unfold check, check_stat, send. fold sock. rewrite Hsend.
  subst e. unfold overrun. set (msg := _ +:+ _). clearbody msg.
  destruct (check_ruok inst connect_to) as [evs r]. simpl in Hruok. subst r.
  destruct (set_instance_status_events hostname "unknown") as (gs & -> & _).
  simpl. by rewrite !app_nil_r.
Qed.

Lemma overrun_is_client_exception_witness :
  p_connect (overrun_net "stat") = None
  /\ keeps_sending (p_recv (overrun_net "stat")) 0 (S max_reads)
  /\ check inst0 "zk1" overrun_net
     = Act (events (check_ruok inst0 overrun_net)
            ++ [Command "stat";
                Stderr (overrun max_reads
                          (received (p_recv (overrun_net "stat")) 0 (S max_reads)));
                Increment "zookeeper.datadog_client_exception"]
            ++ events (set_instance_status "zk1" "unknown"))
           (Return tt).
Proof.
  assert (Hk : keeps_sending (p_recv (overrun_net "stat")) 0 (S max_reads)).
  { intros k _. exists "x"%string. split; [reflexivity | discriminate]. }
  split; [reflexivity |]. split; [exact Hk |].
  apply (overrun_is_client_exception inst0 "zk1" overrun_net);
    [reflexivity | reflexivity | exact Hk | reflexivity].
Defined.

(** The overrun claim fails as stated: with a `stat` peer that never closes
    the check records `unknown` and increments the client-exception counter;
    it neither records `down` nor increments the timeout counter. *)
Lemma overrun_claim_counterexample :
  let evs := events (check inst0 "zk1" overrun_net) in
  _send_command chatty
  = Raise (GenericException
             "Read 10001 bytes before exceeding max reads of 10000. ")
  /\ instance_modes_of evs = [["mode:unknown"%string]]
  /\ increments_of evs = ["zookeeper.datadog_client_exception"%string]
  /\ ~ In ["mode:down"%string] (instance_modes_of evs)
  /\ ~ In "zookeeper.timeouts"%string (increments_of evs).
Proof.
  cbv zeta. split; [vm_compute; reflexivity |].
  assert (H : (instance_modes_of (events (check inst0 "zk1" overrun_net)),
               increments_of (events (check inst0 "zk1" overrun_net)))
              = ([["mode:unknown"%string]],
                 ["zookeeper.datadog_client_exception"%string]))
    by (vm_compute; reflexivity).
  pose proof (f_equal fst H) as H1. pose proof (f_equal snd H) as H2.
  cbn [fst snd] in H1, H2. rewrite H1, H2. clear H H1 H2.
  split; [done |]. split; [done |].
  split; intros [H | []]; discriminate H.
Qed.

(** C5. The gate for `mntr` is `LooseVersion(zk_version) > LooseVersion("3.4.0")`
    on a version that `stat` gave: 3.4.5 passes, 3.2.2 and 3.4.0 itself do
    not, and no version does not; on a version of three numbers it is the
    numeric order, major first, strictly above (3, 4, 0).  In every
    invocation in which a socket is opened for `mntr`, the stat phase
    returned a version and that version passes the gate. *)
Theorem mntr_gate :
  supports_mntr (Some "3.4.5"%string) = true
  /\ supports_mntr (Some "3.2.2"%string) = false
  /\ supports_mntr (Some "3.4.0"%string) = false
  /\ supports_mntr None = false
  /\ (forall major minor patch : string,
        all_digits major = true ->
        all_digits minor = true ->
        all_digits patch = true ->
        supports_mntr (Some (major +:+ "." +:+ minor +:+ "." +:+ patch))
        = numeric_gt (decimal 0 major, decimal 0 minor, decimal 0 patch)
                     (3, 4, 0))
  /\ forall (inst : instance) (hostname : string) (connect_to : string -> peer),
       In "mntr"%string
          (commands_of (events (check inst hostname connect_to))) ->
       exists version,
         outcome (check_stat inst hostname connect_to) = Return (Some version)
         /\ supports_mntr (Some version) = true.
Proof.
  do 4 (split; [vm_compute; reflexivity |]).
  split; [exact supports_mntr_numbers |].
  intros inst hostname connect_to. unfold check.
  rewrite events_bind, commands_of_app, check_ruok_commands.
  destruct (outcome (check_ruok inst connect_to)) as [[] | e].
  - rewrite events_bind, commands_of_app, check_stat_commands.
    destruct (outcome (check_stat inst hostname connect_to)) as [zk_version | e].
    + destruct (supports_mntr zk_version) eqn:Hgate.
      * destruct zk_version as [version |]; [| discriminate Hgate].
        intros _. by exists version.
      * simpl. intros [H | [H | []]]; discriminate H.
    + simpl. intros [H | [H | []]]; discriminate H.
  - simpl. intros [H | []]. discriminate H.
Qed.

Lemma mntr_gate_witness :
  all_digits "10" = true
  /\ supports_mntr (Some "3.10.0"%string) = true
  /\ supports_mntr (Some "3.4.0"%string) = false.
Proof.
  destruct mntr_gate as (_ & _ & H340 & _ & H & _).
  split; [reflexivity |]. split; [| exact H340].
  exact (H "3"%string "10"%string "0"%string eq_refl eq_refl eq_refl).
Defined.

(** C6. Whatever the status, `set_instance_status` emits the seven
    `zookeeper.instances.*` gauges, each once: the gauge of the status, or
    `unknown` for a status outside the seven, with value 1 and the six others
    with value 0. *)
Theorem set_instance_status_one_hot (hostname status : string) :
  let chosen := if bool_decide (status ∈ states) then status
                else "unknown" in
  let emitted := gauges_of (events (set_instance_status hostname status)) in
  emitted ≡ₚ map (fun k => ("zookeeper.instances." +:+ k,
                             if bool_decide (k = chosen) then 1 else 0)) states
  /\ List.filter (fun nv => snd nv =? 1) emitted
     = [("zookeeper.instances." +:+ chosen, 1)]
  /\ length (List.filter (fun nv => snd nv =? 0) emitted) = 6%nat
  /\ outcome (set_instance_status hostname status) = Return tt.
Proof.
  cbv zeta. case_bool_decide as Hin.
  - unfold states in Hin.
    repeat (apply elem_of_cons in Hin as [-> | Hin]);
      [| | | | | | | by apply elem_of_nil in Hin];
      (split; [apply (bool_decide_unpack _); vm_compute; exact I |]);
      vm_compute; auto.
  - unfold set_instance_status.
    rewrite (gauges0_lookup_other status Hin).
    split; [apply (bool_decide_unpack _); vm_compute; exact I |].
    vm_compute; auto.
Qed.



(** C8 (as amended). For an answer that is not the sentinel, the first line
    is consumed unparsed; a line after it that is not exactly two
    white-space separated tokens makes `parse_mntr` raise.  When every such
    line is a key and a value, the dictionary maps each name (every `zk` of
    the key replaced by `zookeeper`, then every underscore by a period) to
    the value of its last line; the value under `zookeeper.server.state`,
    lower-cased, is the returned state and that name is not among the
    returned metrics; every other name is returned with the integer that its
    value reads as, and a value that is no integer makes `parse_mntr`
    raise. *)
Theorem parse_mntr_metrics (buf first : string) (ls : list string) :
  Py.readline (Py.lines buf) = (first, ls) ->
  first <> sentinel ->
  (Exists (fun line => length (Py.split_ws line) <> 2%nat) ls ->
   parse_mntr buf = Raise AttributeError)
  /\ (forall pairs, Forall2 key_value ls pairs ->
      let raw : gmap string string :=
        list_to_map
          (reverse ((fun kv => (metric_name (fst kv), snd kv)) <$> pairs)) in
      forall st, raw !! state_key = Some st ->
        ((forall name v, name <> state_key -> raw !! name = Some v ->
                         is_Some (int_opt v)) ->
         exists metrics : gmap string Z,
           parse_mntr buf = Return (Some metrics, Py.lower st)
           /\ metrics !! state_key = None
           /\ forall name, name <> state_key ->
                           metrics !! name = raw !! name ≫= int_opt)
        /\ (forall name v, name <> state_key -> raw !! name = Some v ->
                           int_opt v = None ->
                           parse_mntr buf = Raise ValueError))
  /\ metric_name "zk_avg_latency" = "zookeeper.avg.latency"%string
  /\ metric_name "zk_server_state" = state_key
  /\ (forall key, metric_name key
                  = dots (Py.replace "zk" "zookeeper" key)).
Proof.
  intros Hread Hfirst. apply String.eqb_neq in Hfirst.
  split; [| split; [| split; [| split]]]; try reflexivity.
  - intros Hbad. unfold parse_mntr. rewrite Hread, Hfirst.
    by rewrite mntr_lines_malformed.
  - intros pairs Hpairs raw st Hst.
    assert (Hraw : store ∅ pairs = raw).
    { rewrite store_as_list. by rewrite (right_id_L ∅ (∪)). }
    assert (Hparse : parse_mntr buf
              = (ints ← int_values (delete state_key raw);
                 Return (Some ints, Py.lower st))).
    { unfold parse_mntr. rewrite Hread, Hfirst.
      rewrite (mntr_lines_store ls pairs ∅ Hpairs), Hraw.
      cbn [mbind result_bind]. by rewrite Hst. }
    split.
    + intros Hints.
      destruct (int_values_ok (delete state_key raw)) as (ints & Hiv & Hlook).
      { intros name v Hv. apply lookup_delete_Some in Hv as [Hne Hv].
        by apply (Hints name v). }
      exists ints. rewrite Hparse, Hiv. split; [done |]. split.
      * by rewrite Hlook, lookup_delete_eq.
      * intros name Hne. by rewrite Hlook, lookup_delete_ne.
    + intros name v Hne Hv Hbad. rewrite Hparse.
      rewrite (int_values_fail _ name v); [done | | done].
      by rewrite lookup_delete_ne.
  - intros key. unfold metric_name. apply replace_underscore.
Qed.

Lemma parse_mntr_metrics_witness :
  exists metrics : gmap string Z,
    parse_mntr doc_mntr = Return (Some metrics, "standalone"%string)
    /\ metrics !! state_key = None
    /\ metrics !! "zookeeper.avg.latency"%string = Some 0
    /\ metrics !! "zookeeper.max.file.descriptor.count"%string = Some 4096.
Proof.
  destruct (parse_mntr_metrics doc_mntr
              (fst (Py.readline (Py.lines doc_mntr)))
              (snd (Py.readline (Py.lines doc_mntr))))
    as (_ & Hok & _); [vm_compute; reflexivity | vm_compute; discriminate |].
  destruct (Hok doc_mntr_pairs
                ltac:(apply (bool_decide_unpack _); vm_compute; exact I)
                "standalone"%string ltac:(vm_compute; reflexivity))
    as [Hret _].
  assert (Hall : map_Forall
            (fun name v => name <> state_key -> is_Some (int_opt v))
            (list_to_map (reverse ((fun kv => (metric_name (fst kv), snd kv))
                                     <$> doc_mntr_pairs))
             : gmap string string))
    by (apply (bool_decide_unpack _); vm_compute; exact I).
  destruct (Hret (fun name v Hne Hv => map_Forall_lookup_1 _ _ _ _ Hall Hv Hne))
    as (metrics & Hp & Hstate & Hnames).
  exists metrics. split; [exact Hp |]. split; [exact Hstate |].
  split; (rewrite Hnames; [vm_compute; reflexivity | vm_compute; discriminate]).
Defined.

(** The mntr claim fails as stated.  The first line of the documented answer
    is seven tokens and `parse_mntr` returns all the same: the first line is
    never split.  And `zk` is replaced wherever it occurs in a key, not as a
    prefix only. *)
Lemma mntr_claim_counterexample :
  length (Py.split_ws (fst (Py.readline (Py.lines doc_mntr)))) = 7%nat
  /\ returned_state (parse_mntr doc_mntr) = Some "standalone"%string
  /\ metric_name "zk_fsync_zk" = "zookeeper.fsync.zookeeper"%string
  /\ spec_metric_name "zk_fsync_zk" = "zookeeper.fsync.zk"%string
  /\ returned_state (parse_mntr mntr_zk_twice) = Some "leader"%string
  /\ returned_metric (parse_mntr mntr_zk_twice) "zookeeper.fsync.zookeeper"
     = Some 7
  /\ returned_metric (parse_mntr mntr_zk_twice) "zookeeper.fsync.zk" = None.
Proof. repeat split; vm_compute; reflexivity. Qed.

(** C9. When the first line does not match `version_pattern`, `parse_stat`
    returns (None, None, "inactive", None) and does not raise; the check then
    emits the events of `set_instance_status(hostname, 'inactive')` and, if
    an expected mode is configured, the mode service check: the only gauges
    are the `zookeeper.instances.*` ones, the recorded state is `inactive`,
    and no version is passed on. *)
Theorem stat_without_version_is_inactive (buf : string) :
  Re.match_ version_pattern (fst (Py.readline (Py.lines buf))) = None ->
  parse_stat buf = Return (None, None, "inactive"%string, None)
  /\ forall (inst : instance) (hostname : string) (connect_to : string -> peer),
       _send_command (connect_to "stat") = Return buf ->
       let evs := events (check_stat inst hostname connect_to) in
       evs = Command "stat"
             :: events (set_instance_status hostname "inactive")
             ++ events (mode_check inst "inactive")
       /\ gauges_of evs
          = gauges_of (events (set_instance_status hostname "inactive"))
       /\ Forall (fun nv => exists k, fst nv = "zookeeper.instances." +:+ k)
                 (gauges_of evs)
       /\ instance_modes_of evs = [["mode:inactive"%string]]
       /\ (outcome (check_stat inst hostname connect_to) = Return None
           \/ outcome (check_stat inst hostname connect_to)
              = Raise UnicodeDecodeError).
Proof.
  intros Hno.
  assert (Hp : parse_stat buf = Return (None, None, "inactive"%string, None)).
  { unfold parse_stat. destruct (Py.readline (Py.lines buf)) as [start ls].
    cbn [fst] in Hno. by rewrite Hno. }
  split; [exact Hp |].
  intros inst hostname connect_to Hsend evs.
  destruct (set_instance_status_events hostname "inactive")
    as (gs & Hset & Hgs).
  destruct (mode_check_quiet inst "inactive") as [Hg Hm].
  assert (Hc : check_stat inst hostname connect_to
               = Act (Command "stat"
                      :: events (set_instance_status hostname "inactive")
                      ++ events (mode_check inst "inactive"))
                     (match outcome (mode_check inst "inactive") with
                      | Return _ => Return None
                      | Raise e => Raise e
                      end)).
  { unfold check_stat, send. rewrite Hsend.
    cbn [mbind action_bind mret action_ret emit app].
    unfold report_stat. rewrite Hp. unfold lift. rewrite bind_ret_l.
    cbv beta iota. change (String.eqb "inactive" "inactive") with true.
    cbv iota. rewrite (bind_ret_l tt), Hset.
    destruct (mode_check inst "inactive") as [evs' [[] | e]];
      cbn [mbind action_bind mret action_ret app events outcome];
      by rewrite ?app_nil_r. }
  assert (Hevs : evs = Command "stat"
                       :: events (set_instance_status hostname "inactive")
                       ++ events (mode_check inst "inactive"))
    by (unfold evs; by rewrite Hc).
  assert (Hgauges : gauges_of evs
            = gauges_of (events (set_instance_status hostname "inactive"))).
  { rewrite Hevs. change (Command "stat" :: ?l) with ([Command "stat"] ++ l).
    by rewrite !gauges_of_app, Hg, app_nil_r. }
  split; [exact Hevs |]. split; [exact Hgauges |]. split; [| split].
  - rewrite Hgauges, Hset. simpl. clear -Hgs.
    induction Hgs as [|e gs' (k & v & ->) _ IH]; [constructor |].
    simpl. constructor; [by exists k | exact IH].
  - rewrite Hevs. change (Command "stat" :: ?l) with ([Command "stat"] ++ l).
    rewrite !instance_modes_of_app, Hm, Hset. simpl. f_equal.
    clear -Hgs. induction Hgs as [|e gs' (k & v & ->) _ IH]; [done |].
    exact IH.
  - rewrite Hc. cbn [outcome].
    unfold mode_check. destruct (expected_mode inst) as [|c e]; [by left |].
    change (Py.decode_ascii ("mode:" +:+ "inactive"))
      with (Return (A := string) ("mode:" +:+ "inactive")).
    cbn [lift mbind action_bind].
    destruct (String.eqb "inactive" (String c e)); [by left |].
    unfold Py.decode_ascii.
    destruct (Py.is_ascii (String c e)); [by left | by right].
Qed.

Lemma stat_without_version_is_inactive_witness :
  Re.match_ version_pattern (fst (Py.readline (Py.lines "Connection refused")))
  = None
  /\ parse_stat "Connection refused"
     = Return (None, None, "inactive"%string, None).
Proof.
  split; [reflexivity |].
  exact (proj1 (stat_without_version_is_inactive "Connection refused" eq_refl)).
Defined.

(** C10. An answer that is not the sentinel, whose lines after the first are
    all a key and a value, and in which no key becomes
    `zookeeper.server.state`: `metrics.pop('zookeeper.server.state')` raises
    KeyError and `parse_mntr` returns nothing. *)
Theorem parse_mntr_without_state (buf first : string) (ls : list string)
  (pairs : list (string * string)) :
  Py.readline (Py.lines buf) = (first, ls) ->
  first <> sentinel ->
  Forall2 key_value ls pairs ->
  Forall (fun kv => metric_name (fst kv) <> state_key) pairs ->
  parse_mntr buf = Raise (KeyError state_key).
Proof.
  intros Hread Hfirst Hpairs Hkeys.
  unfold parse_mntr. rewrite Hread.
  apply String.eqb_neq in Hfirst. rewrite Hfirst.
  rewrite (mntr_lines_store ls pairs ∅ Hpairs).
  cbn [mbind result_bind].
  by rewrite (store_lookup_other pairs ∅ state_key Hkeys), lookup_empty.
Qed.

Lemma parse_mntr_without_state_witness :
  parse_mntr mntr_no_state = Raise (KeyError state_key).
Proof.
  apply (parse_mntr_without_state mntr_no_state
           "zk_version  3.4.5-1392090, built on 09/30/2012 17:52 GMT
"
           ["zk_avg_latency  0
"; "zk_znode_count  4
"]%string
           [("zk_avg_latency", "0"); ("zk_znode_count", "4")]%string).
  - reflexivity.
  - discriminate.
  - repeat constructor.
  - repeat constructor; discriminate.
Defined.

(** * Further properties of the code *)

(** ** The read loop of `_send_command` *)

Section ReadLoopReturns.

Variable recv : nat -> result string.

Lemma read_loop_returns (cap : nat) (m : nat) :
  forall (left : nat) (chunk buf : string) (k : nat),
    chunk <> EmptyString ->
    keeps_sending recv k m ->
    recv (k + m)%nat = Return EmptyString ->
    (m < left)%nat ->
    read_loop cap left recv chunk buf k = Return (buf +:+ received recv k m).
Proof.
  induction m as [|m IH]; intros left chunk buf k Hc Hs He Hl.
  - destruct left as [|left]; [lia|].
    destruct chunk; [congruence|].
    cbn [read_loop received]. rewrite Nat.add_0_r in He. rewrite He.
    rewrite read_loop_closed. reflexivity.
  - destruct left as [|left]; [lia|].
    destruct chunk; [congruence|].
    destruct (Hs k ltac:(lia)) as (c & Hk & Hne).
    cbn [read_loop received]. rewrite Hk.
    rewrite (IH left c (buf +:+ c) (S k)); try assumption; try lia.
    + now rewrite append_assoc.
    + intros j Hj. apply Hs. lia.
    + now replace (S k + m)%nat with (k + S m)%nat by lia.
Qed.

Lemma read_loop_fails (cap : nat) (e : exn) (m : nat) :
  forall (left : nat) (chunk buf : string) (k : nat),
    chunk <> EmptyString ->
    keeps_sending recv k m ->
    recv (k + m)%nat = Raise e ->
    (m < left)%nat ->
    read_loop cap left recv chunk buf k = Raise e.
Proof.
  induction m as [|m IH]; intros left chunk buf k Hc Hs He Hl.
  - destruct left as [|left]; [lia|].
    destruct chunk; [congruence|].
    cbn [read_loop]. rewrite Nat.add_0_r in He. now rewrite He.
  - destruct left as [|left]; [lia|].
    destruct chunk; [congruence|].
    destruct (Hs k ltac:(lia)) as (c & Hk & Hne).
    cbn [read_loop]. rewrite Hk.
    apply IH; try assumption; try lia.
    + intros j Hj. apply Hs. lia.
    + now replace (S k + m)%nat with (k + S m)%nat by lia.
Qed.

End ReadLoopReturns.

Lemma exchange_returns (sock : peer) (n : nat) :
  p_connect sock = None ->
  p_sendall sock = None ->
  keeps_sending (p_recv sock) 0 n ->
  p_recv sock n = Return EmptyString ->
  (n <= max_reads)%nat ->
  exchange sock = Return (received (p_recv sock) 0 n).
Proof.
  intros Hc Hs Hk He Hn. unfold exchange. rewrite Hc, Hs.
  destruct n as [|n].
  - rewrite He. apply read_loop_closed.
  - destruct (Hk 0%nat ltac:(lia)) as (c & H0 & Hne). rewrite H0.
    cbn [received]. rewrite H0.
    apply read_loop_returns; try assumption; try lia.
    intros j Hj. apply Hk. lia.
Qed.

(** X1. A peer that accepts the connection and the command, has data on
    the reads 0, ..., n-1 and reports the end of the stream on read n, with
    n at most 10000: `_send_command` returns a buffer that holds exactly
    the chunks read, in order. *)
Theorem send_command_returns_all (sock : peer) (n : nat) :
  p_connect sock = None ->
  p_sendall sock = None ->
  keeps_sending (p_recv sock) 0 n ->
  p_recv sock n = Return EmptyString ->
  (n <= max_reads)%nat ->
  _send_command sock = Return (received (p_recv sock) 0 n).
Proof.
  intros Hc Hs Hk He Hn. unfold _send_command.
  now rewrite (exchange_returns sock n).
Qed.

Lemma send_command_returns_all_witness :
  _send_command (serve "imok") = Return "imok"%string.
Proof.
  apply (send_command_returns_all (serve "imok") 1).
  - reflexivity.
  - reflexivity.
  - intros k Hk. assert (k = 0%nat) as -> by lia.
    exists "imok"%string. split; [reflexivity | discriminate].
  - reflexivity.
  - vm_compute. lia.
Defined.

(** X2. A `socket.timeout` or `socket.error`, whether `connect` raises it,
    or `sendall`, or one of the reads that the loop makes after any number
    of chunks, leaves `_send_command` as ZKConnectionFailure: what was read
    before is dropped. *)
Theorem send_command_connection_failure (sock : peer) (n : nat) (e : exn) :
  e = SocketTimeout \/ e = SocketError ->
  p_connect sock = Some e
  \/ (p_connect sock = None /\ p_sendall sock = Some e)
  \/ (p_connect sock = None /\ p_sendall sock = None
      /\ keeps_sending (p_recv sock) 0 n
      /\ p_recv sock n = Raise e
      /\ (n <= max_reads)%nat) ->
  _send_command sock = Raise ZKConnectionFailure.
Proof.
  intros He H.
  assert (exchange sock = Raise e) as Hx.
  { unfold exchange.
    destruct H as [Hc | [[Hc Hs] | (Hc & Hs & Hk & Hr & Hn)]].
    - now rewrite Hc.
    - now rewrite Hc, Hs.
    - rewrite Hc, Hs. destruct n as [|n].
      + now rewrite Hr.
      + destruct (Hk 0%nat ltac:(lia)) as (c & H0 & Hne). rewrite H0.
        apply (read_loop_fails _ _ _ n); try assumption; try lia.
        intros j Hj. apply Hk. lia. }
  unfold _send_command. rewrite Hx. now destruct He as [-> | ->].
Qed.

Lemma send_command_connection_failure_witness :
  _send_command (breaks_after ["Zookeeper version: 3.4"%string] SocketTimeout)
  = Raise ZKConnectionFailure.
Proof.
  apply (send_command_connection_failure _ 1 SocketTimeout).
  - left. reflexivity.
  - right. right. repeat split.
    + intros k Hk. assert (k = 0%nat) as -> by lia.
      eexists. split; [reflexivity | discriminate].
    + vm_compute. lia.
Defined.

(** ** The `ruok` phase *)

Lemma first_line_imok (answer : string) :
  String.eqb (fst (Py.readline (Py.lines answer))) "imok"
  = String.eqb answer "imok".
Proof.
  destruct (String.eqb_spec (fst (Py.readline (Py.lines answer))) "imok")
    as [H | H].
  - apply readline_no_newline in H.
    + subst answer. reflexivity.
    + intros c Hc. vm_compute in Hc.
      intuition (subst c; discriminate).
  - destruct (String.eqb_spec answer "imok") as [-> | _]; [|reflexivity].
    exfalso. apply H. reflexivity.
Qed.

Lemma check_ruok_answered (inst : instance) (connect_to : string -> peer)
  (answer : string) :
  let line := fst (Py.readline (Py.lines answer)) in
  _send_command (connect_to "ruok") = Return answer ->
  Py.is_ascii line = true ->
  check_ruok inst connect_to
  = Act [Command "ruok";
         ServiceCheck "zookeeper.ruok"
           (if String.eqb answer "imok" then OK else WARNING)
           ("Response from the server: " +:+ line) (sc_tags inst)]
        (Return tt).
Proof.
  intros line Hs Ha. unfold check_ruok, send.
  cbn [mbind action_bind mret action_ret emit app]. rewrite Hs.
  fold line. unfold Py.decode_ascii. rewrite Ha.
  unfold line at 1. rewrite first_line_imok. reflexivity.
Qed.

(** X3. When `ruok` is answered, the check emits the `zookeeper.ruok`
    service check once, with the host and port tags and a message that
    quotes the first line of the answer.  The status is OK exactly when
    the whole answer is the four bytes `imok`; every other answer, also
    `imok` followed by a line break, gives WARNING. *)
Theorem ruok_ok_iff_imok (inst : instance) (connect_to : string -> peer)
  (answer : string) :
  let line := fst (Py.readline (Py.lines answer)) in
  _send_command (connect_to "ruok") = Return answer ->
  Py.is_ascii line = true ->
  check_ruok inst connect_to
  = Act [Command "ruok";
         ServiceCheck "zookeeper.ruok"
           (if String.eqb answer "imok" then OK else WARNING)
           ("Response from the server: " +:+ line) (sc_tags inst)]
        (Return tt).
Proof. exact (check_ruok_answered inst connect_to answer). Qed.

Lemma ruok_ok_iff_imok_witness :
  check_ruok inst0 (fun _ => serve ("imok" +:+ eol))
  = Act [Command "ruok";
         ServiceCheck "zookeeper.ruok" WARNING
           ("Response from the server: imok" +:+ eol)
           ["host:localhost"; "port:2181"]%string]
        (Return tt).
Proof.
  apply (ruok_ok_iff_imok inst0 (fun _ => serve ("imok" +:+ eol))
           ("imok" +:+ eol)).
  - vm_compute. reflexivity.
  - vm_compute. reflexivity.
Defined.

(** X4. When the `ruok` connection fails with a `socket.timeout` or a
    `socket.error`, the check increments `zookeeper.timeouts`, emits the
    `zookeeper.ruok` service check as CRITICAL and re-raises
    ZKConnectionFailure: neither `stat` nor `mntr` is sent, no instance
    state is recorded. *)
Theorem ruok_refused_is_critical (inst : instance) (hostname : string)
  (connect_to : string -> peer) (e : exn) :
  e = SocketTimeout \/ e = SocketError ->
  p_connect (connect_to "ruok") = Some e ->
  check inst hostname connect_to
  = Act [Command "ruok"; Increment "zookeeper.timeouts";
         ServiceCheck "zookeeper.ruok" CRITICAL
           "No response from `ruok` command" (sc_tags inst)]
        (Raise ZKConnectionFailure).
Proof.
  intros He Hc. apply ruok_failure_propagates.
  unfold _send_command, exchange. rewrite Hc.
  now destruct He as [-> | ->].
Qed.

Lemma ruok_refused_is_critical_witness :
  check inst0 "zk1" (fun _ => refuses SocketError)
  = Act [Command "ruok"; Increment "zookeeper.timeouts";
         ServiceCheck "zookeeper.ruok" CRITICAL
           "No response from `ruok` command" (sc_tags inst0)]
        (Raise ZKConnectionFailure).
Proof.
  apply (ruok_refused_is_critical inst0 "zk1" (fun _ => refuses SocketError)
           SocketError).
  - right. reflexivity.
  - reflexivity.
Defined.

(** X5. The `finally` clause of the `ruok` phase reads `status` and
    `message`, which only the ZKConnectionFailure handler and the `else`
    clause assign.  When `_send_command` raises anything else (the read
    overrun), or when the first line of the answer is not ASCII and cannot
    be put into the unicode message, the check ends with UnboundLocalError
    and no `zookeeper.ruok` service check at all; nothing else is sent. *)
Theorem ruok_service_check_lost (inst : instance) (hostname : string)
  (connect_to : string -> peer) :
  (exists e, _send_command (connect_to "ruok") = Raise e
             /\ e <> ZKConnectionFailure)
  \/ (exists answer,
        _send_command (connect_to "ruok") = Return answer
        /\ Py.is_ascii (fst (Py.readline (Py.lines answer))) = false) ->
  exists var,
    check inst hostname connect_to
    = Act [Command "ruok"] (Raise (UnboundLocalError var)).
Proof.
  intros [(e & Hs & He) | (answer & Hs & Ha)].
  - exists "status"%string. unfold check, check_ruok, send.
    cbn [mbind action_bind mret action_ret emit app]. rewrite Hs.
    destruct e; try congruence; reflexivity.
  - exists "message"%string. unfold check, check_ruok, send.
    cbn [mbind action_bind mret action_ret emit app]. rewrite Hs.
    unfold Py.decode_ascii. rewrite Ha. reflexivity.
Qed.

Lemma ruok_service_check_lost_witness :
  exists var,
    check inst0 "zk1" (fun _ => chatty)
    = Act [Command "ruok"] (Raise (UnboundLocalError var)).
Proof.
  apply (ruok_service_check_lost inst0 "zk1" (fun _ => chatty)).
  left. eexists. split.
  - vm_compute. reflexivity.
  - discriminate.
Defined.

(** ** The `stat` and `mntr` phases when the connection fails *)

(** X6. When the `stat` connection fails (ZKConnectionFailure), the check
    increments `zookeeper.timeouts`, records the instance state `down`,
    and returns normally without sending `mntr`. *)
Theorem stat_connection_failure_records_down (inst : instance)
  (hostname : string) (connect_to : string -> peer) :
  outcome (check_ruok inst connect_to) = Return tt ->
  _send_command (connect_to "stat") = Raise ZKConnectionFailure ->
  check inst hostname connect_to
  = Act (events (check_ruok inst connect_to)
         ++ [Command "stat"; Increment "zookeeper.timeouts"]
         ++ events (set_instance_status hostname "down"))
        (Return tt).
Proof.
  intros Hruok Hsend. unfold check, check_stat, send. rewrite Hsend.
  destruct (check_ruok inst connect_to) as [evs r]. simpl in Hruok. subst r.
  destruct (set_instance_status_events hostname "down") as (gs & -> & _).
  simpl. by rewrite !app_nil_r.
Qed.

Lemma stat_connection_failure_records_down_witness :
  check inst0 "zk1" stat_refused_net
  = Act (events (check_ruok inst0 stat_refused_net)
         ++ [Command "stat"; Increment "zookeeper.timeouts"]
         ++ events (set_instance_status "zk1" "down"))
        (Return tt).
Proof.
  apply (stat_connection_failure_records_down inst0 "zk1" stat_refused_net);
    reflexivity.
Defined.

(** X7. When `mntr` is sent and `_send_command` raises, the check returns
    normally all the same: a ZKConnectionFailure increments
    `zookeeper.timeouts`, any other exception is printed and increments
    `zookeeper.datadog_client_exception`; no gauge follows. *)
Theorem mntr_failure_is_counted (inst : instance) (hostname : string)
  (connect_to : string -> peer) (version : string) (e : exn) :
  outcome (check_ruok inst connect_to) = Return tt ->
  outcome (check_stat inst hostname connect_to) = Return (Some version) ->
  supports_mntr (Some version) = true ->
  _send_command (connect_to "mntr") = Raise e ->
  check inst hostname connect_to
  = Act (events (check_ruok inst connect_to)
         ++ events (check_stat inst hostname connect_to)
         ++ Command "mntr"
            :: match e with
               | ZKConnectionFailure => [Increment "zookeeper.timeouts"]
               | _ => [Stderr e;
                       Increment "zookeeper.datadog_client_exception"]
               end)
        (Return tt).
Proof.
  intros Hruok Hstat Hgate Hsend.
  unfold check, check_mntr, send. rewrite Hsend.
  destruct (check_ruok inst connect_to) as [evs r]. simpl in Hruok. subst r.
  destruct (check_stat inst hostname connect_to) as [evs' r].
  simpl in Hstat. subst r.
  cbn [mbind action_bind mret action_ret emit events app].
  rewrite Hgate. destruct e; reflexivity.
Qed.

Lemma mntr_failure_is_counted_witness :
  check inst0 "zk1" mntr_refused_net
  = Act (events (check_ruok inst0 mntr_refused_net)
         ++ events (check_stat inst0 "zk1" mntr_refused_net)
         ++ [Command "mntr"; Increment "zookeeper.timeouts"])
        (Return tt).
Proof.
  apply (mntr_failure_is_counted inst0 "zk1" mntr_refused_net "3.4.5"
           ZKConnectionFailure).
  - vm_compute. reflexivity.
  - vm_compute. reflexivity.
  - vm_compute. reflexivity.
  - vm_compute. reflexivity.
Defined.

(** ** What every invocation does *)

Lemma check_mntr_commands (inst : instance) (connect_to : string -> peer) :
  commands_of (events (check_mntr inst connect_to)) = ["mntr"%string].
Proof.
  unfold check_mntr, send.
  cbn [mbind action_bind mret action_ret emit events app].
  destruct (_send_command (connect_to "mntr")) as [out | e].
  - unfold report_mntr.
    destruct (parse_mntr out) as [[[m|] state] | e];
      cbn [lift mbind action_bind mret action_ret emit events app];
      try reflexivity.
    + destruct (String.eqb state "inactive"); [reflexivity|].
      rewrite for_each_emit. cbn [events app commands_of flat_map].
      f_equal. induction (map_to_list m) as [|x l IH]; [reflexivity | exact IH].
    + destruct (String.eqb state "inactive"); reflexivity.
  - destruct e; reflexivity.
Qed.

Lemma check_commands_eq (inst : instance) (hostname : string)
  (connect_to : string -> peer) :
  commands_of (events (check inst hostname connect_to))
  = "ruok"%string
    :: match outcome (check_ruok inst connect_to) with
       | Raise _ => []
       | Return _ =>
           "stat"%string
           :: match outcome (check_stat inst hostname connect_to) with
              | Return zk_version =>
                  if supports_mntr zk_version then ["mntr"%string] else []
              | Raise _ => []
              end
       end.
Proof.
  unfold check.
  rewrite events_bind, commands_of_app, check_ruok_commands.
  cbn [app]. f_equal.
  destruct (outcome (check_ruok inst connect_to)) as [[] | e]; [|reflexivity].
  rewrite events_bind, commands_of_app, check_stat_commands.
  cbn [app]. f_equal.
  destruct (outcome (check_stat inst hostname connect_to)) as [v | e];
    [|reflexivity].
  destruct (supports_mntr v); [apply check_mntr_commands | reflexivity].
Qed.

(** X8. The commands of one invocation: `ruok` first; `stat` when the
    `ruok` phase did not raise; `mntr` last, when the `stat` phase returned
    a version that passes the gate.  Each is sent at most once, in this
    order: nothing is retried. *)
Theorem check_commands_in_order (inst : instance) (hostname : string)
  (connect_to : string -> peer) :
  commands_of (events (check inst hostname connect_to))
  = "ruok"%string
    :: match outcome (check_ruok inst connect_to) with
       | Raise _ => []
       | Return _ =>
           "stat"%string
           :: match outcome (check_stat inst hostname connect_to) with
              | Return zk_version =>
                  if supports_mntr zk_version then ["mntr"%string] else []
              | Raise _ => []
              end
       end.
Proof. exact (check_commands_eq inst hostname connect_to). Qed.

Lemma set_instance_status_modes (hostname status : string) :
  instance_modes_of (events (set_instance_status hostname status))
  = [["mode:" +:+ status]].
Proof.
  destruct (set_instance_status_events hostname status) as (gs & -> & Hg).
  cbn [events]. change (instance_modes_of (?e :: gs))
    with (["mode:" +:+ status] :: instance_modes_of gs).
  f_equal. induction Hg as [|e gs' (k & v & ->) _ IH]; [reflexivity | exact IH].
Qed.

Lemma check_ruok_modes (inst : instance) (connect_to : string -> peer) :
  instance_modes_of (events (check_ruok inst connect_to)) = [].
Proof.
  unfold check_ruok, send.
  cbn [mbind action_bind mret action_ret emit events app].
  destruct (_send_command (connect_to "ruok")) as [out | e].
  - destruct (Py.decode_ascii _); reflexivity.
  - destruct e; reflexivity.
Qed.

Lemma check_mntr_modes (inst : instance) (connect_to : string -> peer) :
  instance_modes_of (events (check_mntr inst connect_to)) = [].
Proof.
  unfold check_mntr, send.
  cbn [mbind action_bind mret action_ret emit events app].
  destruct (_send_command (connect_to "mntr")) as [out | e].
  - unfold report_mntr.
    destruct (parse_mntr out) as [[[m|] state] | e];
      cbn [lift mbind action_bind mret action_ret emit events app];
      try reflexivity.
    + destruct (String.eqb state "inactive"); [reflexivity|].
      rewrite for_each_emit. cbn [events app instance_modes_of flat_map].
      induction (map_to_list m) as [|x l IH]; [reflexivity | exact IH].
    + destruct (String.eqb state "inactive"); reflexivity.
  - destruct e; reflexivity.
Qed.

Lemma report_stat_modes (inst : instance) (hostname stat_out : string) :
  let m := report_stat inst hostname stat_out in
  (length (instance_modes_of (events m)) <= 1)%nat
  /\ forall v, outcome m = Return v ->
               exists state, instance_modes_of (events m)
                             = [["mode:" +:+ state]].
Proof.
  cbn zeta. unfold report_stat.
  destruct (parse_stat stat_out) as [[[[metrics tags] state] version] | e];
    [| split; [cbn; lia | intros v H; discriminate H]].
  unfold lift. rewrite bind_ret_l.
  set (g := if String.eqb state "inactive" then _ else _).
  assert (Hg : instance_modes_of (events g) = []).
  { subst g. destruct (String.eqb state "inactive"); [reflexivity|].
    destruct metrics as [ms|], tags as [ts|]; try reflexivity.
    rewrite for_each_emit. cbn [events].
    induction ms as [|x l IH]; [reflexivity | exact IH]. }
  destruct (mode_check_quiet inst state) as [_ Hm].
  assert (He : instance_modes_of
                 (events (g;; set_instance_status hostname state;;
                          mode_check inst state;; mret version))
               = match outcome g with
                 | Return _ => [["mode:" +:+ state]]
                 | Raise _ => []
                 end).
  { rewrite events_bind, instance_modes_of_app, Hg. cbn [app].
    destruct (outcome g); [|reflexivity].
    rewrite events_bind, instance_modes_of_app, set_instance_status_modes.
    destruct (set_instance_status_events hostname state) as (gs & -> & _).
    cbn [outcome]. rewrite events_bind, instance_modes_of_app, Hm.
    cbn [app]. destruct (outcome (mode_check inst state)); reflexivity. }
  rewrite He. split.
  - destruct (outcome g); cbn; lia.
  - intros v Hv. rewrite outcome_bind in Hv.
    destruct (outcome g); [|discriminate Hv]. by exists state.
Qed.

Lemma check_stat_modes (inst : instance) (hostname : string)
  (connect_to : string -> peer) :
  let m := check_stat inst hostname connect_to in
  (length (instance_modes_of (events m)) <= 1)%nat
  /\ forall v, outcome m = Return v ->
               exists state, instance_modes_of (events m)
                             = [["mode:" +:+ state]].
Proof.
  cbn zeta. unfold check_stat, send.
  rewrite !events_bind, !outcome_bind.
  cbn [emit events outcome mret action_ret app].
  destruct (_send_command (connect_to "stat")) as [out | e].
  - change (instance_modes_of (Command "stat" :: ?l))
      with (instance_modes_of l).
    apply report_stat_modes.
  - pose proof (set_instance_status_modes hostname "down") as Hd.
    pose proof (set_instance_status_modes hostname "unknown") as Hu.
    destruct (set_instance_status_events hostname "down") as (gd & Ed & _).
    destruct (set_instance_status_events hostname "unknown") as (gu & Eu & _).
    rewrite Ed in Hd. rewrite Eu in Hu. cbn [events] in Hd, Hu.
    destruct e; rewrite ?Ed, ?Eu;
      cbn [mbind action_bind mret action_ret emit events outcome app];
      rewrite ?app_nil_r;
      (split; [| intros v _; eexists]);
      repeat match goal with
        | |- context [instance_modes_of (Command ?c :: ?l)] =>
            change (instance_modes_of (Command c :: l))
              with (instance_modes_of l)
        | |- context [instance_modes_of (Increment ?c :: ?l)] =>
            change (instance_modes_of (Increment c :: l))
              with (instance_modes_of l)
        | |- context [instance_modes_of (Stderr ?c :: ?l)] =>
            change (instance_modes_of (Stderr c :: l))
              with (instance_modes_of l)
        end;
      rewrite ?Hd, ?Hu; try reflexivity; cbn; lia.
Qed.

(** X9. No invocation records more than one instance state through
    `self.set('zookeeper.instances', ...)`, and an invocation that returns
    normally records exactly one. *)
Theorem one_instance_state_per_check (inst : instance) (hostname : string)
  (connect_to : string -> peer) :
  let m := check inst hostname connect_to in
  (length (instance_modes_of (events m)) <= 1)%nat
  /\ (outcome m = Return tt ->
      exists state, instance_modes_of (events m) = [["mode:" +:+ state]]).
Proof.
  cbn zeta. unfold check.
  rewrite !events_bind, !outcome_bind, !instance_modes_of_app,
    check_ruok_modes.
  cbn [app].
  destruct (outcome (check_ruok inst connect_to)) as [[] | e];
    [| split; [cbn; lia | discriminate]].
  rewrite ?instance_modes_of_app.
  destruct (check_stat_modes inst hostname connect_to) as [Hle Hex].
  destruct (outcome (check_stat inst hostname connect_to)) as [v | e].
  - destruct (Hex v eq_refl) as (state & Hs).
    assert (Hm : instance_modes_of
                   (events (if supports_mntr v
                            then check_mntr inst connect_to else mret tt))
                 = []).
    { destruct (supports_mntr v); [apply check_mntr_modes | reflexivity]. }
    rewrite Hm, app_nil_r. split; [exact Hle |].
    intros _. by exists state.
  - rewrite app_nil_r. split; [exact Hle | discriminate].
Qed.

(** ** `version_pattern`: what the groups capture *)

Section VersionGroups.

Lemma lower_ascii_dot (x : ascii) (c : ascii) :
  c = "."%char \/ c = "-"%char ->
  Re.lit_eqb x c = true -> x = c.
Proof.
  intros [-> | ->];
    destruct x as [[] [] [] [] [] [] [] []]; vm_compute; intros H;
    first [reflexivity | discriminate H].
Qed.

Lemma group_not_sound (c : ascii) (k : string -> option (list string))
  (s g : string) (gs : list string) :
  Re.group_not c k s = Some (g, gs) ->
  exists rest, s = g +:+ rest /\ g <> EmptyString /\ lacks c g = true
               /\ k rest = Some gs.
Proof.
  revert g gs. induction s as [|a s IH]; intros g gs H; [discriminate H|].
  cbn [Re.group_not] in H.
  destruct (Ascii.eqb a c) eqn:Hac; [discriminate H|].
  destruct (Re.group_not c k s) as [[g' gs']|] eqn:Hg.
  - injection H as <- <-. destruct (IH g' gs' eq_refl) as (rest & -> & Hne & Hl & Hk).
    exists rest. rewrite append_cons. cbn [lacks]. rewrite Hac, Hl.
    repeat split; [discriminate | exact Hk].
  - destruct (k s) as [gs'|] eqn:Hk; [|discriminate H].
    injection H as <- <-. exists s.
    rewrite append_cons, append_nil_l. cbn [lacks]. rewrite Hac.
    repeat split; [discriminate | exact Hk].
Qed.

Lemma group_not_greedy (c : ascii) (k : string -> option (list string))
  (s g : string) (gs : list string) :
  (forall t, is_Some (k t)) ->
  Re.group_not c k s = Some (g, gs) ->
  exists rest, s = g +:+ rest
               /\ (rest = EmptyString \/ exists r, rest = String c r).
Proof.
  intros Hk. revert g gs. induction s as [|a s IH]; intros g gs H;
    [discriminate H|].
  cbn [Re.group_not] in H.
  destruct (Ascii.eqb a c) eqn:Hac; [discriminate H|].
  destruct (Re.group_not c k s) as [[g' gs']|] eqn:Hg.
  - injection H as <- <-. destruct (IH g' gs' eq_refl) as (rest & -> & Hr).
    exists rest. now rewrite append_cons.
  - destruct (k s) as [gs'|] eqn:Hks; [|discriminate H].
    injection H as <- <-. exists s. rewrite append_cons, append_nil_l.
    split; [reflexivity|].
    destruct s as [|b s]; [now left | right].
    cbn [Re.group_not] in Hg.
    destruct (Ascii.eqb_spec b c) as [-> | Hbc]; [now exists s|].
    destruct (Re.group_not c k s) as [[? ?]|]; [discriminate Hg|].
    destruct (Hk s) as [x Hx]. rewrite Hx in Hg. discriminate Hg.
Qed.

Lemma group_not_all (c : ascii) (k : string -> option (list string))
  (x : ascii) (g : string) (gs : list string) :
  lacks c (String x g) = true ->
  k EmptyString = Some gs ->
  Re.group_not c k (String x g) = Some (String x g, gs).
Proof.
  revert x. induction g as [|y g IH]; intros x Hl Hk.
  - cbn [lacks] in Hl. rewrite andb_true_r in Hl.
    cbn [Re.group_not]. apply negb_true_iff in Hl. now rewrite Hl, Hk.
  - cbn [lacks] in Hl. apply andb_true_iff in Hl as [Hx Hl].
    apply negb_true_iff in Hx.
    change (Re.group_not c k (String x (String y g)))
      with (if Ascii.eqb x c then None
            else match Re.group_not c k (String y g) with
                 | Some (g0, gs0) => Some (String x g0, gs0)
                 | None => match k (String y g) with
                           | Some gs0 => Some (String x EmptyString, gs0)
                           | None => None
                           end
                 end).
    rewrite Hx, (IH y Hl Hk). reflexivity.
Qed.

Lemma match_lits_any_case (q : string) (r : list Re.item) :
  forall p s : string,
    Py.lower p = Py.lower q ->
    Re.match_ (Re.lits q ++ r) (p +:+ s) = Re.match_ r s.
Proof.
  induction q as [|c q IH]; intros p s H.
  - destruct p; [reflexivity | discriminate H].
  - destruct p as [|a p]; [discriminate H|].
    cbn [Py.lower] in H. injection H as Ha Hp.
    rewrite append_cons.
    change (Re.lits (String c q) ++ r) with (Re.Lit c :: (Re.lits q ++ r)).
    cbn [Re.match_]. unfold Re.lit_eqb. rewrite Ha, Ascii.eqb_refl.
    now apply IH.
Qed.

Lemma match_lits_inv (q : string) (r : list Re.item) :
  forall (line : string) (gs : list string),
    Re.match_ (Re.lits q ++ r) line = Some gs ->
    exists p s, line = p +:+ s /\ Py.lower p = Py.lower q
                /\ Re.match_ r s = Some gs.
Proof.
  induction q as [|c q IH]; intros line gs H.
  - exists EmptyString, line. now rewrite append_nil_l.
  - change (Re.lits (String c q) ++ r) with (Re.Lit c :: (Re.lits q ++ r)) in H.
    cbn [Re.match_] in H. destruct line as [|a line]; [discriminate H|].
    destruct (Re.lit_eqb a c) eqn:Hac; [|discriminate H].
    destruct (IH line gs H) as (p & s & -> & Hp & Hm).
    exists (String a p), s. rewrite append_cons. cbn [Py.lower].
    unfold Re.lit_eqb in Hac. apply Ascii.eqb_eq in Hac.
    now rewrite Hac, Hp.
Qed.

Lemma version_groups_iff (line : string) (gs : list string) :
  Re.match_ version_pattern line = Some gs
  <-> exists prefix major minor patch rest,
        gs = [major; minor; patch]
        /\ line = prefix
                  +:+ (major
                       +:+ String "." (minor +:+ String "." (patch +:+ rest)))
        /\ Py.lower prefix = "zookeeper version: "%string
        /\ (major <> EmptyString /\ lacks "." major = true)
        /\ (minor <> EmptyString /\ lacks "." minor = true)
        /\ (patch <> EmptyString /\ lacks "-" patch = true)
        /\ (rest = EmptyString \/ exists r, rest = String "-" r).
Proof.
  unfold version_pattern. split.
  - intros H. apply match_lits_inv in H as (p & s & -> & Hp & H).
    cbn [Re.match_] in H.
    destruct (Re.group_not "." _ s) as [[a gs1]|] eqn:H1; [|discriminate H].
    injection H as <-.
    apply group_not_sound in H1 as (s1 & -> & Ha & Hla & H1).
    destruct s1 as [|x s1]; [discriminate H1|].
    destruct (Re.lit_eqb x ".") eqn:Hx; [|discriminate H1].
    apply lower_ascii_dot in Hx as ->; [|now left].
    destruct (Re.group_not "." _ s1) as [[b gs2]|] eqn:H2; [|discriminate H1].
    injection H1 as <-.
    apply group_not_sound in H2 as (s2 & -> & Hb & Hlb & H2).
    destruct s2 as [|y s2]; [discriminate H2|].
    destruct (Re.lit_eqb y ".") eqn:Hy; [|discriminate H2].
    apply lower_ascii_dot in Hy as ->; [|now left].
    destruct (Re.group_not "-" _ s2) as [[c gs3]|] eqn:H3; [|discriminate H2].
    injection H2 as <-.
    pose proof H3 as H3'.
    apply group_not_sound in H3 as (s3 & E3 & Hc & Hlc & H3).
    injection H3 as <-.
    apply group_not_greedy in H3' as (s3' & E3' & Hrest);
      [| intros t; now exists []].
    exists p, a, b, c, s3'. rewrite <- E3'. now repeat split.
  - intros (p & a & b & c & rest & -> & -> & Hp & [Ha Hla] & [Hb Hlb]
            & [Hc Hlc] & Hrest).
    rewrite match_lits_any_case by exact Hp.
    destruct a as [|a1 a]; [congruence|].
    destruct b as [|b1 b]; [congruence|].
    destruct c as [|c1 c]; [congruence|].
    cbn [Re.match_].
    assert (H3 : Re.group_not "-" (fun _ => Some []) (String c1 c +:+ rest)
                 = Some (String c1 c, [])).
    { destruct Hrest as [-> | [r ->]].
      - rewrite append_nil_r. now apply group_not_all.
      - now apply group_not_run. }
    rewrite (group_not_run "." _ a1 a _
               [String b1 b; String c1 c] Hla); [reflexivity|].
    rewrite lit_eqb_refl.
    rewrite (group_not_run "." _ b1 b _ [String c1 c] Hlb); [reflexivity|].
    rewrite lit_eqb_refl.
    change (fun s => Re.match_ [] s) with (fun _ : string => Some (@nil string)).
    now rewrite H3.
Qed.

End VersionGroups.

(** X10. `version_pattern` matches a line exactly when it starts with
    `Zookeeper version: ` in any letter case, followed by a major and a
    minor part that are non-empty and free of periods, each followed by a
    period, and a non-empty patch part that runs up to the first `-` or to
    the end of the text.  The three groups are these parts. *)
Theorem version_pattern_groups (line : string) (gs : list string) :
  Re.match_ version_pattern line = Some gs
  <-> exists prefix major minor patch rest,
        gs = [major; minor; patch]
        /\ line = prefix
                  +:+ (major
                       +:+ String "." (minor +:+ String "." (patch +:+ rest)))
        /\ Py.lower prefix = "zookeeper version: "%string
        /\ (major <> EmptyString /\ lacks "." major = true)
        /\ (minor <> EmptyString /\ lacks "." minor = true)
        /\ (patch <> EmptyString /\ lacks "-" patch = true)
        /\ (rest = EmptyString \/ exists r, rest = String "-" r).
Proof. exact (version_groups_iff line gs). Qed.

(** ** `split` and `join` *)

Section SplitJoin.

Lemma split_on_nonempty (c : ascii) (s : string) : Py.split_on c s <> [].
Proof.
  destruct s as [|a s]; [discriminate|]. cbn [Py.split_on].
  destruct (Ascii.eqb a c); [discriminate|].
  destruct (Py.split_on c s); discriminate.
Qed.

Lemma str_join_cons (sep w : string) (l : list string) :
  l <> [] -> str_join sep (w :: l) = w +:+ sep +:+ str_join sep l.
Proof. destruct l; [congruence | reflexivity]. Qed.

Lemma split_on_join (c : ascii) (s : string) :
  str_join (String c EmptyString) (Py.split_on c s) = s
  /\ Forall (fun w => lacks c w = true) (Py.split_on c s).
Proof.
  induction s as [|a s [IHj IHl]]; [split; [reflexivity | repeat constructor]|].
  cbn [Py.split_on]. destruct (Ascii.eqb a c) eqn:Hac.
  - apply Ascii.eqb_eq in Hac as ->.
    rewrite str_join_cons by apply split_on_nonempty.
    rewrite IHj, append_nil_l, append_cons, append_nil_l.
    split; [reflexivity | constructor; [reflexivity | exact IHl]].
  - destruct (Py.split_on c s) as [|w ws] eqn:Hs;
      [now apply split_on_nonempty in Hs|].
    apply Forall_cons in IHl as [Hw Hws].
    split; [| constructor; [cbn [lacks]; now rewrite Hac, Hw | exact Hws]].
    destruct ws as [|w' ws]; [cbn [str_join] in *; now subst|].
    rewrite str_join_cons in * by discriminate.
    rewrite append_cons. now rewrite IHj.
Qed.

Lemma split_on_two (c : ascii) (s k v : string) :
  Py.split_on c s = [k; v] ->
  s = k +:+ String c v /\ lacks c k = true /\ lacks c v = true.
Proof.
  intros H. destruct (split_on_join c s) as [Hj Hl]. rewrite H in Hj, Hl.
  cbn [str_join] in Hj. rewrite append_cons, append_nil_l in Hj.
  apply Forall_cons in Hl as [Hk Hl]. apply Forall_cons in Hl as [Hv _].
  now subst.
Qed.

End SplitJoin.

(** X11. `_, value = line.split(':')` gives the text after the colon
    exactly when the line holds one colon; a line with none, or with two or
    more (a time of day or an IPv6 address in the value), raises
    ValueError. *)
Theorem field_one_colon (line : string) :
  (forall value,
     field line = Return value
     <-> exists key, line = key +:+ String ":" value
                     /\ lacks ":" key = true /\ lacks ":" value = true)
  /\ ((exists value, field line = Return value)
      \/ field line = Raise ValueError).
Proof.
  split.
  - intros value. split.
    + unfold field. intros H.
      destruct (Py.split_on ":" line) as [|k [|v [|? ?]]] eqn:Hs;
        try discriminate H.
      injection H as ->. exists k. now apply split_on_two.
    + intros (key & -> & Hk & Hv). now apply field_key_value.
  - unfold field.
    destruct (Py.split_on ":" line) as [|k [|v [|? ?]]];
      first [now right | left; now eexists].
Qed.

(** ** `parse_stat`: the shape of every result *)

Section StatShape.

Lemma lower_no_upper (s : string) : has_upper (Py.lower s) = false.
Proof.
  unfold has_upper. induction s as [|c s IH]; [reflexivity|].
  cbn [Py.lower list_ascii_of_string existsb]. rewrite IH, orb_false_r.
  destruct c as [[] [] [] [] [] [] [] []]; reflexivity.
Qed.

Lemma decode_ascii_Return (s u : string) :
  Py.decode_ascii s = Return u -> u = s /\ Py.is_ascii s = true.
Proof.
  unfold Py.decode_ascii. destruct (Py.is_ascii s); [|discriminate].
  intros H. injection H as <-. now split.
Qed.

Lemma stat_body_shape (major minor patch : string) (ls : list string)
  (metrics : option (list (string * Z))) (tags : option (list string))
  (state : string) (version : option string) :
  stat_body major minor patch ls = Return (metrics, tags, state, version) ->
  exists l_min l_avg l_max received sent connections outstanding epoch count
         nodes,
    metrics = Some [("zookeeper.latency.min", l_min);
                    ("zookeeper.latency.avg", l_avg);
                    ("zookeeper.latency.max", l_max);
                    ("zookeeper.bytes_received", received);
                    ("zookeeper.bytes_sent", sent);
                    ("zookeeper.connections", connections);
                    ("zookeeper.bytes_outstanding", outstanding);
                    ("zookeeper.outstanding_requests", outstanding);
                    ("zookeeper.zxid.epoch", epoch);
                    ("zookeeper.zxid.count", count);
                    ("zookeeper.nodes", nodes)]%string
    /\ tags = Some ["mode:" +:+ state]
    /\ version = Some (major +:+ "." +:+ minor +:+ "." +:+ patch)
    /\ has_upper state = false
    /\ Py.is_ascii state = true.
Proof.
  unfold stat_body. intros H.
  destruct (Py.readline ls) as [l0 ls0].
  destruct (clients ls0) as [connections ls1].
  destruct (next_value ls1) as [[v1 ls2]|]; [|discriminate H].
  cbn [mbind result_bind] in H.
  destruct (map_result Py.int _) as [lat|]; [|discriminate H].
  cbn [mbind result_bind] in H.
  destruct lat as [|l_min [|l_avg [|l_max [|? ?]]]]; try discriminate H.
  destruct (next_value ls2) as [[v2 ls3]|]; [|discriminate H].
  cbn [mbind result_bind] in H.
  destruct (Py.long (Py.strip v2) 10) as [received|]; [|discriminate H].
  cbn [mbind result_bind] in H.
  destruct (next_value ls3) as [[v3 ls4]|]; [|discriminate H].
  cbn [mbind result_bind] in H.
  destruct (Py.long (Py.strip v3) 10) as [sent|]; [|discriminate H].
  cbn [mbind result_bind] in H.
  set (explicit := has_connections_val (major, minor, patch)) in H.
  assert (exists c ls5,
            (if explicit
             then '(value, ls) ← next_value ls4;
                  n ← Py.int (Py.strip value);
                  Return ([("zookeeper.latency.min", l_min);
                           ("zookeeper.latency.avg", l_avg);
                           ("zookeeper.latency.max", l_max)]%string
                          ++ [("zookeeper.bytes_received"%string, received)]
                          ++ [("zookeeper.bytes_sent"%string, sent)]
                          ++ [("zookeeper.connections"%string, n)], ls)
             else Return ([("zookeeper.latency.min", l_min);
                           ("zookeeper.latency.avg", l_avg);
                           ("zookeeper.latency.max", l_max)]%string
                          ++ [("zookeeper.bytes_received"%string, received)]
                          ++ [("zookeeper.bytes_sent"%string, sent)]
                          ++ [("zookeeper.connections"%string, connections)],
                          ls4))
            = Return ([("zookeeper.latency.min", l_min);
                       ("zookeeper.latency.avg", l_avg);
                       ("zookeeper.latency.max", l_max);
                       ("zookeeper.bytes_received", received);
                       ("zookeeper.bytes_sent", sent);
                       ("zookeeper.connections", c)]%string, ls5)
            \/ exists e, (if explicit
             then '(value, ls) ← next_value ls4;
                  n ← Py.int (Py.strip value);
                  Return ([("zookeeper.latency.min", l_min);
                           ("zookeeper.latency.avg", l_avg);
                           ("zookeeper.latency.max", l_max)]%string
                          ++ [("zookeeper.bytes_received"%string, received)]
                          ++ [("zookeeper.bytes_sent"%string, sent)]
                          ++ [("zookeeper.connections"%string, n)], ls)
             else Return ([("zookeeper.latency.min", l_min);
                           ("zookeeper.latency.avg", l_avg);
                           ("zookeeper.latency.max", l_max)]%string
                          ++ [("zookeeper.bytes_received"%string, received)]
                          ++ [("zookeeper.bytes_sent"%string, sent)]
                          ++ [("zookeeper.connections"%string, connections)],
                          ls4)) = Raise e) as Hc.
  { destruct explicit.
    - destruct (next_value ls4) as [[v ls5]|e]; [| exists 0, []; right; now exists e].
      cbn [mbind result_bind].
      destruct (Py.int (Py.strip v)) as [n|e]; [| exists 0, []; right; now exists e].
      exists n, ls5. now left.
    - exists connections, ls4. now left. }
  destruct Hc as (c & ls5 & [Hc | [e Hc]]).
  2:{ rewrite <- !app_assoc in H. cbn [app] in H, Hc.
      cbn [app] in H. rewrite Hc in H. discriminate H. }
  rewrite <- !app_assoc in H. cbn [app] in H, Hc. rewrite Hc in H.
  cbn [mbind result_bind] in H.
  destruct (next_value ls5) as [[v5 ls6]|]; [|discriminate H].
  cbn [mbind result_bind] in H.
  destruct (Py.long (Py.strip v5) 10) as [outstanding|]; [|discriminate H].
  cbn [mbind result_bind] in H.
  destruct (next_value ls6) as [[v6 ls7]|]; [|discriminate H].
  cbn [mbind result_bind] in H.
  destruct (Py.long (Py.strip v6) 16) as [zxid|]; [|discriminate H].
  cbn [mbind result_bind] in H.
  destruct (zxid_split zxid) as [[epoch count]|]; [|discriminate H].
  cbn [mbind result_bind] in H.
  destruct (next_value ls7) as [[v7 ls8]|]; [|discriminate H].
  cbn [mbind result_bind] in H.
  destruct (Py.decode_ascii _) as [umode|] eqn:Hd; [|discriminate H].
  apply decode_ascii_Return in Hd as [-> Ha].
  cbn [mbind result_bind] in H.
  destruct (next_value ls8) as [[v8 ls9]|]; [|discriminate H].
  cbn [mbind result_bind] in H.
  destruct (Py.long (Py.strip v8) 10) as [nodes|]; [|discriminate H].
  cbn [mbind result_bind app] in H.
  injection H as <- <- <- <-.
  exists l_min, l_avg, l_max, received, sent, c, outstanding, epoch, count,
    nodes.
  repeat split; [apply lower_no_upper | exact Ha].
Qed.

Lemma parse_stat_result_shape (buf : string)
  (metrics : option (list (string * Z))) (tags : option (list string))
  (state : string) (version : option string) :
  parse_stat buf = Return (metrics, tags, state, version) ->
  (metrics = None /\ tags = None /\ state = "inactive"%string
   /\ version = None)
  \/ exists (values : list Z) (major minor patch : string),
       metrics = Some (zip stat_metric_names values)
       /\ length values = 11%nat
       /\ values !! 6%nat = values !! 7%nat
       /\ tags = Some ["mode:" +:+ state]
       /\ version = Some (major +:+ "." +:+ minor +:+ "." +:+ patch)
       /\ has_upper state = false
       /\ Py.is_ascii state = true.
Proof.
  unfold parse_stat. destruct (Py.readline (Py.lines buf)) as [l ls].
  destruct (Re.match_ version_pattern l) as [[|a [|b [|c [|? ?]]]]|];
    try (intros H; injection H as <- <- <- <-; now left).
  intros H. right.
  apply stat_body_shape in H
    as (x0 & x1 & x2 & x3 & x4 & x5 & x6 & x7 & x8 & x9
        & -> & -> & -> & Hu & Ha).
  exists [x0; x1; x2; x3; x4; x5; x6; x6; x7; x8; x9], a, b, c.
  now repeat split.
Qed.

End StatShape.

(** X12. Whatever the answer: when `parse_stat` returns, the result is
    either the sentinel (no metrics, no tags, state `inactive`, no version)
    or the eleven metrics under their fixed names in their fixed order,
    `zookeeper.bytes_outstanding` and `zookeeper.outstanding_requests`
    with the same value, the one tag `mode:<state>`, a state in ASCII
    without upper-case letters, and a version of three parts joined by
    periods.  It never returns part of the metrics. *)
Theorem parse_stat_all_or_nothing (buf : string)
  (metrics : option (list (string * Z))) (tags : option (list string))
  (state : string) (version : option string) :
  parse_stat buf = Return (metrics, tags, state, version) ->
  (metrics = None /\ tags = None /\ state = "inactive"%string
   /\ version = None)
  \/ exists (values : list Z) (major minor patch : string),
       metrics = Some (zip stat_metric_names values)
       /\ length values = 11%nat
       /\ values !! 6%nat = values !! 7%nat
       /\ tags = Some ["mode:" +:+ state]
       /\ version = Some (major +:+ "." +:+ minor +:+ "." +:+ patch)
       /\ has_upper state = false
       /\ Py.is_ascii state = true.
Proof. exact (parse_stat_result_shape buf metrics tags state version). Qed.

Lemma parse_stat_all_or_nothing_witness :
  let metrics :=
    Some (zip stat_metric_names
            [-10; 0; 20007; 101032173; 0; 6; 0; 0; 1; 55024071; 487]) in
  let tags := Some ["mode:leader"%string] in
  (metrics = None /\ tags = None /\ "leader"%string = "inactive"%string
   /\ Some "3.2.2"%string = None)
  \/ exists (values : list Z) (major minor patch : string),
       metrics = Some (zip stat_metric_names values)
       /\ length values = 11%nat
       /\ values !! 6%nat = values !! 7%nat
       /\ tags = Some ["mode:" +:+ "leader"]
       /\ Some "3.2.2"%string
          = Some (major +:+ "." +:+ minor +:+ "." +:+ patch)
       /\ has_upper "leader" = false
       /\ Py.is_ascii "leader" = true.
Proof.
  apply (parse_stat_all_or_nothing doc_stat).
  vm_compute. reflexivity.
Defined.

(** ** The `stat` phase on a well-formed answer *)

Section StatPhase.

Lemma is_ascii_append (a b : string) :
  Py.is_ascii (a +:+ b) = Py.is_ascii a && Py.is_ascii b.
Proof.
  unfold Py.is_ascii. induction a as [|c a IH]; [now rewrite append_nil_l|].
  rewrite append_cons. cbn [list_ascii_of_string forallb].
  now rewrite IH, andb_assoc.
Qed.

Lemma mode_check_events (inst : instance) (state : string) :
  Py.is_ascii state = true ->
  Py.is_ascii (expected_mode inst) = true ->
  mode_check inst state = Act (mode_events inst state) (Return tt).
Proof.
  intros Hs He. unfold mode_check, mode_events.
  destruct (expected_mode inst) as [|c e] eqn:Hx; [reflexivity|].
  unfold Py.decode_ascii. rewrite He, is_ascii_append, Hs.
  change (Py.is_ascii "mode:") with true.
  cbn [andb lift mbind action_bind mret action_ret emit app].
  destruct (String.eqb state (String c e)); cbn [app];
    now rewrite <- ?append_assoc.
Qed.



End StatPhase.





Lemma has_upper_neq (a b : string) :
  has_upper a = false -> has_upper b = true -> String.eqb a b = false.
Proof.
  intros Ha Hb. destruct (String.eqb_spec a b) as [-> |]; [|reflexivity].
  congruence.
Qed.

(** X15. The state that `parse_stat` returns is lower-cased and the
    expected mode is not: with an expected mode that holds an upper-case
    letter (`Leader`), the mode service check is CRITICAL whatever the
    server answers. *)
Theorem expected_mode_is_case_sensitive (inst : instance) (stat_out : string)
  (metrics : option (list (string * Z))) (tags : option (list string))
  (state : string) (version : option string) :
  parse_stat stat_out = Return (metrics, tags, state, version) ->
  has_upper (expected_mode inst) = true ->
  Py.is_ascii (expected_mode inst) = true ->
  service_checks_of (events (mode_check inst state))
  = [("zookeeper.mode"%string, CRITICAL)]
  /\ outcome (mode_check inst state) = Return tt.
Proof.
  intros Hp Hu Ha.
  assert (has_upper state = false /\ Py.is_ascii state = true) as [Hs Hsa].
  { apply parse_stat_result_shape in Hp
      as [(_ & _ & -> & _) | (vs & a & b & c & _ & _ & _ & _ & _ & H1 & H2)];
      [split; reflexivity | now split]. }
  rewrite (mode_check_events inst state Hsa Ha). unfold mode_events.
  pose proof (has_upper_neq state (expected_mode inst) Hs Hu) as Hne.
  destruct (expected_mode inst) as [|c e]; [discriminate Hu|].
  rewrite Hne. split; reflexivity.
Qed.

Lemma expected_mode_is_case_sensitive_witness :
  service_checks_of (events (mode_check inst_Leader "leader"))
  = [("zookeeper.mode"%string, CRITICAL)]
  /\ outcome (mode_check inst_Leader "leader") = Return tt.
Proof.
  apply (expected_mode_is_case_sensitive inst_Leader doc_stat
           (Some (stat_metrics doc_values)) (Some ["mode:leader"%string])
           "leader" (Some "3.2.2"%string)).
  - vm_compute. reflexivity.
  - vm_compute. reflexivity.
  - vm_compute. reflexivity.
Defined.



(** ** `parse_mntr`: nothing but what the lines hold *)

Section MntrSound.

Lemma mntr_lines_sound (ls : list string) :
  forall (m m' : gmap string string),
    mntr_lines m ls = Return m' ->
    forall name v,
      m' !! name = Some v ->
      m !! name = Some v
      \/ exists line key, In line ls /\ Py.split_ws line = [key; v]
                          /\ metric_name key = name.
Proof.
  induction ls as [|line ls IH]; intros m m' H name v Hv.
  - cbn [mntr_lines] in H. injection H as ->. now left.
  - cbn [mntr_lines] in H. unfold mntr_line in H.
    destruct (Py.split_ws line) as [|key [|value [|? ?]]] eqn:Hl;
      try discriminate H.
    cbn [mbind result_bind] in H.
    destruct (IH _ _ H name v Hv) as [Hm | (l & k & Hin & Hs & Hn)].
    + destruct (decide (metric_name key = name)) as [Hk | Hk].
      * rewrite <- Hk, lookup_insert_eq in Hm. injection Hm as ->.
        right. exists line, key. repeat split; [now left | exact Hl | exact Hk].
      * rewrite lookup_insert_ne in Hm by exact Hk. now left.
    + right. exists l, k. repeat split; [now right | exact Hs | exact Hn].
Qed.

Lemma int_values_sound (raw : gmap string string) (ints : gmap string Z) :
  int_values raw = Return ints ->
  forall name, ints !! name = raw !! name ≫= int_opt.
Proof.
  intros H.
  destruct (int_values_ok raw) as (ints' & H' & Hl).
  - intros name v Hv. destruct (int_opt v) as [n|] eqn:E; [now exists n|].
    rewrite (int_values_fail raw name v Hv E) in H. discriminate H.
  - rewrite H in H'. injection H' as <-. exact Hl.
Qed.

Lemma parse_mntr_sound (buf : string) (metrics : gmap string Z)
  (state : string) :
  parse_mntr buf = Return (Some metrics, state) ->
  let ls := snd (Py.readline (Py.lines buf)) in
  metrics !! state_key = None
  /\ (exists line key value,
        In line ls /\ Py.split_ws line = [key; value]
        /\ metric_name key = state_key /\ state = Py.lower value)
  /\ forall name n,
       metrics !! name = Some n ->
       exists line key value,
         In line ls /\ Py.split_ws line = [key; value]
         /\ metric_name key = name /\ Py.int value = Return n.
Proof.
  unfold parse_mntr. destruct (Py.readline (Py.lines buf)) as [first ls].
  cbn [snd]. destruct (String.eqb first sentinel); [discriminate|].
  destruct (mntr_lines ∅ ls) as [raw|] eqn:Hraw; [|discriminate].
  cbn [mbind result_bind].
  destruct (raw !! state_key) as [st|] eqn:Hst; [|discriminate].
  destruct (int_values (delete state_key raw)) as [ints|] eqn:Hints;
    [|discriminate].
  cbn [mbind result_bind]. intros H. injection H as <- <-.
  pose proof (int_values_sound _ _ Hints) as Hl.
  split; [| split].
  - now rewrite Hl, lookup_delete_eq.
  - destruct (mntr_lines_sound ls ∅ raw Hraw state_key st Hst)
      as [H | (line & key & Hin & Hs & Hn)]; [now rewrite lookup_empty in H|].
    now exists line, key, st.
  - intros name n Hn. rewrite Hl in Hn.
    destruct (decide (name = state_key)) as [-> | Hne];
      [now rewrite lookup_delete_eq in Hn|].
    rewrite lookup_delete_ne in Hn by congruence.
    destruct (raw !! name) as [v|] eqn:Hv; [|discriminate Hn].
    cbn in Hn. apply int_opt_Some in Hn.
    destruct (mntr_lines_sound ls ∅ raw Hraw name v Hv)
      as [H | (line & key & Hin & Hs & Hk)]; [now rewrite lookup_empty in H|].
    now exists line, key, v.
Qed.

End MntrSound.

(** X17. `parse_mntr` invents nothing.  When it returns metrics, every
    metric is the integer reading of the value of some line after the
    first, under the transformed key of that line; the state is the
    lower-cased value of a line whose key becomes `zookeeper.server.state`,
    and that name is not among the metrics. *)
Theorem parse_mntr_reports_lines_only (buf : string)
  (metrics : gmap string Z) (state : string) :
  parse_mntr buf = Return (Some metrics, state) ->
  let ls := snd (Py.readline (Py.lines buf)) in
  metrics !! state_key = None
  /\ (exists line key value,
        In line ls /\ Py.split_ws line = [key; value]
        /\ metric_name key = state_key /\ state = Py.lower value)
  /\ forall name n,
       metrics !! name = Some n ->
       exists line key value,
         In line ls /\ Py.split_ws line = [key; value]
         /\ metric_name key = name /\ Py.int value = Return n.
Proof. exact (parse_mntr_sound buf metrics state). Qed.

Lemma parse_mntr_reports_lines_only_witness :
  let metrics : gmap string Z :=
    <["zookeeper.fsync.zookeeper"%string := 7]> ∅ in
  let ls := snd (Py.readline (Py.lines mntr_zk_twice)) in
  metrics !! state_key = None
  /\ (exists line key value,
        In line ls /\ Py.split_ws line = [key; value]
        /\ metric_name key = state_key /\ "leader"%string = Py.lower value)
  /\ forall name n,
       metrics !! name = Some n ->
       exists line key value,
         In line ls /\ Py.split_ws line = [key; value]
         /\ metric_name key = name /\ Py.int value = Return n.
Proof.
  apply (parse_mntr_reports_lines_only mntr_zk_twice
           (<["zookeeper.fsync.zookeeper"%string := 7]> ∅) "leader").
  vm_compute. reflexivity.
Defined.

(** ** The `mntr` phase *)

Lemma check_mntr_events (inst : instance) (connect_to : string -> peer)
  (mntr_out : string) (metrics : gmap string Z) (state : string) :
  _send_command (connect_to "mntr") = Return mntr_out ->
  parse_mntr mntr_out = Return (Some metrics, state) ->
  String.eqb state "inactive" = false ->
  check_mntr inst connect_to
  = Act (Command "mntr"
         :: map (fun nv => Gauge (fst nv) (snd nv)
                             (i_tags inst ++ ["mode:" +:+ state]))
                (map_to_list metrics))
        (Return tt).
Proof.
  intros Hs Hp Hi. unfold check_mntr, send. rewrite Hs.
  cbn [mbind action_bind mret action_ret emit app].
  unfold report_mntr, lift. rewrite Hp, bind_ret_l, Hi, for_each_emit.
  reflexivity.
Qed.

Lemma gauges_of_map (tags : list string) (l : list (string * Z)) :
  gauges_of (map (fun nv => Gauge (fst nv) (snd nv) tags) l) = l.
Proof.
  induction l as [|[k v] l IH]; [reflexivity|].
  cbn [map]. change (gauges_of (Gauge ?a ?b ?c :: ?r))
    with ((a, b) :: gauges_of r). now rewrite IH.
Qed.

(** X18. When `mntr` is answered and `parse_mntr` returns metrics with a
    state other than `inactive`, the mntr phase emits one gauge for each
    name of the dictionary, no name twice, with the value of the
    dictionary and the tags of the instance followed by `mode:<state>`;
    the state itself is not emitted as a gauge. *)
Theorem mntr_metrics_are_reported (inst : instance)
  (connect_to : string -> peer) (mntr_out : string)
  (metrics : gmap string Z) (state : string) :
  _send_command (connect_to "mntr") = Return mntr_out ->
  parse_mntr mntr_out = Return (Some metrics, state) ->
  String.eqb state "inactive" = false ->
  let m := check_mntr inst connect_to in
  outcome m = Return tt
  /\ events m
     = Command "mntr"
       :: map (fun nv => Gauge (fst nv) (snd nv)
                           (i_tags inst ++ ["mode:" +:+ state]))
              (gauges_of (events m))
  /\ NoDup (map fst (gauges_of (events m)))
  /\ (forall name value,
        In (name, value) (gauges_of (events m))
        <-> metrics !! name = Some value)
  /\ ~ In state_key (map fst (gauges_of (events m))).
Proof.
  intros Hs Hp Hi m. subst m.
  rewrite (check_mntr_events inst connect_to mntr_out metrics state Hs Hp Hi).
  cbn [outcome events].
  change (gauges_of (Command "mntr" :: ?l)) with (gauges_of l).
  rewrite gauges_of_map.
  split; [reflexivity|]. split; [reflexivity|].
  split; [apply NoDup_fst_map_to_list|].
  split.
  - intros name value. rewrite <- list_elem_of_In. apply elem_of_map_to_list.
  - intros Hin. apply in_map_iff in Hin as ([k n] & Hk & Hin).
    cbn in Hk. subst k.
    apply list_elem_of_In, elem_of_map_to_list in Hin.
    destruct (parse_mntr_sound mntr_out metrics state Hp) as [Hnone _].
    congruence.
Qed.

Lemma mntr_metrics_are_reported_witness :
  let m := check_mntr inst0 (fun _ => serve mntr_zk_twice) in
  outcome m = Return tt
  /\ events m
     = Command "mntr"
       :: map (fun nv => Gauge (fst nv) (snd nv) ([] ++ ["mode:leader"%string]))
              (gauges_of (events m))
  /\ NoDup (map fst (gauges_of (events m)))
  /\ (forall name value,
        In (name, value) (gauges_of (events m))
        <-> (<["zookeeper.fsync.zookeeper"%string := 7]> ∅ : gmap string Z)
            !! name = Some value)
  /\ ~ In state_key (map fst (gauges_of (events m))).
Proof.
  apply (mntr_metrics_are_reported inst0 (fun _ => serve mntr_zk_twice)
           mntr_zk_twice (<["zookeeper.fsync.zookeeper"%string := 7]> ∅)
           "leader").
  - vm_compute. reflexivity.
  - vm_compute. reflexivity.
  - vm_compute. reflexivity.
Defined.

(** ** utils/pidfile.py: the run directory *)

Section RunDir.

Lemma split_on_app_last (c : ascii) (a b : string) :
  lacks c b = true ->
  Py.split_on c (a +:+ String c b) = Py.split_on c a ++ [b].
Proof.
  intros Hb. induction a as [|x a IH].
  - rewrite append_nil_l. cbn [Py.split_on]. rewrite Ascii.eqb_refl.
    now rewrite (split_on_lacks c b Hb).
  - rewrite append_cons. cbn [Py.split_on]. rewrite IH.
    destruct (Ascii.eqb x c); [reflexivity|].
    destruct (Py.split_on c a) as [|w ws] eqn:Hs;
      [now apply split_on_nonempty in Hs | reflexivity].
Qed.

Lemma split_on_below (base : string) (cs : list string) :
  Forall (fun c => lacks "/" c = true) cs ->
  Py.split_on "/" (below base cs) = Py.split_on "/" base ++ cs.
Proof.
  intros H. revert base. induction H as [|c cs Hc _ IH]; intros base.
  - now rewrite app_nil_r.
  - unfold below. cbn [foldl]. fold (below (base +:+ String "/" c) cs).
    rewrite IH, (split_on_app_last "/" base c Hc), <- app_assoc.
    reflexivity.
Qed.

Lemma mac_run_dir (base : string) (cs : list string) :
  Forall (fun c => lacks "/" c = true) cs ->
  length cs = 4%nat ->
  let parts := Py.split_on "/" (below base cs) in
  str_join "/" (take (length parts - 4) parts) = base.
Proof.
  intros H Hl. cbn zeta. rewrite (split_on_below base cs H).
  rewrite length_app, Hl, Nat.add_sub, take_app_length.
  apply split_on_join.
Qed.

End RunDir.

(** X19. On a Mac, `get_dir()` without argument takes the directory four
    levels above the directory of the module, whatever the names of these
    four levels, and `run` below it: it behaves as `get_dir` called with
    that path. *)
Theorem get_dir_mac (sys : PidFile.os) (base : string) (cs : list string) :
  PidFile.is_mac sys = true ->
  PidFile.my_dir sys = below base cs ->
  Forall (fun c => lacks "/" c = true) cs ->
  length cs = 4%nat ->
  PidFile.get_dir sys None
  = PidFile.get_dir sys (Some (Posixpath.join base "run")).
Proof.
  intros Hm Hd Hc Hl. unfold PidFile.get_dir.
  now rewrite Hm, Hd, (mac_run_dir base cs Hc Hl).
Qed.

Lemma get_dir_mac_witness :
  PidFile.get_dir mac_os None
  = PidFile.get_dir mac_os
      (Some (Posixpath.join
               "/Applications/Datadog Agent.app/Contents/Resources" "run")).
Proof.
  apply (get_dir_mac mac_os
           "/Applications/Datadog Agent.app/Contents/Resources"
           ["lib"; "python2.7"; "site-packages.zip"; "utils"]%string).
  - reflexivity.
  - vm_compute. reflexivity.
  - apply (bool_decide_unpack _). vm_compute. exact I.
  - reflexivity.
Defined.

(** ** utils/pidfile.py: `clean` and `get_pid` *)

Section Clean.

Variable sys : PidFile.os.
Variable self : PidFile.t.

Lemma clean_cases (fs : PidFile.files) :
  let r := PidFile.clean sys self fs in
  (snd (fst r) = true
   /\ PidFile.access_w sys (PidFile.pid_dir self) = true
   /\ is_Some (fs !! PidFile.pid_path self)
   /\ snd r = delete (PidFile.pid_path self) fs)
  \/ (snd (fst r) = false /\ snd r = fs).
Proof.
  cbn zeta. unfold PidFile.clean, PidFile.get_path, PidFile.remove.
  destruct (PidFile.access_w sys (PidFile.pid_dir self)); [|now right].
  destruct (fs !! PidFile.pid_path self) as [c|] eqn:Hf; [|now right].
  destruct (PidFile.may_remove sys (PidFile.pid_path self)); [|now right].
  left. cbn [fst snd]. now repeat split.
Qed.

Lemma get_pid_missing (fs : PidFile.files) :
  fs !! PidFile.pid_path self = None ->
  snd (PidFile.get_pid sys self fs) = None.
Proof.
  intros H. unfold PidFile.get_pid, PidFile.get_path.
  destruct (PidFile.access_w sys (PidFile.pid_dir self)); [|reflexivity].
  now rewrite H.
Qed.

Lemma clean_missing (fs : PidFile.files) :
  fs !! PidFile.pid_path self = None ->
  snd (fst (PidFile.clean sys self fs)) = false.
Proof.
  intros H. unfold PidFile.clean, PidFile.get_path, PidFile.remove.
  destruct (PidFile.access_w sys (PidFile.pid_dir self)); [|reflexivity].
  now rewrite H.
Qed.

End Clean.

(** X20. `clean` never raises and touches no other file.  When it returns
    True the pid directory is writable, the pid file was there and is
    gone: `get_pid` then gives None and a second `clean` returns False.
    When it returns False the files are as before. *)
Theorem clean_removes_the_pid_file_only (sys : PidFile.os) (self : PidFile.t)
  (fs : PidFile.files) :
  let r := PidFile.clean sys self fs in
  let fs' := snd r in
  (forall path, path <> PidFile.pid_path self -> fs' !! path = fs !! path)
  /\ (if snd (fst r)
      then PidFile.access_w sys (PidFile.pid_dir self) = true
           /\ is_Some (fs !! PidFile.pid_path self)
           /\ fs' !! PidFile.pid_path self = None
           /\ snd (PidFile.get_pid sys self fs') = None
           /\ snd (fst (PidFile.clean sys self fs')) = false
      else fs' = fs).
Proof.
  cbn zeta.
  destruct (clean_cases sys self fs) as [(-> & Hw & Hf & ->) | (-> & ->)].
  - split; [intros path Hp; apply lookup_delete_ne; congruence|].
    assert (delete (PidFile.pid_path self) fs !! PidFile.pid_path self = None)
      as Hd by apply lookup_delete_eq.
    repeat split; try assumption.
    + now apply get_pid_missing.
    + now apply clean_missing.
  - now split.
Qed.

(** ** `int(str(n))` *)

Section DecimalRoundTrip.

Lemma all_digits_string_of_uint (d : Decimal.uint) :
  forallb Py.isdigit (list_ascii_of_string (NilEmpty.string_of_uint d)) = true.
Proof. induction d; cbn; try rewrite IHd; reflexivity. Qed.

Lemma decimal_string_of_uint (d : Decimal.uint) (acc : Z) :
  decimal acc (NilEmpty.string_of_uint d) = uint_value acc d.
Proof.
  revert acc. induction d; intros acc; cbn [NilEmpty.string_of_uint decimal
    uint_value]; try rewrite IHd; reflexivity.
Qed.

Lemma uint_value_pos (d : Decimal.uint) (acc : positive) :
  uint_value (Z.pos acc) d = Z.pos (Pos.of_uint_acc d acc).
Proof.
  revert acc. induction d; intros acc; cbn [uint_value Pos.of_uint_acc];
    [reflexivity | ..];
    match goal with
    | |- uint_value ?a _ = Z.pos (Pos.of_uint_acc _ ?p) =>
        replace a with (Z.pos p) by lia; apply IHd
    end.
Qed.

Lemma uint_value_0 (d : Decimal.uint) :
  uint_value 0 d = Z.of_N (Pos.of_uint d).
Proof.
  induction d; cbn [uint_value Pos.of_uint]; [reflexivity | exact IHd | ..];
    cbn [Z.mul Z.add Z.of_N]; apply uint_value_pos.
Qed.

Lemma int_str_of_Z (z : Z) : 0 <= z -> Py.int (Py.str_of_Z z) = Return z.
Proof.
  intros Hz. destruct z as [|p|p]; [reflexivity | | lia].
  unfold Py.str_of_Z. cbn [Z.to_int NilZero.string_of_int].
  pose proof (DecimalPos.Unsigned.to_uint_nonnil p) as Hn.
  assert (NilZero.string_of_uint (Pos.to_uint p)
          = NilEmpty.string_of_uint (Pos.to_uint p)) as ->
    by (unfold NilZero.string_of_uint; now destruct (Pos.to_uint p)).
  rewrite int_all_digits.
  - rewrite decimal_string_of_uint, uint_value_0, DecimalPos.Unsigned.of_to.
    reflexivity.
  - unfold all_digits. rewrite all_digits_string_of_uint.
    now destruct (Pos.to_uint p).
Qed.

End DecimalRoundTrip.

(** X21. When the pid file holds the decimal form of a pid, with white
    space or a line break around it, `get_pid` gives that pid back
    provided the pid directory is writable; when the directory is not
    writable it gives None although the file is there and readable, since
    the path is obtained through `get_path`. *)
Theorem get_pid_reads_decimal (sys : PidFile.os) (self : PidFile.t)
  (fs : PidFile.files) (pid : Z) (content : string) :
  0 <= pid ->
  fs !! PidFile.pid_path self = Some (Some content) ->
  Py.strip content = Py.str_of_Z pid ->
  snd (PidFile.get_pid sys self fs)
  = if PidFile.access_w sys (PidFile.pid_dir self) then Some pid else None.
Proof.
  intros Hp Hf Hc. unfold PidFile.get_pid, PidFile.get_path.
  destruct (PidFile.access_w sys (PidFile.pid_dir self)); [|reflexivity].
  rewrite Hf, Hc, (int_str_of_Z pid Hp). reflexivity.
Qed.

Lemma get_pid_reads_decimal_witness :
  snd (PidFile.get_pid mac_os agent_pid agent_files) = Some 4242.
Proof.
  apply (get_pid_reads_decimal mac_os agent_pid agent_files 4242
           ("4242" +:+ eol)).
  - lia.
  - vm_compute. reflexivity.
  - vm_compute. reflexivity.
Defined.

(** ** `set_instance_status`: the set and the tags *)

(** X22. `set_instance_status` first adds the host name to the set
    `zookeeper.instances`, tagged `mode:<status>` with the status as it
    was given (also a status outside the seven, for which the gauge that
    is set is `unknown`), and then emits nothing but
    `zookeeper.instances.*` gauges, without tags; it does not raise. *)
Theorem set_instance_status_tags (hostname status : string) :
  exists gauges : list event,
    set_instance_status hostname status
    = Act (SetValue "zookeeper.instances" hostname ["mode:" +:+ status]
           :: gauges) (Return tt)
    /\ Forall (fun e => exists k v,
                 e = Gauge ("zookeeper.instances." +:+ k) v []) gauges.
Proof. exact (set_instance_status_events hostname status). Qed.

(** ** An invocation in which everything goes well *)

Section HappyPath.





End HappyPath.


